(** * white_silence_black_ink: the static site build script, build.js

  A shallow embedding of [build.js] and the properties of its
  specification.  The script reads JSON content and HTML templates below
  its own directory, substitutes placeholder tokens in the templates and
  writes the pages to [dist/].

  JavaScript strings are modelled by [string]: the sequence of bytes of
  their UTF-8 encoding.  The tokens the script searches for and the
  characters [String.prototype.replace] interprets are ASCII, so searching
  and substituting commute with the encoding.  What Node.js provides and
  the script only calls (the JSON parser, number formatting, collation) is
  the interface [Host]. *)

From Stdlib Require Import List String Ascii ZArith Lia Bool.
From Stdlib Require Import Permutation Sorted DecimalString.
Import ListNotations.

Set Warnings "-register-all,-notation-for-abbreviation".

Local Open Scope string_scope.
Local Open Scope list_scope.

Infix "+:+" := String.append (at level 60, right associativity).

(** ** Strings *)

Module Str.

Definition dquote : string := String (ascii_of_nat 34) "".
Definition newline : string := String (ascii_of_nat 10) "".

(** Text with every single quote turned into a double quote: JSON and
    HTML samples are written with single quotes. *)
Fixpoint dq (s : string) : string :=
  match s with
  | "" => ""
  | String c r =>
      String (if Ascii.eqb c "'" then ascii_of_nat 34 else c) (dq r)
  end.

(** [stripPrefix p s] is the rest of [s] after its prefix [p]. *)
Fixpoint stripPrefix (p s : string) : option string :=
  match p with
  | "" => Some s
  | String a p' =>
      match s with
      | "" => None
      | String b s' => if Ascii.eqb a b then stripPrefix p' s' else None
      end
  end.

Definition startsWith (s p : string) : bool :=
  match stripPrefix p s with Some _ => true | None => false end.

(** [s.endsWith(suffix)] *)
Fixpoint endsWith (s suffix : string) : bool :=
  if String.eqb s suffix then true
  else match s with
       | "" => false
       | String _ s' => endsWith s' suffix
       end.

(** [splitFirst pat s] cuts [s] around the first occurrence of [pat]:
    the text before it and the text after it. *)
Fixpoint splitFirst (pat s : string) : option (string * string) :=
  match stripPrefix pat s with
  | Some post => Some ("", post)
  | None =>
      match s with
      | "" => None
      | String c s' =>
          match splitFirst pat s' with
          | Some (pre, post) => Some (String c pre, post)
          | None => None
          end
      end
  end.

(** [occursIn pat s]: [s.includes(pat)] *)
Definition occursIn (pat s : string) : bool :=
  match splitFirst pat s with Some _ => true | None => false end.

(** GetSubstitution of ECMA-262 for a string pattern: no captures, so
    only [$$], [$&], [$`] and [$'] are replaced; a [$] before anything
    else stands for itself. *)
Fixpoint GetSubstitution (matched pre post template : string) : string :=
  match template with
  | "" => ""
  | String c tail =>
      if Ascii.eqb c "$" then
        match tail with
        | "" => "$"
        | String d rest =>
            if Ascii.eqb d "$" then
              "$" +:+ GetSubstitution matched pre post rest
            else if Ascii.eqb d "&" then
              matched +:+ GetSubstitution matched pre post rest
            else if Ascii.eqb d "`" then
              pre +:+ GetSubstitution matched pre post rest
            else if Ascii.eqb d "'" then
              post +:+ GetSubstitution matched pre post rest
            else
              String c (GetSubstitution matched pre post tail)
        end
      else String c (GetSubstitution matched pre post tail)
  end.

(** [s.replace(pat, replacement)] for a string [pat] and a string
    [replacement]: the first occurrence only. *)
Definition replace (s pat replacement : string) : string :=
  match splitFirst pat s with
  | None => s
  | Some (pre, post) =>
      pre +:+ GetSubstitution pat pre post replacement +:+ post
  end.

(** What the specification describes: the first occurrence of [pat]
    replaced by the text [replacement] itself. *)
Definition replaceFirstLiteral (s pat replacement : string) : string :=
  match splitFirst pat s with
  | None => s
  | Some (pre, post) => pre +:+ replacement +:+ post
  end.


Fixpoint join (sep : string) (l : list string) : string :=
  match l with
  | [] => ""
  | [x] => x
  | x :: r => x +:+ sep +:+ join sep r
  end.

Definition ofNat (n : nat) : string :=
  NilEmpty.string_of_uint (Nat.to_uint n).

(** Code-unit order of two strings, as a number of the sign
    [a.localeCompare(b)] has for ASCII digits and letters of one case. *)
Fixpoint compareCodeUnits (a b : string) : Z :=
  match a, b with
  | "", "" => 0
  | "", String _ _ => -1
  | String _ _, "" => 1
  | String x a', String y b' =>
      match Nat.compare (nat_of_ascii x) (nat_of_ascii y) with
      | Lt => -1
      | Gt => 1
      | Eq => compareCodeUnits a' b'
      end
  end%Z.

End Str.

(** The first entry of an association list under a key: the own property
  of an object, the entry of a directory. *)
Fixpoint assoc {A} (k : string) (l : list (string * A)) : option A :=
match l with
| [] => None
| (k', x) :: r => if String.eqb k k' then Some x else assoc k r
end.

(** ** JSON values and the host *)

(** The values [JSON.parse] returns.  An object is the list of its own
  properties in enumeration order.  [number] stands for the IEEE doubles
  of the host. *)
Inductive value {number : Type} : Type :=
| JNull
| JBool (b : bool)
| JNumber (n : number)
| JString (s : string)
| JArray (items : list value)
| JObject (props : list (string * value)).
Arguments value : clear implicits.

(** What the script takes from Node.js without defining it. *)
Class Host : Type := {
number : Type;
(** [n] is [+0] or [-0]: the numbers of a JSON text that are falsy *)
Number_isZero : number -> bool;
Number_isFinite : number -> bool;
(** Number::toString *)
Number_toString : number -> string;
(** [JSON.parse]: the value, or the message of the SyntaxError *)
JSON_parse : string -> value number + string;
(** [a.localeCompare(b)] in the locale of the process *)
localeCompare : string -> string -> Z;
(** [(ms / 1000).toFixed(2)] for a difference [ms] of two clock readings *)
toFixed2 : Z -> string
}.

Notation json := (value number).

(** ** Exceptions and results *)

Inductive exn : Type :=
| TypeError (message : string)
| SyntaxError (message : string)
| SystemError (code message : string).

(** [e.message] *)
Definition message (e : exn) : string :=
match e with
| TypeError m => m
| SyntaxError m => m
| SystemError _ m => m
end.

Definition isTypeError (e : exn) : bool :=
match e with TypeError _ => true | _ => false end.

(** How a computation ends: with a value, with an exception that is still
  travelling up, or in [process.exit(code)]. *)
Inductive outcome (A : Type) : Type :=
| Ok (a : A)
| Throw (e : exn)
| Exit (code : Z).
Arguments Ok {A} a.
Arguments Throw {A} e.
Arguments Exit {A} code.

Class Monad (M : Type -> Type) : Type := {
ret : forall {A}, A -> M A;
bind : forall {A B}, M A -> (A -> M B) -> M B
}.

Declare Scope js_scope.
Delimit Scope js_scope with js.
Notation "x <- c ;; k" := (bind c (fun x => k))
(at level 61, c at next level, right associativity) : js_scope.
Notation "c ;; k" := (bind c (fun _ => k))
(at level 61, right associativity) : js_scope.
Local Open Scope js_scope.

Definition outcome_bind {A B} (m : outcome A) (k : A -> outcome B) : outcome B :=
match m with
| Ok a => k a
| Throw e => Throw e
| Exit c => Exit c
end.

#[export] Instance Monad_outcome : Monad outcome :=
{| ret := @Ok; bind := @outcome_bind |}.

(** V8's messages for the three TypeErrors that JSON data can provoke. *)
Definition nullishRead (base property : string) : exn :=
TypeError ("Cannot read properties of " +:+ base +:+ " (reading '"
           +:+ property +:+ "')").
Definition notAFunction (what : string) : exn :=
TypeError (what +:+ " is not a function").
Definition noPrimitive : exn :=
TypeError "Cannot convert object to primitive value".

(** [Array.prototype.join] with a comma, the text of each item by [item]. *)
Fixpoint joinItems {A} (item : A -> outcome string) (l : list A)
: outcome string :=
match l with
| [] => Ok ""
| [x] => item x
| x :: r => s <- item x ;; t <- joinItems item r ;; Ok (s +:+ "," +:+ t)
end.

Section Values.
Context {host : Host}.

(** ToBoolean; [None] is [undefined]. *)
Definition ToBoolean (v : option json) : bool :=
  match v with
  | None => false
  | Some JNull => false
  | Some (JBool b) => b
  | Some (JNumber n) => negb (Number_isZero n)
  | Some (JString s) => negb (String.eqb s "")
  | Some (JArray _) => true
  | Some (JObject _) => true
  end.

(** [v || d] *)
Definition orElse (v : option json) (d : json) : json :=
  match v with
  | Some x => if ToBoolean v then x else d
  | None => d
  end.

(** [base.property] for the property names the script reads ([date],
    [contact_email], [body], [en], [es]): none of them is defined on a
    built-in prototype, so only the own properties of an object count. *)
Definition Get (base : option json) (property : string)
  : outcome (option json) :=
  match base with
  | None => Throw (nullishRead "undefined" property)
  | Some JNull => Throw (nullishRead "null" property)
  | Some (JObject props) => Ok (assoc property props)
  | Some _ => Ok None
  end.

(** ToString of a JSON value.  An array is joined with commas, [null]
    items as empty text; an object is [[object Object]] unless an own
    property [toString] hides [Object.prototype.toString]: no JSON value
    is callable and [valueOf] returns the object, so the conversion
    fails. *)
Fixpoint ToString (v : json) : outcome string :=
  match v with
  | JNull => Ok "null"
  | JBool b => Ok (if b then "true" else "false")
  | JNumber n => Ok (Number_toString n)
  | JString s => Ok s
  | JArray items =>
      joinItems (fun x => match x with JNull => Ok "" | _ => ToString x end)
        items
  | JObject props =>
      match assoc "toString" props with
      | Some _ => Throw noPrimitive
      | None => Ok "[object Object]"
      end
  end.

(** ToString of a value that may be [undefined]. *)
Definition ToStringU (v : option json) : outcome string :=
  match v with
  | None => Ok "undefined"
  | Some x => ToString x
  end.

Definition hexDigit (n : nat) : string :=
  match nth_error
          ["0"; "1"; "2"; "3"; "4"; "5"; "6"; "7";
           "8"; "9"; "a"; "b"; "c"; "d"; "e"; "f"] n with
  | Some d => d
  | None => ""
  end.

(** The escape of one character in QuoteJSONString. *)
Definition escapeChar (c : ascii) : string :=
  let n := nat_of_ascii c in
  if Nat.eqb n 34 then "\" +:+ Str.dquote
  else if Nat.eqb n 92 then "\\"
  else if Nat.eqb n 8 then "\b"
  else if Nat.eqb n 9 then "\t"
  else if Nat.eqb n 10 then "\n"
  else if Nat.eqb n 12 then "\f"
  else if Nat.eqb n 13 then "\r"
  else if Nat.ltb n 32 then
    "\u00" +:+ hexDigit (Nat.div n 16) +:+ hexDigit (Nat.modulo n 16)
  else String c "".

Fixpoint escapeString (s : string) : string :=
  match s with
  | "" => ""
  | String c r => escapeChar c +:+ escapeString r
  end.

Definition QuoteJSONString (s : string) : string :=
  Str.dquote +:+ escapeString s +:+ Str.dquote.

(** SerializeJSONProperty with the gap of two spaces; [indent] is the
    indentation of the enclosing value. *)
Fixpoint serialize (indent : string) (v : json) : string :=
  match v with
  | JNull => "null"
  | JBool b => if b then "true" else "false"
  | JNumber n => if Number_isFinite n then Number_toString n else "null"
  | JString s => QuoteJSONString s
  | JArray [] => "[]"
  | JArray items =>
      let inner := indent +:+ "  " in
      "[" +:+ Str.newline +:+ inner
      +:+ Str.join ("," +:+ Str.newline +:+ inner)
            (map (serialize inner) items)
      +:+ Str.newline +:+ indent +:+ "]"
  | JObject [] => "{}"
  | JObject props =>
      let inner := indent +:+ "  " in
      "{" +:+ Str.newline +:+ inner
      +:+ Str.join ("," +:+ Str.newline +:+ inner)
            (map (fun p => QuoteJSONString (fst p) +:+ ": "
                           +:+ serialize inner (snd p)) props)
      +:+ Str.newline +:+ indent +:+ "}"
  end.

(** [JSON.stringify(v, null, 2)] *)
Definition JSON_stringify (v : json) : string := serialize "" v.

End Values.

(** ** The file system below the directory of the script *)

(** A regular file with its text, or a directory with its entries in the
  order [readdir] lists them. *)
Inductive node : Type :=
| File (data : string)
| Dir (entries : list (string * node)).

(** The entries of the directory of the script, [ROOT]. *)
Definition tree : Type := list (string * node).

(** [path.join(ROOT, a, b, ...)] is the list of the components [a; b; ...]. *)
Definition path : Type := list string.

Module FS.

Fixpoint lookupIn (p : path) (n : node) : option node :=
  match p with
  | [] => Some n
  | name :: q =>
      match n with
      | Dir es =>
          match assoc name es with
          | Some c => lookupIn q c
          | None => None
          end
      | File _ => None
      end
  end.

Definition lookup (p : path) (r : tree) : option node := lookupIn p (Dir r).

(** The entry [name] replaced where it stands, or added at the end. *)
Fixpoint set (name : string) (n : node) (es : tree) : tree :=
  match es with
  | [] => [(name, n)]
  | (k, x) :: r =>
      if String.eqb name k then (k, n) :: r else (k, x) :: set name n r
  end.

Definition unlink (name : string) (es : tree) : tree :=
  filter (fun e => negb (String.eqb name (fst e))) es.

Definition show (p : path) : string := Str.join "/" p.

Definition ENOENT (syscall : string) (p : path) : exn :=
  SystemError "ENOENT"
    ("ENOENT: no such file or directory, " +:+ syscall +:+ " '"
     +:+ show p +:+ "'").
Definition ENOTDIR (syscall : string) (p : path) : exn :=
  SystemError "ENOTDIR"
    ("ENOTDIR: not a directory, " +:+ syscall +:+ " '" +:+ show p +:+ "'").
Definition EEXIST (syscall : string) (p : path) : exn :=
  SystemError "EEXIST"
    ("EEXIST: file already exists, " +:+ syscall +:+ " '"
     +:+ show p +:+ "'").
Definition EISDIR (syscall : string) : exn :=
  SystemError "EISDIR"
    ("EISDIR: illegal operation on a directory, " +:+ syscall).

(** The system call of [fs.copyFileSync] with its two paths, as the
    messages of Node.js name it. *)
Definition copyfile (src dest : path) : string :=
  "copyfile '" +:+ show src +:+ "' -> '" +:+ show dest +:+ "'".

(** The tree after writing [data] to the file at [q]; [p] is the whole
    path, for the message. *)
Fixpoint write (p q : path) (data : string) (es : tree) : outcome tree :=
  match q with
  | [] => Throw (EISDIR "open")
  | [name] =>
      match assoc name es with
      | Some (Dir _) => Throw (EISDIR "open")
      | _ => Ok (set name (File data) es)
      end
  | name :: q' =>
      match assoc name es with
      | Some (Dir sub) =>
          match write p q' data sub with
          | Ok sub' => Ok (set name (Dir sub') es)
          | Throw e => Throw e
          | Exit c => Exit c
          end
      | Some (File _) => Throw (ENOTDIR "open" p)
      | None => Throw (ENOENT "open" p)
      end
  end.

(** [mkdir -p]: every missing directory on the way is created. *)
Fixpoint mkdirp (p q : path) (es : tree) : outcome tree :=
  match q with
  | [] => Ok es
  | name :: q' =>
      match assoc name es with
      | Some (File _) =>
          Throw (match q' with
                 | [] => EEXIST "mkdir" p
                 | _ => ENOTDIR "mkdir" p
                 end)
      | Some (Dir sub) =>
          match mkdirp p q' sub with
          | Ok sub' => Ok (set name (Dir sub') es)
          | Throw e => Throw e
          | Exit c => Exit c
          end
      | None =>
          match mkdirp p q' [] with
          | Ok sub' => Ok (set name (Dir sub') es)
          | Throw e => Throw e
          | Exit c => Exit c
          end
      end
  end.

(** [rm -rf] *)
Fixpoint remove (q : path) (es : tree) : tree :=
  match q with
  | [] => es
  | [name] => unlink name es
  | name :: q' =>
      match assoc name es with
      | Some (Dir sub) => set name (Dir (remove q' sub)) es
      | _ => es
      end
  end.

(** The tree with [n] for the node at [q], in the directory that holds
    [q]; without that directory the tree is as it was. *)
Fixpoint graft (q : path) (n : node) (es : tree) : tree :=
  match q with
  | [] => es
  | [name] => set name n es
  | name :: q' =>
      match assoc name es with
      | Some (Dir sub) => set name (Dir (graft q' n sub)) es
      | _ => es
      end
  end.

End FS.

(** No name stands twice in [names]. *)
Fixpoint distinct (names : list string) : bool :=
match names with
| [] => true
| x :: r => negb (existsb (String.eqb x) r) && distinct r
end.

(** A node as a file system holds it: no directory below it lists a name
    twice. *)
Fixpoint wellFormed (n : node) : bool :=
match n with
| File _ => true
| Dir es => distinct (map fst es) && forallb (fun e => wellFormed (snd e)) es
end.

(** ** Programs: file system state, console output, exceptions *)

Inductive event : Type :=
| Log (text : string)     (* console.log *)
| Warn (text : string)    (* console.warn *)
| Error (text : string).  (* console.error *)

(** A program runs on the tree below [ROOT]; it ends in an outcome, leaves
  a tree and has appended lines to the console. *)
Definition F (A : Type) : Type := tree -> outcome A * tree * list event.

Definition F_bind {A B} (m : F A) (k : A -> F B) : F B :=
fun r =>
  match m r with
  | (Ok a, r', out) =>
      match k a r' with
      | (o, r'', out') => (o, r'', out ++ out')
      end
  | (Throw e, r', out) => (Throw e, r', out)
  | (Exit c, r', out) => (Exit c, r', out)
  end.

#[export] Instance Monad_F : Monad F :=
{| ret := fun A (a : A) (r : tree) => (Ok a, r, []);
   bind := @F_bind |}.

(** A computation without effects, as a program. *)
Definition pure {A} (o : outcome A) : F A := fun r => (o, r, []).

Definition throw {A} (e : exn) : F A := pure (Throw e).

(** [try { body } catch (e) { handler }] *)
Definition try_catch {A} (body : F A) (handler : exn -> F A) : F A :=
fun r =>
  match body r with
  | (Throw e, r', out) =>
      match handler e r' with
      | (o, r'', out') => (o, r'', out ++ out')
      end
  | res => res
  end.

(** [for (const x of l) { body }], with the variables the body updates as [s]. *)
Fixpoint for_of {A S} (l : list A) (s : S) (body : S -> A -> F S) : F S :=
match l with
| [] => ret s
| x :: r => s' <- body s x ;; for_of r s' body
end.

Definition outcome_of {A} (res : outcome A * tree * list event) : outcome A :=
fst (fst res).
Definition tree_of {A} (res : outcome A * tree * list event) : tree :=
snd (fst res).
Definition console_of {A} (res : outcome A * tree * list event) : list event :=
snd res.

(** *** Node's [fs], [console] and [process] *)

Definition existsSync (p : path) : F bool :=
fun r =>
  (Ok (match FS.lookup p r with Some _ => true | None => false end), r, []).

Definition readFileSync (p : path) : F string :=
fun r =>
  match FS.lookup p r with
  | Some (File data) => (Ok data, r, [])
  | Some (Dir _) => (Throw (FS.EISDIR "read"), r, [])
  | None => (Throw (FS.ENOENT "open" p), r, [])
  end.

(** [fs.readdirSync(p, { withFileTypes: true })]: each name with
  [entry.isDirectory()]. *)
Definition readdirSync_withFileTypes (p : path) : F (list (string * bool)) :=
fun r =>
  match FS.lookup p r with
  | Some (Dir es) =>
      (Ok (map (fun e => (fst e,
                          match snd e with Dir _ => true | File _ => false end))
               es), r, [])
  | Some (File _) => (Throw (FS.ENOTDIR "scandir" p), r, [])
  | None => (Throw (FS.ENOENT "scandir" p), r, [])
  end.

Definition readdirSync (p : path) : F (list string) :=
entries <- readdirSync_withFileTypes p ;; ret (map fst entries).

Definition writeFileSync (p : path) (data : string) : F unit :=
fun r =>
  match FS.write p p data r with
  | Ok r' => (Ok tt, r', [])
  | Throw e => (Throw e, r, [])
  | Exit c => (Exit c, r, [])
  end.

(** [fs.copyFileSync(src, dest)]: [src] has to be a regular file. *)
Definition copyFileSync (src dest : path) : F unit :=
fun r =>
  match FS.lookup src r with
  | Some (File data) =>
      match FS.write dest dest data r with
      | Ok r' => (Ok tt, r', [])
      | Throw e => (Throw e, r, [])
      | Exit c => (Exit c, r, [])
      end
  | Some (Dir _) => (Throw (FS.EISDIR (FS.copyfile src dest)), r, [])
  | None =>
      (Throw (SystemError "ENOENT"
                ("ENOENT: no such file or directory, "
                 +:+ FS.copyfile src dest)), r, [])
  end.

(** [fs.rmSync(p, { recursive: true, force: true })] *)
Definition rmSync (p : path) : F unit :=
fun r => (Ok tt, FS.remove p r, []).

(** [fs.mkdirSync(p, { recursive: true })] *)
Definition mkdirSync (p : path) : F unit :=
fun r =>
  match FS.mkdirp p p r with
  | Ok r' => (Ok tt, r', [])
  | Throw e => (Throw e, r, [])
  | Exit c => (Exit c, r, [])
  end.

Definition console_log (text : string) : F unit :=
fun r => (Ok tt, r, [Log text]).
Definition console_warn (text : string) : F unit :=
fun r => (Ok tt, r, [Warn text]).
Definition console_error (text : string) : F unit :=
fun r => (Ok tt, r, [Error text]).

Definition process_exit {A} (code : Z) : F A :=
fun r => (Exit code, r, []).

(** ** build.js *)

Definition path_join (base : path) (names : list string) : path := base ++ names.

Definition ROOT : path := [].
Definition DIST_DIR : path := path_join ROOT ["dist"].

(** [Array.prototype.sort(comparefn)].  ECMA-262 fixes the result for a
  consistent [comparefn] (the sort is stable) and leaves the calls it makes
  to the engine.  This is a stable insertion sort: it is the sort of
  every engine where [comparefn] returns for every pair of elements and is
  consistent, where the array has fewer than two elements (no call is
  made), and in that it throws where every call with one of the elements
  throws.  Where [comparefn] throws for some pairs only, whether the sort
  throws depends on the calls of the engine, which are not these: V8
  extends a run and inserts by bisection.  The properties below that
  depend on the sort are stated where it is the sort of every engine. *)
Section ArraySort.
Context {A : Type} (comparefn : A -> A -> outcome Z).

Fixpoint insert (x : A) (sorted : list A) : outcome (list A) :=
  match sorted with
  | [] => Ok [x]
  | y :: r =>
      c <- comparefn x y ;;
      if (c <? 0)%Z then Ok (x :: y :: r)
      else r' <- insert x r ;; Ok (y :: r')
  end.

Fixpoint sortFrom (sorted rest : list A) : outcome (list A) :=
  match rest with
  | [] => Ok sorted
  | x :: r => s <- insert x sorted ;; sortFrom s r
  end.

Definition Array_sort (l : list A) : outcome (list A) := sortFrom [] l.
End ArraySort.

(** For a comparison [cmp], [a] may stand before [b] in a sorted array. *)
Definition before {A : Type} (cmp : A -> A -> Z) (a b : A) : Prop :=
  (cmp b a >= 0)%Z.

Section Program.
Context {host : Host}.

(** *** Utilities *)

Definition cleanDir (p : path) : F unit :=
  e <- existsSync p ;;
  (if e then rmSync p else ret tt) ;;
  mkdirSync p.

Definition ensureDir (p : path) : F unit :=
  e <- existsSync p ;;
  if negb e then mkdirSync p else ret tt.

(** [copyDirSync(src, dest)] once [src] is known to hold [n].  The
    recursion follows the tree found at [src]: the copy writes below
    [dest] only, so that is the tree the script walks whenever [dest] is
    not inside [src]. *)
Fixpoint copyTree (n : node) (src dest : path) {struct n} : F unit :=
  match n with
  | File _ =>
      ensureDir dest ;;
      _ <- readdirSync_withFileTypes src ;;
      ret tt
  | Dir es =>
      ensureDir dest ;;
      (fix each (entries : list (string * node)) : F unit :=
         match entries with
         | [] => ret tt
         | (name, c) :: rest =>
             let s := path_join src [name] in
             let d := path_join dest [name] in
             match c with
             | Dir _ => copyTree c s d
             | File _ => copyFileSync s d
             end ;;
             each rest
         end) es
  end.

Definition copyDirSync (src dest : path) : F unit :=
  fun r =>
    match FS.lookup src r with
    | None => (Ok tt, r, [])
    | Some n => copyTree n src dest r
    end.

(** [JSON.parse(text)] *)
Definition parse (text : string) : F json :=
  match JSON_parse text with
  | inl v => ret v
  | inr m => throw (SyntaxError m)
  end.

Definition readJSON (filePath : path) (fallback : json) : F json :=
  e <- existsSync filePath ;;
  if negb e then ret fallback
  else try_catch (text <- readFileSync filePath ;; parse text)
                 (fun _ => ret fallback).

(** *** Content *)

(** [x.localeCompare(y)] for values [x] and [y]: a method of strings
    only.  The argument is evaluated before the call is attempted. *)
Definition call_localeCompare (what : string) (this : json)
           (argument : outcome json) : outcome Z :=
  that <- argument ;;
  match this with
  | JString s => t <- ToString that ;; ret (localeCompare s t)
  | _ => Throw (notAFunction what)
  end.

(** [(a, b) => (b.date || '').localeCompare(a.date || '')] *)
Definition byDateDescending (a b : json) : outcome Z :=
  b_date <- Get (Some b) "date" ;;
  call_localeCompare
    ("(b.date || " +:+ Str.dquote +:+ Str.dquote +:+ ").localeCompare")
    (orElse b_date (JString ""))
    (a_date <- Get (Some a) "date" ;; ret (orElse a_date (JString ""))).

Definition readPosts : F (list json) :=
  let dir := path_join ROOT ["content"; "posts"] in
  e <- existsSync dir ;;
  if negb e then ret []
  else
    names <- readdirSync dir ;;
    posts <- for_of (filter (fun f => Str.endsWith f ".json") names) []
               (fun posts f =>
                  try_catch
                    (text <- readFileSync (path_join dir [f]) ;;
                     post <- parse text ;;
                     ret (posts ++ [post]))
                    (fun e =>
                       console_warn ("  ⚠  " +:+ f +:+ ": " +:+ message e) ;;
                       ret posts)) ;;
    pure (Array_sort byDateDescending posts).

(** [s.replace(pat, replaceValue)] for a value [replaceValue]: it is
    converted to a string whether [pat] occurs or not. *)
Definition String_replace (s pat : string) (replaceValue : json)
  : outcome string :=
  r <- ToString replaceValue ;; ret (Str.replace s pat r).

Definition injectData (html : string) : F string :=
  posts <- readPosts ;;
  unlinked <- readJSON (path_join ROOT ["content"; "unlinked-comments.json"])
                (JArray []) ;;
  about <- readJSON (path_join ROOT ["content"; "about.json"])
             (JObject [("en", JString ""); ("es", JString "")]) ;;
  site <- readJSON (path_join ROOT ["content"; "site.json"]) (JObject []) ;;
  console_log ("  Found " +:+ Str.ofNat (List.length posts) +:+ " post(s)") ;;
  let html1 :=
    Str.replace html "/*__POSTS_JSON__*/" (JSON_stringify (JArray posts)) in
  let html2 :=
    Str.replace html1 "/*__UNLINKED_JSON__*/" (JSON_stringify unlinked) in
  let html3 :=
    Str.replace html2 "/*__ABOUT_JSON__*/" (JSON_stringify about) in
  pure (contact_email <- Get (Some site) "contact_email" ;;
        String_replace html3 "/*__CONTACT_EMAIL__*/"
          (orElse contact_email (JString ""))).

(** The template literal of [buildOriginHTML] around its two substitutions. *)
Definition originColumns (en es : string) : string :=
  Str.dq "            <div class='column english'>
                <div class='lang-label'>English</div>
                "
  +:+ en +:+
  Str.dq "
            </div>

            <div class='column spanish'>
                <div class='lang-label'>Español</div>
                "
  +:+ es +:+
  Str.dq "
            </div>".

(** [null] is [None]. *)
Definition buildOriginHTML : F (option string) :=
  origin <- readJSON (path_join ROOT ["content"; "origin.json"]) JNull ;;
  if negb (ToBoolean (Some origin)) then ret None
  else
    pure (body <- Get (Some origin) "body" ;;
          en <- Get body "en" ;;
          en_text <- ToStringU en ;;
          body' <- Get (Some origin) "body" ;;
          es <- Get body' "es" ;;
          es_text <- ToStringU es ;;
          ret (Some (originColumns en_text es_text))).

(** ToBoolean of a string or [null] *)
Definition truthy (s : option string) : bool :=
  match s with
  | None => false
  | Some t => negb (String.eqb t "")
  end.

Definition injectOrigin (html : string) (originHTML : option string) : string :=
  match originHTML with
  | Some o =>
      if negb (truthy originHTML) then html
      else Str.replace html "<!-- __ORIGIN_HTML__ -->" o
  | None => html
  end.

(** *** Build *)

(** [start] and [finish] are the two readings of [Date.now()]. *)
Definition build (start finish : Z) : F unit :=
  console_log "white_silence_black_ink — build started" ;;
  cleanDir DIST_DIR ;;
  originHTML <- buildOriginHTML ;;
  (if truthy originHTML then console_log "  ✓ origin.json loaded"
   else console_warn
          "  ⚠  origin.json not found — origin pages will have empty content") ;;
  let entryPath := path_join ROOT ["templates"; "entry.html"] in
  e <- existsSync entryPath ;;
  (if e then
     copyFileSync entryPath (path_join DIST_DIR ["index.html"]) ;;
     console_log "  ✓ index.html (entry)"
   else
     console_error "  ✗ templates/entry.html not found — aborting" ;;
     process_exit 1) ;;
  for_of ["ripple.html"; "clean.html"] tt
    (fun _ page =>
       let srcPath := path_join ROOT ["templates"; page] in
       e <- existsSync srcPath ;;
       if e then
         html <- readFileSync srcPath ;;
         let html := injectOrigin html originHTML in
         writeFileSync (path_join DIST_DIR [page]) html ;;
         console_log ("  ✓ " +:+ page +:+ " (origin injected)")
       else console_warn ("  ⚠  templates/" +:+ page +:+ " not found")) ;;
  let blogTpl := path_join ROOT ["templates"; "blog.html"] in
  e <- existsSync blogTpl ;;
  (if e then
     html <- readFileSync blogTpl ;;
     html <- injectData html ;;
     writeFileSync (path_join DIST_DIR ["blog.html"]) html ;;
     console_log "  ✓ blog.html (SPA)"
   else console_warn "  ⚠  templates/blog.html not found") ;;
  let assetsDir := path_join ROOT ["assets"] in
  e <- existsSync assetsDir ;;
  (if e then
     copyDirSync assetsDir (path_join DIST_DIR ["assets"]) ;;
     console_log "  ✓ assets/"
   else ret tt) ;;
  let cname := path_join ROOT ["CNAME"] in
  e <- existsSync cname ;;
  (if e then
     copyFileSync cname (path_join DIST_DIR ["CNAME"]) ;;
     console_log "  ✓ CNAME"
   else ret tt) ;;
  console_log (Str.newline +:+ "━━━ Build complete in "
               +:+ toFixed2 (finish - start) +:+ "s ━━━" +:+ Str.newline).

(** *** What the functions read

    The terms in which the properties below describe a project. *)

(** The JSON value of the file at [p], when there is a file and its text
    parses. *)
Definition parsedAt (p : path) (r : tree) : option json :=
  match FS.lookup p r with
  | Some (File text) =>
      match JSON_parse text with
      | inl v => Some v
      | inr _ => None
      end
  | _ => None
  end.

Definition valueOr (v : option json) (fallback : json) : json :=
  match v with
  | Some x => x
  | None => fallback
  end.

(** The [.json] names of a posts directory, in the order of its listing. *)
Definition postFiles (es : tree) : list string :=
  filter (fun f => Str.endsWith f ".json") (map fst es).

(** What reading and parsing the entry [f] of the posts directory gives:
    the post, or the message of the exception. *)
Definition loadPost (es : tree) (f : string) : json + string :=
  match assoc f es with
  | Some (File text) => JSON_parse text
  | Some (Dir _) => inr (message (FS.EISDIR "read"))
  | None =>
      inr (message (FS.ENOENT "open"
                      (path_join ROOT ["content"; "posts"; f])))
  end.

Definition parsedPosts (es : tree) : list json :=
  flat_map (fun f => match loadPost es f with
                     | inl post => [post]
                     | inr _ => []
                     end) (postFiles es).

Definition postWarnings (es : tree) : list event :=
  flat_map (fun f => match loadPost es f with
                     | inl _ => []
                     | inr m => [Warn ("  ⚠  " +:+ f +:+ ": " +:+ m)]
                     end) (postFiles es).

(** The text of [v.property || ''] when that is a string: the property if
it is a string, the empty string if it is missing or falsy.  There is
none when [v] is [null], where reading the property throws, and none
when the property is truthy and not a string. *)
Definition textField (property : string) (v : json) : option string :=
match v with
| JNull => None
| JObject props =>
    match assoc property props with
    | Some (JString s) => Some s
    | Some d => if ToBoolean (Some d) then None else Some ""
    | None => Some ""
    end
| _ => Some ""
end.

(** The text a post is sorted by.  On a post without one the comparator
of [readPosts] throws. *)
Definition dateKey (post : json) : option string := textField "date" post.

Definition keyOf (post : json) : string :=
  match dateKey post with Some k => k | None => "" end.

Definition isNull (v : json) : bool :=
  match v with JNull => true | _ => false end.

(** The posts of a project can be sorted without an exception of the
    comparator: there is no posts directory, or every post that parses
    has a date key.  With a comparison of the host that is consistent,
    every sort then returns the same array. *)
Definition datedPosts (r : tree) : Prop :=
  match FS.lookup ["content"; "posts"] r with
  | None => True
  | Some (File _) => False
  | Some (Dir es) => Forall (fun post => dateKey post <> None) (parsedPosts es)
  end.

(** The tree [cleanDir(DIST_DIR)] leaves: no old [dist], an empty new one. *)
Definition cleaned (r : tree) : tree :=
  FS.unlink "dist" r ++ [("dist", Dir [])].

(** The tree of the project [r] when [dist] is the directory of [D]. *)
Definition inDistOf (r : tree) (D : tree) : tree :=
FS.unlink "dist" r ++ [("dist", Dir D)].

(** There is nothing, or a regular file. *)
Definition notDir (n : option node) : Prop :=
match n with Some (Dir _) => False | _ => True end.

(** Two projects that differ at most in their posts directories, which
hold the same parsed posts. *)
Definition samePosts (r r' : tree) : Prop :=
(forall k, k <> "content" -> assoc k r = assoc k r') /\
(forall k q, k <> "posts" ->
             FS.lookup ("content" :: k :: q) r
             = FS.lookup ("content" :: k :: q) r') /\
match FS.lookup ["content"; "posts"] r, FS.lookup ["content"; "posts"] r' with
| Some (Dir es), Some (Dir es') => parsedPosts es = parsedPosts es'
| Some (File _), Some (File _) => True
| None, None => True
| _, _ => False
end.

(** The paths outside [content], and the paths in [dist]. *)
Definition besideContent (p : path) : Prop :=
exists k q, p = k :: q /\ k <> "content".

Definition belowDist (p : path) : Prop := exists q, p = "dist" :: q.

(** Two paths that part: neither leads through the other. *)
Definition apart (p q : path) : Prop :=
exists c a x b y, p = c ++ a :: x /\ q = c ++ b :: y /\ a <> b.

(** What a copy of the node [n] leaves under [name], and the line that
    reports it. *)
Definition copied (name : string) (n : option node) : tree :=
match n with
| Some c => [(name, c)]
| None => []
end.

Definition reported (line : string) (n : option node) : list event :=
match n with
| Some _ => [Log line]
| None => []
end.

(** The entries of [dist] that [build] makes, each with the path it is
    made from. *)
Definition outputs : list (string * path) :=
[("index.html", ["templates"; "entry.html"]);
 ("ripple.html", ["templates"; "ripple.html"]);
 ("clean.html", ["templates"; "clean.html"]);
 ("blog.html", ["templates"; "blog.html"]);
 ("assets", ["assets"]);
 ("CNAME", ["CNAME"])].

(** There is nothing, or a directory as a file system holds it. *)
Definition directoryOrNothing (n : option node) : Prop :=
match n with
| Some (Dir es) => wellFormed (Dir es) = true
| Some (File _) => False
| None => True
end.

(** The line of the console that reports the elapsed time. *)
Definition isTimingLine (e : event) : bool :=
  match e with
  | Log text => Str.startsWith text (Str.newline +:+ "━━━ Build complete in ")
  | _ => false
  end.

Definition withoutTiming (out : list event) : list event :=
  filter (fun e => negb (isTimingLine e)) out.

(** *** The statements of [build] after the entry page

    [build] is the statements up to the entry page followed by
    [build_pages] ([build_unfold] below); [build_tail] are the statements
    after the origin pages. *)

Definition build_tail (start finish : Z) : F unit :=
let blogTpl := path_join ROOT ["templates"; "blog.html"] in
e <- existsSync blogTpl ;;
(if e then
   html <- readFileSync blogTpl ;;
   html <- injectData html ;;
   writeFileSync (path_join DIST_DIR ["blog.html"]) html ;;
   console_log "  ✓ blog.html (SPA)"
 else console_warn "  ⚠  templates/blog.html not found") ;;
let assetsDir := path_join ROOT ["assets"] in
e <- existsSync assetsDir ;;
(if e then
   copyDirSync assetsDir (path_join DIST_DIR ["assets"]) ;;
   console_log "  ✓ assets/"
 else ret tt) ;;
let cname := path_join ROOT ["CNAME"] in
e <- existsSync cname ;;
(if e then
   copyFileSync cname (path_join DIST_DIR ["CNAME"]) ;;
   console_log "  ✓ CNAME"
 else ret tt) ;;
console_log (Str.newline +:+ "━━━ Build complete in "
             +:+ toFixed2 (finish - start) +:+ "s ━━━" +:+ Str.newline).

(** The body of the loop over the origin pages. *)
Definition origin_page (originHTML : option string) (page : string) : F unit :=
let srcPath := path_join ROOT ["templates"; page] in
e <- existsSync srcPath ;;
if e then
  html <- readFileSync srcPath ;;
  let html := injectOrigin html originHTML in
  writeFileSync (path_join DIST_DIR [page]) html ;;
  console_log ("  ✓ " +:+ page +:+ " (origin injected)")
else console_warn ("  ⚠  templates/" +:+ page +:+ " not found").

Definition build_pages (start finish : Z) (originHTML : option string) : F unit :=
for_of ["ripple.html"; "clean.html"] tt (fun _ page => origin_page originHTML page) ;;
build_tail start finish.

(** The exit code of the process that runs [build();]: an exception that
    nothing catches ends it with code 1. *)
Definition exitCode {A} (o : outcome A) : Z :=
  match o with
  | Ok _ => 0
  | Throw _ => 1
  | Exit code => code
  end.

End Program.

(** ** A reference host

  A host to run the script on sample projects.  Its numbers are the
  integers below 2^53 and its [JSON.parse] accepts the JSON texts made of
  objects, arrays, integers, [true], [false], [null] and strings with the
  two-character escapes, without duplicate or numeric keys; on these texts
  it returns what [JSON.parse] returns.  Every other text it rejects,
  the JSON texts with fractions, exponents, unicode escapes and numeric or
  duplicate keys included, and its two messages stand for the messages
  of the engine, which are others and change with its version.  Its
  collation is the code-unit order, which is the order of the root locale
  on ISO dates.  The properties are stated of every host; this one runs
  the samples. *)
Module Reference.

Definition isSpace (c : ascii) : bool :=
  let n := nat_of_ascii c in
  Nat.eqb n 32 || Nat.eqb n 9 || Nat.eqb n 10 || Nat.eqb n 13.

Fixpoint skip (s : string) : string :=
  match s with
  | String c r => if isSpace c then skip r else s
  | "" => ""
  end.

Definition unescape (c : ascii) : option ascii :=
  let n := nat_of_ascii c in
  if Nat.eqb n 34 then Some c
  else if Nat.eqb n 92 then Some c
  else if Ascii.eqb c "/" then Some c
  else if Ascii.eqb c "b" then Some (ascii_of_nat 8)
  else if Ascii.eqb c "t" then Some (ascii_of_nat 9)
  else if Ascii.eqb c "n" then Some (ascii_of_nat 10)
  else if Ascii.eqb c "f" then Some (ascii_of_nat 12)
  else if Ascii.eqb c "r" then Some (ascii_of_nat 13)
  else None.

(** The characters of a string literal after its opening quote, and the
    text after its closing quote. *)
Fixpoint stringBody (s : string) : option (string * string) :=
  match s with
  | "" => None
  | String c r =>
      let n := nat_of_ascii c in
      if Nat.eqb n 34 then Some ("", r)
      else if Nat.eqb n 92 then
        match r with
        | String e r' =>
            match unescape e, stringBody r' with
            | Some c', Some (t, rest) => Some (String c' t, rest)
            | _, _ => None
            end
        | "" => None
        end
      else if Nat.ltb n 32 then None
      else
        match stringBody r with
        | Some (t, rest) => Some (String c t, rest)
        | None => None
        end
  end.

Definition digit (c : ascii) : option Z :=
  let n := nat_of_ascii c in
  if Nat.leb 48 n && Nat.leb n 57 then Some (Z.of_nat (n - 48)) else None.

Fixpoint digits (acc : Z) (s : string) : Z * string :=
  match s with
  | String c r =>
      match digit c with
      | Some d => digits (10 * acc + d) r
      | None => (acc, s)
      end
  | "" => (acc, s)
  end.

(** An integer without sign: no leading zero, no fraction, no exponent. *)
Definition natural (s : string) : option (Z * string) :=
  match s with
  | String c r =>
      match digit c with
      | Some d =>
          let '(n, rest) := if (d =? 0)%Z then (0%Z, r) else digits d r in
          match rest with
          | String c' _ =>
              if Ascii.eqb c' "." || Ascii.eqb c' "e" || Ascii.eqb c' "E"
                 || match digit c' with Some _ => true | None => false end
              then None
              else if (n <? 2 ^ 53)%Z then Some (n, rest) else None
          | "" => if (n <? 2 ^ 53)%Z then Some (n, rest) else None
          end
      | None => None
      end
  | "" => None
  end.

Definition isIndexKey (k : string) : bool :=
  match k with
  | "" => false
  | String c _ => match digit c with Some _ => true | None => false end
  end.

Fixpoint parseValue (fuel : nat) (s : string) : option (value Z * string) :=
  match fuel with
  | 0 => None
  | S fuel' =>
      match skip s with
      | "" => None
      | String c r as s' =>
          if Nat.eqb (nat_of_ascii c) 34 then
            match stringBody r with
            | Some (t, rest) => Some (JString t, rest)
            | None => None
            end
          else if Ascii.eqb c "[" then
            match skip r with
            | String "]" rest => Some (JArray [], rest)
            | _ =>
                match parseItems fuel' r with
                | Some (items, rest) => Some (JArray items, rest)
                | None => None
                end
            end
          else if Ascii.eqb c "{" then
            match skip r with
            | String "}" rest => Some (JObject [], rest)
            | _ =>
                match parseMembers fuel' [] r with
                | Some (props, rest) => Some (JObject props, rest)
                | None => None
                end
            end
          else if Ascii.eqb c "-" then
            match natural r with
            | Some (n, rest) => Some (JNumber (- n)%Z, rest)
            | None => None
            end
          else
            match Str.stripPrefix "null" s', Str.stripPrefix "true" s',
                  Str.stripPrefix "false" s' with
            | Some rest, _, _ => Some (JNull, rest)
            | _, Some rest, _ => Some (JBool true, rest)
            | _, _, Some rest => Some (JBool false, rest)
            | _, _, _ =>
                match natural s' with
                | Some (n, rest) => Some (JNumber n, rest)
                | None => None
                end
            end
      end
  end
with parseItems (fuel : nat) (s : string) : option (list (value Z) * string) :=
  match fuel with
  | 0 => None
  | S fuel' =>
      match parseValue fuel' s with
      | Some (v, rest) =>
          match skip rest with
          | String "," rest' =>
              match parseItems fuel' rest' with
              | Some (vs, rest'') => Some (v :: vs, rest'')
              | None => None
              end
          | String "]" rest' => Some ([v], rest')
          | _ => None
          end
      | None => None
      end
  end
with parseMembers (fuel : nat) (seen : list string) (s : string)
  : option (list (string * value Z) * string) :=
  match fuel with
  | 0 => None
  | S fuel' =>
      match skip s with
      | String q r =>
          if Nat.eqb (nat_of_ascii q) 34 then
            match stringBody r with
            | Some (k, rest) =>
                if isIndexKey k || existsb (String.eqb k) seen then None
                else
                  match skip rest with
                  | String ":" rest' =>
                      match parseValue fuel' rest' with
                      | Some (v, rest'') =>
                          match skip rest'' with
                          | String "," rest3 =>
                              match parseMembers fuel' (k :: seen) rest3 with
                              | Some (ps, rest4) => Some ((k, v) :: ps, rest4)
                              | None => None
                              end
                          | String "}" rest3 => Some ([(k, v)], rest3)
                          | _ => None
                          end
                      | None => None
                      end
                  | _ => None
                  end
            | None => None
            end
          else None
      | "" => None
      end
  end.

Definition parseJSON (text : string) : value Z + string :=
  match parseValue (2 * String.length text + 2) text with
  | Some (v, rest) =>
      match skip rest with
      | "" => inl v
      | _ => inr "Unexpected non-whitespace character after JSON"
      end
  | None => inr "Unexpected token in JSON"
  end.

Definition showZ (n : Z) : string :=
  NilZero.string_of_int (Z.to_int n).

Definition twoDigits (n : Z) : string :=
  (if (n <? 10)%Z then "0" else "") +:+ showZ n.

(** [(ms / 1000).toFixed(2)] for a multiple [ms >= 0] of ten. *)
Definition seconds (ms : Z) : string :=
  showZ (ms / 1000) +:+ "." +:+ twoDigits ((ms mod 1000) / 10).

Definition host : Host :=
  {| number := Z;
     Number_isZero := Z.eqb 0;
     Number_isFinite := fun _ => true;
     Number_toString := showZ;
     JSON_parse := parseJSON;
     localeCompare := Str.compareCodeUnits;
     toFixed2 := seconds |}.

End Reference.

(** ** Sample projects *)

Module Samples.

Definition ref_readPosts := @readPosts Reference.host.
Definition ref_injectData := @injectData Reference.host.
Definition ref_buildOriginHTML := @buildOriginHTML Reference.host.
Definition ref_build := @build Reference.host.

Definition emptyProject : tree := [].

(** Two posts, listed oldest first. *)
Definition twoPosts : tree :=
  [("content",
    Dir [("posts",
          Dir [("a.json", File (Str.dq "{'date': '2024-01-01'}"));
               ("b.json", File (Str.dq "{'date': '2024-06-01'}"))])])].

(** Two posts whose dates are numbers. *)
Definition numericDates : tree :=
  [("content",
    Dir [("posts",
          Dir [("a.json", File (Str.dq "{'date': 2024}"));
               ("b.json", File (Str.dq "{'date': 2025}"))])])].

(** A post file that holds [null]. *)
Definition nullPost : tree :=
  [("content",
    Dir [("posts",
          Dir [("a.json", File "null");
               ("b.json", File (Str.dq "{'date': '2024-01-01'}"))])])].

(** A post file that is not JSON, between two that are. *)
Definition malformedPost : tree :=
  [("templates",
    Dir [("entry.html", File "<html></html>");
         ("blog.html", File "var posts = /*__POSTS_JSON__*/;")]);
   ("content",
    Dir [("posts",
          Dir [("a.json", File (Str.dq "{'date': '2024-01-01'}"));
               ("broken.json", File "{oops");
               ("b.json", File (Str.dq "{'date': '2024-06-01'}"))])])].



(** An entry page, and an origin document without [body]. *)
Definition originWithoutBody : tree :=
  [("templates", Dir [("entry.html", File "<html></html>")]);
   ("content", Dir [("origin.json", File (Str.dq "{'title': 'x'}"))])].

(** The templates of the origin pages and of the entry page; no
    [content/origin.json]. *)
Definition noOrigin : tree :=
  [("templates",
    Dir [("entry.html", File "<html></html>");
         ("ripple.html", File "<main><!-- __ORIGIN_HTML__ --></main>");
         ("clean.html", File "<div><!-- __ORIGIN_HTML__ --></div>")])].

(** Assets in two directories, a CNAME record and an old [dist]. *)
Definition withAssets : tree :=
  [("assets",
    Dir [("style.css", File "body { margin: 0 }");
         ("img", Dir [("logo.svg", File "<svg/>")])]);
   ("CNAME", File "example.org");
   ("dist", Dir [("old.html", File "old")])].

(** A project with every source of a build. *)
Definition fullSite : tree :=
  [("templates",
    Dir [("entry.html", File "<h1>white silence</h1>");
         ("ripple.html", File "<main><!-- __ORIGIN_HTML__ --></main>");
         ("clean.html", File "<div><!-- __ORIGIN_HTML__ --></div>");
         ("blog.html", File "mailto:/*__CONTACT_EMAIL__*/")]);
   ("content",
    Dir [("origin.json",
          File (Str.dq "{'body': {'en': '<p>ink</p>', 'es': '<p>tinta</p>'}}"));
         ("site.json", File (Str.dq "{'contact_email': 'a@b.com'}"))]);
   ("assets", Dir [("style.css", File "body { margin: 0 }")]);
   ("CNAME", File "example.org")].

(** An entry page, a blog page and a post file that holds [null]. *)
Definition entryAndNullPost : tree :=
  [("templates",
    Dir [("entry.html", File "<html></html>");
         ("blog.html", File "/*__POSTS_JSON__*/")]);
   ("content",
    Dir [("posts",
          Dir [("a.json", File "null");
               ("b.json", File (Str.dq "{'date': '2024-01-01'}"))])])].

(** A posts directory with a file of notes and a directory of drafts. *)
Definition postsAndNotes : tree :=
  [("content",
    Dir [("posts",
          Dir [("a.json", File (Str.dq "{'date': '2024-01-01'}"));
               ("notes.txt", File "to do");
               ("drafts.json", Dir [])])])].

(** Two posts of one day, and one without a date after them. *)
Definition sameDay : tree :=
  [("content",
    Dir [("posts",
          Dir [("b.json", File (Str.dq "{'date': '2024-01-01', 'title': 'b'}"));
               ("a.json", File (Str.dq "{'date': '2024-01-01', 'title': 'a'}"));
               ("c.json", File (Str.dq "{'title': 'c'}"))])])].

(** A post file that is not JSON beside one that holds [null] and a
    post, with the templates of the entry page and of the blog page. *)
Definition brokenAndNull : tree :=
  [("templates",
    Dir [("entry.html", File "<html></html>");
         ("blog.html", File "var posts = /*__POSTS_JSON__*/;")]);
   ("content",
    Dir [("posts",
          Dir [("a.json", File "null");
               ("broken.json", File "{oops");
               ("b.json", File (Str.dq "{'date': '2024-06-01'}"))])])].




(** A project without [templates/entry.html], with an old [dist]. *)
Definition noEntry : tree :=
  [("dist", Dir [("index.html", File "old")]);
   ("templates", Dir [("blog.html", File "/*__POSTS_JSON__*/")])].

End Samples.

(** ** What is said of programs *)

(** Induction over a JSON value and over a directory tree, through the
    lists of their parts. *)
Section ValueInduction.
Context {number : Type} (Q : value number -> Prop).
Hypothesis Q_null : Q JNull.
Hypothesis Q_bool : forall b, Q (JBool b).
Hypothesis Q_number : forall n, Q (JNumber n).
Hypothesis Q_string : forall s, Q (JString s).
Hypothesis Q_array : forall items, Forall Q items -> Q (JArray items).
Hypothesis Q_object :
  forall props, Forall (fun p => Q (snd p)) props -> Q (JObject props).

Fixpoint value_induction (v : value number) : Q v :=
  match v with
  | JNull => Q_null
  | JBool b => Q_bool b
  | JNumber n => Q_number n
  | JString s => Q_string s
  | JArray items =>
      Q_array items
        ((fix all (l : list (value number)) : Forall Q l :=
            match l with
            | [] => Forall_nil _
            | x :: r => Forall_cons x (value_induction x) (all r)
            end) items)
  | JObject props =>
      Q_object props
        ((fix all (l : list (string * value number))
            : Forall (fun p => Q (snd p)) l :=
            match l with
            | [] => Forall_nil _
            | p :: r =>
                Forall_cons (P := fun p => Q (snd p)) p
                  (value_induction (snd p)) (all r)
            end) props)
  end.
End ValueInduction.

Section NodeInduction.
Variable Q : node -> Prop.
Hypothesis Q_file : forall data, Q (File data).
Hypothesis Q_dir : forall es, Forall (fun e => Q (snd e)) es -> Q (Dir es).

Fixpoint node_induction (n : node) : Q n :=
  match n with
  | File data => Q_file data
  | Dir es =>
      Q_dir es
        ((fix all (l : list (string * node)) : Forall (fun e => Q (snd e)) l :=
            match l with
            | [] => Forall_nil _
            | e :: r =>
                Forall_cons (P := fun e => Q (snd e)) e
                  (node_induction (snd e)) (all r)
            end) es)
  end.
End NodeInduction.

(** [m] keeps the invariant [I] of the tree, however it ends, and does not
    end the process. *)
Definition safe (I : tree -> Prop) {A} (m : F A) : Prop :=
  forall r, I r ->
            I (tree_of (m r)) /\ forall c, outcome_of (m r) <> Exit c.

(** [m] reads only. *)
Definition reads {A} (m : F A) : Prop :=
  forall r, tree_of (m r) = r /\ forall c, outcome_of (m r) <> Exit c.

(** [dist] stands last in [ROOT], after the entries [pre], and [Q] holds
    of its entries. *)
Definition distHolds (pre : tree) (Q : tree -> Prop) (r : tree) : Prop :=
  exists D, r = pre ++ [("dist", Dir D)] /\ Q D.

(** The paths into an entry of [dist] with an allowed name. *)
Definition inDist (allowed : string -> Prop) (p : path) : Prop :=
  exists name q, p = "dist" :: name :: q /\ allowed name.

(** Two runs side by side, on trees related by [R]: [m] and [m'] end
    alike and leave trees related by [R] and consoles related by [C]. *)
Definition sim (R : tree -> tree -> Prop)
           (C : list event -> list event -> Prop) {A} (m m' : F A) : Prop :=
  forall r r',
    R r r' ->
    outcome_of (m r) = outcome_of (m' r') /\
    R (tree_of (m r)) (tree_of (m' r')) /\
    C (console_of (m r)) (console_of (m' r')).

(** * Properties *)

(** ** Searching and replacing in strings *)

Module StrFacts.
Import Str.
#[local] Arguments Ascii.eqb : simpl never.

Lemma append_assoc (a b c : string) : (a +:+ b) +:+ c = a +:+ b +:+ c.
Proof. induction a as [|x a IH]; simpl; [reflexivity | now rewrite IH]. Qed.

Lemma append_nil_r (a : string) : a +:+ "" = a.
Proof. induction a as [|x a IH]; simpl; [reflexivity | now rewrite IH]. Qed.

Lemma stripPrefix_sound p : forall s r, stripPrefix p s = Some r -> s = p +:+ r.
Proof.
  induction p as [|a p IH]; intros s r H; simpl in *.
  - now inversion H.
  - destruct s as [|b s]; [discriminate|].
    destruct (Ascii.eqb a b) eqn:E; [|discriminate].
    apply Ascii.eqb_eq in E; subst b. now rewrite (IH _ _ H).
Qed.

Lemma stripPrefix_complete p : forall r, stripPrefix p (p +:+ r) = Some r.
Proof.
  induction p as [|a p IH]; intros r; simpl; [reflexivity|].
  now rewrite Ascii.eqb_refl.
Qed.

(** [splitFirst] cuts at an occurrence of the pattern... *)
Lemma splitFirst_sound pat : forall s pre post,
  splitFirst pat s = Some (pre, post) -> s = pre +:+ pat +:+ post.
Proof.
  induction s as [|c s IH]; intros pre post H; simpl in H.
  - destruct (stripPrefix pat "") eqn:E; [|discriminate].
    inversion H; subst. now apply stripPrefix_sound in E.
  - destruct (stripPrefix pat (String c s)) eqn:E.
    + inversion H; subst. now apply stripPrefix_sound in E.
    + destruct (splitFirst pat s) as [[pre' post']|] eqn:E'; [|discriminate].
      inversion H; subst. simpl. now rewrite (IH _ _ eq_refl).
Qed.

(** ... and no occurrence starts before that one. *)
Lemma splitFirst_first pat : forall s pre post a b,
  splitFirst pat s = Some (pre, post) -> s = a +:+ pat +:+ b ->
  String.length pre <= String.length a.
Proof.
  induction s as [|c s IH]; intros pre post a b H Hs; simpl in H.
  - destruct (stripPrefix pat "") eqn:E; [|discriminate].
    inversion H; subst. simpl. lia.
  - destruct (stripPrefix pat (String c s)) eqn:E.
    + inversion H; subst. simpl. lia.
    + destruct (splitFirst pat s) as [[pre' post']|] eqn:E'; [|discriminate].
      inversion H; subst. destruct a as [|x a].
      * simpl in Hs. rewrite Hs, stripPrefix_complete in E. discriminate.
      * simpl in Hs. inversion Hs; subst. simpl.
        specialize (IH _ _ _ _ eq_refl eq_refl). lia.
Qed.

Lemma splitFirst_none pat : forall s a b,
  splitFirst pat s = None -> s <> a +:+ pat +:+ b.
Proof.
  induction s as [|c s IH]; intros a b H Hs; simpl in H.
  - destruct (stripPrefix pat "") eqn:E; [discriminate|].
    destruct a; [|discriminate]. simpl in Hs.
    rewrite Hs, stripPrefix_complete in E. discriminate.
  - destruct (stripPrefix pat (String c s)) eqn:E; [discriminate|].
    destruct (splitFirst pat s) as [[pre' post']|] eqn:E'; [discriminate|].
    destruct a as [|x a]; simpl in Hs.
    + rewrite Hs, stripPrefix_complete in E. discriminate.
    + inversion Hs; subst. now apply (IH a b).
Qed.



End StrFacts.

(** ** The file system *)

Module FSFacts.
Import FS.

Lemma lookupIn_app p : forall q n,
  lookupIn (p ++ q) n =
  match lookupIn p n with Some m => lookupIn q m | None => None end.
Proof.
  induction p as [|name p IH]; intros q n; simpl; [reflexivity|].
  destruct n as [|es]; [reflexivity|].
  destruct (assoc name es); [apply IH | reflexivity].
Qed.

Lemma lookup_child p r es f :
  lookup p r = Some (Dir es) -> lookup (p ++ [f]) r = assoc f es.
Proof.
  unfold lookup. intros H. rewrite lookupIn_app, H. simpl.
  destruct (assoc f es); reflexivity.
Qed.

Lemma assoc_app {A} k (l1 l2 : list (string * A)) :
  assoc k (l1 ++ l2) =
  match assoc k l1 with Some x => Some x | None => assoc k l2 end.
Proof.
  induction l1 as [|[k' x] l1 IH]; simpl; [reflexivity|].
  destruct (String.eqb k k'); [reflexivity | apply IH].
Qed.

Lemma assoc_unlink_same name es : assoc name (unlink name es) = None.
Proof.
  induction es as [|[k x] es IH]; simpl; [reflexivity|].
  destruct (String.eqb name k) eqn:E; simpl; [apply IH|].
  now rewrite E.
Qed.

Lemma assoc_unlink_other name k es :
  k <> name -> assoc k (unlink name es) = assoc k es.
Proof.
  intros Hk. induction es as [|[k' x] es IH]; simpl; [reflexivity|].
  destruct (String.eqb name k') eqn:E; simpl.
  - apply String.eqb_eq in E; subst k'.
    destruct (String.eqb k name) eqn:E'; [|apply IH].
    apply String.eqb_eq in E'. contradiction.
  - destruct (String.eqb k k'); [reflexivity | apply IH].
Qed.

Lemma unlink_absent name es : assoc name es = None -> unlink name es = es.
Proof.
  induction es as [|[k x] es IH]; simpl; [reflexivity|].
  destruct (String.eqb name k); [discriminate|]. simpl. intros H.
  now rewrite IH.
Qed.

Lemma set_absent name n es :
  assoc name es = None -> set name n es = es ++ [(name, n)].
Proof.
  induction es as [|[k x] es IH]; simpl; [reflexivity|].
  destruct (String.eqb name k); [discriminate|]. intros H.
  now rewrite IH.
Qed.

Lemma set_last name n x pre :
  assoc name pre = None ->
  set name n (pre ++ [(name, x)]) = pre ++ [(name, n)].
Proof.
  induction pre as [|[k y] pre IH]; simpl.
  - now rewrite String.eqb_refl.
  - destruct (String.eqb name k); [discriminate|]. intros H.
    now rewrite IH.
Qed.

Lemma assoc_set_same name n es : assoc name (set name n es) = Some n.
Proof.
  induction es as [|[k x] es IH]; simpl.
  - now rewrite String.eqb_refl.
  - destruct (String.eqb name k) eqn:E; simpl; rewrite E; [reflexivity | apply IH].
Qed.

Lemma assoc_set_other name k n es :
  k <> name -> assoc k (set name n es) = assoc k es.
Proof.
  intros Hk. induction es as [|[k' x] es IH]; simpl.
  - destruct (String.eqb k name) eqn:E; [|reflexivity].
    apply String.eqb_eq in E. contradiction.
  - destruct (String.eqb name k') eqn:E; simpl.
    + apply String.eqb_eq in E; subst k'.
      destruct (String.eqb k name) eqn:E'; [|reflexivity].
      apply String.eqb_eq in E'. contradiction.
    + destruct (String.eqb k k'); [reflexivity | apply IH].
Qed.

(** A path that does not start in [dist] leads to the same place before
    and after [dist] is emptied. *)
Lemma lookup_unlink_other name k q es n :
  k <> name -> lookup (k :: q) (unlink name es ++ [(name, n)]) = lookup (k :: q) es.
Proof.
  intros Hk. unfold lookup. simpl.
  rewrite assoc_app, assoc_unlink_other by assumption.
  destruct (assoc k es); [reflexivity|]. simpl.
  destruct (String.eqb k name) eqn:E; [|reflexivity].
  apply String.eqb_eq in E. contradiction.
Qed.
End FSFacts.

(** ** Running programs *)

Section Runs.
Context {host : Host}.

Lemma bind_run {A B} (m : F A) (k : A -> F B) (r : tree) :
  (x <- m ;; k x) r =
  match m r with
  | (Ok a, r', out) =>
      match k a r' with (o, r'', out') => (o, r'', out ++ out') end
  | (Throw e, r', out) => (Throw e, r', out)
  | (Exit c, r', out) => (Exit c, r', out)
  end.
Proof. reflexivity. Qed.

(** [readJSON] returns the parsed content or the fallback, changes
    nothing and prints nothing. *)
Lemma readJSON_run (filePath : path) (fallback : json) (r : tree) :
  readJSON filePath fallback r =
  (Ok (valueOr (parsedAt filePath r) fallback), r, []).
Proof.
  unfold readJSON, parsedAt, existsSync, try_catch, readFileSync, parse.
  cbn [bind Monad_F]. unfold F_bind.
  destruct (FS.lookup filePath r) as [[text|es]|] eqn:E; cbn; rewrite ?E;
    try reflexivity.
  destruct (JSON_parse text); reflexivity.
Qed.

(** The loop of [readPosts] over the names [files] of the directory [es]. *)
Lemma readPosts_loop (r : tree) (es : tree) :
  FS.lookup ["content"; "posts"] r = Some (Dir es) ->
  forall (files : list string) (posts : list json),
    for_of files posts
      (fun posts f =>
         try_catch
           (text <- readFileSync (path_join (path_join ROOT ["content"; "posts"]) [f]) ;;
            post <- parse text ;;
            ret (posts ++ [post]))
           (fun e =>
              console_warn ("  ⚠  " +:+ f +:+ ": " +:+ message e) ;;
              ret posts)) r =
    (Ok (posts ++ flat_map (fun f => match loadPost es f with
                                     | inl post => [post]
                                     | inr _ => []
                                     end) files),
     r,
     flat_map (fun f => match loadPost es f with
                        | inl _ => []
                        | inr m => [Warn ("  ⚠  " +:+ f +:+ ": " +:+ m)]
                        end) files).
Proof.
  intros Hdir. induction files as [|f files IH]; intros posts.
  - cbn. now rewrite app_nil_r.
  - cbn [for_of flat_map]. rewrite bind_run.
    assert (Hf : FS.lookup (path_join (path_join ROOT ["content"; "posts"]) [f]) r
                 = assoc f es)
      by (apply (FSFacts.lookup_child ["content"; "posts"]); exact Hdir).
    unfold try_catch at 1, readFileSync, parse, loadPost.
    rewrite bind_run, Hf.
    destruct (assoc f es) as [[text|sub]|].
    + destruct (JSON_parse text) as [post|m]; cbn;
        rewrite IH, ?app_nil_r, <- ?app_assoc; reflexivity.
    + cbn. rewrite IH, ?app_nil_r. reflexivity.
    + cbn. rewrite IH, ?app_nil_r. reflexivity.
Qed.

(** [readPosts] in terms of the posts directory. *)
Lemma readPosts_run (r : tree) :
  readPosts r =
  match FS.lookup ["content"; "posts"] r with
  | None => (Ok [], r, [])
  | Some (File _) =>
      (Throw (FS.ENOTDIR "scandir" ["content"; "posts"]), r, [])
  | Some (Dir es) =>
      (Array_sort byDateDescending (parsedPosts es), r, postWarnings es)
  end.
Proof.
  unfold readPosts.
  change (path_join ROOT ["content"; "posts"]) with ["content"; "posts"].
  rewrite bind_run. unfold existsSync at 1.
  destruct (FS.lookup ["content"; "posts"] r) as [[text|es]|] eqn:E;
    [ | | reflexivity].
  - cbn [negb]. cbv iota. rewrite bind_run.
    unfold readdirSync at 1. rewrite bind_run.
    unfold readdirSync_withFileTypes at 1. rewrite E. reflexivity.
  - cbn [negb]. cbv iota. rewrite bind_run.
    unfold readdirSync at 1. rewrite bind_run.
    unfold readdirSync_withFileTypes at 1. rewrite E.
    cbn [ret Monad_F]. rewrite map_map. cbn [fst].
    rewrite bind_run.
    rewrite (readPosts_loop r es E). unfold pure, parsedPosts, postWarnings, postFiles.
    cbn [app]. rewrite !app_nil_r. reflexivity.
Qed.

End Runs.

(** ** Sorting *)

Section SortFacts.
Context {A : Type} (comparefn : A -> A -> outcome Z).
(** The elements in play. *)
Variable P : A -> Prop.

Lemma StronglySorted_nth (R : A -> A -> Prop) (l : list A) :
  StronglySorted R l ->
  forall i j a b, i < j -> nth_error l i = Some a -> nth_error l j = Some b ->
                  R a b.
Proof.
  induction 1 as [|x l Hs IH Hx]; intros i j a b Hij Hi Hj.
  - destruct i; discriminate.
  - destruct j as [|j]; [lia|]. simpl in Hj. destruct i as [|i]; simpl in Hi.
    + inversion Hi; subst. rewrite Forall_forall in Hx. apply Hx.
      eapply nth_error_In; eassumption.
    + apply (IH i j); [lia | assumption | assumption].
Qed.

(** *** A comparator that returns: the result is the sorted permutation *)
Section Returns.
Variable cmp : A -> A -> Z.
Hypothesis comparefn_ok :
  forall a b, P a -> P b -> comparefn a b = Ok (cmp a b).

Hypothesis cmp_total :
  forall a b, P a -> P b -> (cmp a b < 0)%Z -> (cmp b a >= 0)%Z.
Hypothesis before_trans :
  forall a b c, P a -> P b -> P c -> before cmp a b -> before cmp b c -> before cmp a c.

Lemma insert_sorted (x : A) : forall s,
  P x -> Forall P s -> StronglySorted (before cmp) s ->
  exists s', insert comparefn x s = Ok s' /\ Permutation (x :: s) s' /\
             StronglySorted (before cmp) s' /\ Forall P s'.
Proof.
  induction s as [|y s IH]; intros Hx Hs Hsorted.
  - exists [x]. repeat split; auto.
    repeat constructor.
  - inversion Hs as [|? ? Hy Hs']; subst.
    inversion Hsorted as [|? ? Hsorted' Hall]; subst.
    cbn [insert]. rewrite (comparefn_ok x y Hx Hy). cbn.
    destruct (Z.ltb_spec (cmp x y) 0) as [Hlt|Hge].
    + exists (x :: y :: s). repeat split; auto.
      constructor; [assumption|].
      assert (Hxy : before cmp x y) by (apply cmp_total; assumption).
      constructor; [assumption|].
      rewrite Forall_forall in *. intros z Hz.
      apply (before_trans x y z); auto.
    + destruct (IH Hx Hs' Hsorted') as (s' & E & Hperm & Hs'' & HP).
      rewrite E. exists (y :: s'). repeat split.
      * rewrite perm_swap. now constructor.
      * constructor; [assumption|].
        apply (Permutation_Forall Hperm). constructor; [|assumption].
        unfold before. lia.
      * now constructor.
Qed.

Lemma sortFrom_sorted : forall rest sorted,
  Forall P sorted -> Forall P rest -> StronglySorted (before cmp) sorted ->
  exists l, sortFrom comparefn sorted rest = Ok l /\
            Permutation (sorted ++ rest) l /\ StronglySorted (before cmp) l.
Proof.
  induction rest as [|x rest IH]; intros sorted Hs Hr Hsorted.
  - exists sorted. rewrite app_nil_r. auto.
  - inversion Hr as [|? ? Hx Hr']; subst.
    destruct (insert_sorted x sorted Hx Hs Hsorted) as (s' & E & Hperm & Hs' & HP).
    cbn [sortFrom]. rewrite E. cbn.
    destruct (IH s' HP Hr' Hs') as (l & El & Hpl & Hsl).
    exists l. repeat split; auto.
    rewrite <- Hpl. rewrite <- Hperm.
    rewrite <- Permutation_middle. reflexivity.
Qed.

Lemma Array_sort_sorted (l : list A) :
  Forall P l ->
  exists l', Array_sort comparefn l = Ok l' /\ Permutation l l' /\
             StronglySorted (before cmp) l'.
Proof.
  intros Hl. apply (sortFrom_sorted l []); auto. constructor.
Qed.
End Returns.

(** *** A comparator that throws on an element: the sort throws *)
Section Throws.
Variable bad : A -> bool.
Variable T : exn -> Prop.
Hypothesis throws_on_bad :
  forall a b, P a -> P b -> bad a = true \/ bad b = true ->
              exists e, comparefn a b = Throw e /\ T e.
Hypothesis throws_T :
  forall a b, P a -> P b ->
              match comparefn a b with
              | Ok _ => True
              | Throw e => T e
              | Exit _ => False
              end.

Lemma insert_result (x : A) : forall s,
  P x -> Forall P s ->
  match insert comparefn x s with
  | Ok s' => Permutation (x :: s) s'
  | Throw e => T e
  | Exit _ => False
  end.
Proof.
  induction s as [|y s IH]; intros Hx Hs; cbn [insert].
  - reflexivity.
  - inversion Hs as [|? ? Hy Hs']; subst.
    generalize (throws_T x y Hx Hy).
    destruct (comparefn x y) as [c|e|c]; cbn; auto.
    intros _. destruct (c <? 0)%Z; [reflexivity|].
    generalize (IH Hx Hs').
    destruct (insert comparefn x s) as [s'|e|c']; cbn; auto.
    intros Hperm. rewrite perm_swap. now constructor.
Qed.

Lemma sortFrom_result : forall rest sorted,
  Forall P sorted -> Forall P rest ->
  match sortFrom comparefn sorted rest with
  | Ok l => Permutation (sorted ++ rest) l
  | Throw e => T e
  | Exit _ => False
  end.
Proof.
  induction rest as [|x rest IH]; intros sorted Hs Hr; cbn [sortFrom].
  - now rewrite app_nil_r.
  - inversion Hr as [|? ? Hx Hr']; subst.
    generalize (insert_result x sorted Hx Hs).
    destruct (insert comparefn x sorted) as [s'|e|c]; cbn; auto.
    intros Hperm.
    assert (Hs' : Forall P s')
      by (apply (Permutation_Forall Hperm); now constructor).
    generalize (IH s' Hs' Hr').
    destruct (sortFrom comparefn s' rest) as [l|e|c]; auto.
    intros Hl. rewrite <- Hl, <- Hperm. now rewrite <- Permutation_middle.
Qed.

Lemma insert_throws (x y : A) (s : list A) :
  P x -> P y -> bad x = true \/ bad y = true ->
  exists e, insert comparefn x (y :: s) = Throw e /\ T e.
Proof.
  intros Hx Hy Hbad.
  destruct (throws_on_bad x y Hx Hy Hbad) as (e & E & He).
  exists e. cbn [insert]. rewrite E. auto.
Qed.

Lemma sortFrom_throws : forall rest sorted,
  Forall P sorted -> Forall P rest ->
  sorted <> [] -> Forall (fun a => bad a = false) sorted ->
  Exists (fun a => bad a = true) rest ->
  exists e, sortFrom comparefn sorted rest = Throw e /\ T e.
Proof.
  induction rest as [|x rest IH]; intros sorted Hs Hr Hne Hgood Hbad.
  - inversion Hbad.
  - inversion Hr as [|? ? Hx Hr']; subst. cbn [sortFrom].
    destruct (bad x) eqn:Bx.
    + destruct sorted as [|y s]; [contradiction|].
      inversion Hs; subst.
      destruct (insert_throws x y s) as (e & E & He); auto.
      exists e. rewrite E. auto.
    + inversion Hbad as [? ? Hb|? ? Hb]; subst; [congruence|].
      generalize (insert_result x sorted Hx Hs).
      destruct (insert comparefn x sorted) as [s'|e|c]; cbn.
      * intros Hperm. apply IH; auto.
        -- apply (Permutation_Forall Hperm). now constructor.
        -- intros ->. apply Permutation_sym, Permutation_nil in Hperm.
           discriminate.
        -- apply (Permutation_Forall Hperm). now constructor.
      * intros He. exists e. auto.
      * intros [].
Qed.

Lemma Array_sort_throws (l : list A) :
  Forall P l -> 2 <= List.length l -> Exists (fun a => bad a = true) l ->
  exists e, Array_sort comparefn l = Throw e /\ T e.
Proof.
  intros Hl Hlen Hbad.
  destruct l as [|x [|y rest]]; simpl in Hlen; try lia.
  unfold Array_sort.
  change (sortFrom comparefn [] (x :: y :: rest))
    with (sortFrom comparefn [x] (y :: rest)).
  inversion Hl as [|? ? Hx Hl']; subst.
  inversion Hl' as [|? ? Hy Hl'']; subst.
  destruct (bad x) eqn:Bx.
  - destruct (insert_throws y x []) as (e & E & He); auto.
    exists e. cbn [sortFrom]. rewrite E. auto.
  - inversion Hbad as [? ? Hb|? ? Hb]; subst; [congruence|].
    apply sortFrom_throws.
    + now repeat constructor.
    + assumption.
    + discriminate.
    + now repeat constructor.
    + assumption.
Qed.
End Throws.
End SortFacts.

(** ** JSON values *)

Section ValueFacts.
Context {host : Host}.

(** The only exception of [ToString] on JSON data. *)
Lemma ToString_outcome (v : json) :
  (exists s, ToString v = Ok s) \/ ToString v = Throw noPrimitive.
Proof.
  induction v as [ | b | n | s | items IH | props _ ] using value_induction;
    cbn [ToString]; eauto.
  - revert IH. induction items as [|x items IHitems]; intros IH;
      [left; eexists; reflexivity|].
    inversion IH as [|? ? Hx Hitems]; subst.
    specialize (IHitems Hitems).
    assert (Hitem : (exists s, match x with JNull => Ok "" | _ => ToString x end = Ok s)
                    \/ match x with JNull => Ok "" | _ => ToString x end
                       = Throw noPrimitive)
      by (destruct x; eauto).
    cbn [joinItems]. destruct items as [|y items].
    + exact Hitem.
    + destruct Hitem as [[s Es]|Et]; [rewrite Es | rewrite Et; auto].
      cbn [bind Monad_outcome outcome_bind].
      destruct IHitems as [[t Et]|Et]; rewrite Et; cbn; eauto.
  - destruct (assoc "toString" props); eauto.
Qed.

Lemma orElse_textField (property : string) (v : json) (k : string) :
  textField property v = Some k ->
  exists d, Get (Some v) property = Ok d /\ orElse d (JString "") = JString k.
Proof.
  destruct v as [ | b | n | s | items | props ]; cbn; try discriminate;
    try (intros H; inversion H; subst; eexists; split; reflexivity).
  destruct (assoc property props) as [d|]; cbn.
  - destruct d as [ | b | n | s | items | props' ]; cbn;
      try (intros H; inversion H; subst; eexists; split; reflexivity).
    + destruct b; [discriminate|].
      intros H; inversion H; subst; eexists; split; reflexivity.
    + destruct (Number_isZero n) eqn:E; cbn; [|discriminate].
      intros H; inversion H; subst. eexists; split; [reflexivity|].
      cbn. now rewrite E.
    + intros H; inversion H; subst. eexists; split; [reflexivity|].
      cbn. destruct (String.eqb k "") eqn:E; cbn; [|reflexivity].
      apply String.eqb_eq in E. now subst.
  - intros H; inversion H; subst; eexists; split; reflexivity.
Qed.

(** On posts with a date key the comparator is the collation of the
    keys, the second against the first. *)
Lemma byDateDescending_dated (a b : json) (ka kb : string) :
  dateKey a = Some ka -> dateKey b = Some kb ->
  byDateDescending a b = Ok (localeCompare kb ka).
Proof.
  intros Ha Hb.
  destruct (orElse_textField "date" a ka Ha) as (da & Ga & Oa).
  destruct (orElse_textField "date" b kb Hb) as (db & Gb & Ob).
  unfold byDateDescending, call_localeCompare.
  rewrite Gb, Ga. cbn. rewrite Ob, Oa. reflexivity.
Qed.

Lemma byDateDescending_null (a b : json) :
  a = JNull \/ b = JNull ->
  byDateDescending a b = Throw (nullishRead "null" "date").
Proof.
  unfold byDateDescending, call_localeCompare.
  intros [-> | ->]; [|reflexivity].
  destruct b; reflexivity.
Qed.

Lemma byDateDescending_outcome (a b : json) :
  match byDateDescending a b with
  | Ok _ => True
  | Throw e => isTypeError e = true
  | Exit _ => False
  end.
Proof.
  unfold byDateDescending, call_localeCompare.
  destruct (Get (Some b) "date") as [db|e|c] eqn:Gb;
    cbn [bind Monad_outcome outcome_bind ret].
  - destruct (Get (Some a) "date") as [da|e|c] eqn:Ga;
      cbn [bind Monad_outcome outcome_bind ret].
    + destruct (orElse db (JString "")); try reflexivity.
      destruct (ToString_outcome (orElse da (JString ""))) as [[t Et]|Et];
        rewrite Et; reflexivity.
    + destruct a; cbn in Ga; inversion Ga; reflexivity.
    + destruct a; discriminate.
  - destruct b; cbn in Gb; inversion Gb; reflexivity.
  - destruct b; discriminate.
Qed.
End ValueFacts.

(** ** The reference host *)

Module ReferenceFacts.
Import Str.

Lemma compareCodeUnits_total : forall u v,
  (compareCodeUnits u v < 0)%Z -> (compareCodeUnits v u >= 0)%Z.
Proof.
  induction u as [|x u IH]; destruct v as [|y v]; cbn; try lia.
  rewrite (Nat.compare_antisym (nat_of_ascii x) (nat_of_ascii y)).
  destruct (Nat.compare (nat_of_ascii x) (nat_of_ascii y)); cbn; try lia.
  apply IH.
Qed.

Lemma compareCodeUnits_trans : forall u v w,
  (compareCodeUnits u v >= 0)%Z -> (compareCodeUnits v w >= 0)%Z ->
  (compareCodeUnits u w >= 0)%Z.
Proof.
  induction u as [|x u IH]; destruct v as [|y v]; destruct w as [|z w];
    cbn; try lia.
  destruct (Nat.compare_spec (nat_of_ascii x) (nat_of_ascii y));
    destruct (Nat.compare_spec (nat_of_ascii y) (nat_of_ascii z));
    destruct (Nat.compare_spec (nat_of_ascii x) (nat_of_ascii z));
    try lia.
  apply IH.
Qed.
End ReferenceFacts.

(** ** readPosts *)

Section ReadPosts.
Context {host : Host}.

(** C1, as the code has it: when every parsed post has a date key (it is
    not [null], and its [date] is a string, missing or falsy) and
    [localeCompare] is a consistent comparison, [readPosts] returns the
    parsed posts in descending order of their keys: a post stands before
    another only if its key compares greater or equal, the empty key of
    a missing date included.  Of two posts with different dates the later
    one comes first, whatever the order of the files. *)
Theorem readPosts_sorted_by_date (r es : tree) :
  (forall u v, (localeCompare u v < 0)%Z -> (localeCompare v u >= 0)%Z) ->
  (forall u v w, (localeCompare u v >= 0)%Z -> (localeCompare v w >= 0)%Z ->
                 (localeCompare u w >= 0)%Z) ->
  FS.lookup ["content"; "posts"] r = Some (Dir es) ->
  Forall (fun post => dateKey post <> None) (parsedPosts es) ->
  exists posts,
    readPosts r = (Ok posts, r, postWarnings es) /\
    Permutation (parsedPosts es) posts /\
    (forall i j A B,
        i < j -> nth_error posts i = Some A -> nth_error posts j = Some B ->
        exists a b, dateKey A = Some a /\ dateKey B = Some b /\
                    (localeCompare a b >= 0)%Z) /\
    (forall p1 p2 d1 d2,
        dateKey p1 = Some d1 -> dateKey p2 = Some d2 ->
        (localeCompare d1 d2 < 0)%Z ->
        parsedPosts es = [p1; p2] \/ parsedPosts es = [p2; p1] ->
        posts = [p2; p1]).
Proof.
  intros Htotal Htrans Hdir Hdated.
  set (P := fun post : json => dateKey post <> None).
  set (cmp := fun a b : json => localeCompare (keyOf b) (keyOf a)).
  assert (Hcmp : forall a b, P a -> P b -> byDateDescending a b = Ok (cmp a b)).
  { intros a b Ha Hb. unfold P in Ha, Hb. unfold cmp, keyOf.
    destruct (dateKey a) as [ka|] eqn:Ea; [|contradiction].
    destruct (dateKey b) as [kb|] eqn:Eb; [|contradiction].
    now apply byDateDescending_dated. }
  destruct (Array_sort_sorted byDateDescending P cmp Hcmp) with (l := parsedPosts es)
    as (posts & Esort & Hperm & Hsorted).
  { intros a b _ _. unfold cmp. apply Htotal. }
  { intros a b c _ _ _. unfold before, cmp. intros H1 H2.
    apply (Htrans _ (keyOf b)); assumption. }
  { exact Hdated. }
  exists posts. rewrite readPosts_run, Hdir, Esort. split; [reflexivity|].
  split; [exact Hperm|]. split.
  - intros i j A B Hij HA HB.
    assert (HPA : P A).
    { apply (Forall_forall P posts); [|eapply nth_error_In; eassumption].
      apply (Permutation_Forall Hperm). exact Hdated. }
    assert (HPB : P B).
    { apply (Forall_forall P posts); [|eapply nth_error_In; eassumption].
      apply (Permutation_Forall Hperm). exact Hdated. }
    generalize (StronglySorted_nth _ posts Hsorted i j A B Hij HA HB).
    unfold before, cmp, keyOf, P in *.
    destruct (dateKey A) as [a|]; [|contradiction].
    destruct (dateKey B) as [b|]; [|contradiction].
    intros H. exists a, b. auto.
  - intros p1 p2 d1 d2 H1 H2 Hlt Hfiles.
    assert (E12 : byDateDescending p2 p1 = Ok (localeCompare d1 d2))
      by now apply byDateDescending_dated.
    assert (E21 : byDateDescending p1 p2 = Ok (localeCompare d2 d1))
      by now apply byDateDescending_dated.
    assert (Hge := Htotal _ _ Hlt).
    destruct Hfiles as [Hf|Hf]; rewrite Hf in Esort;
      unfold Array_sort in Esort;
      cbn [sortFrom insert bind Monad_outcome outcome_bind] in Esort.
    + rewrite E12 in Esort.
      cbn [sortFrom insert bind Monad_outcome outcome_bind] in Esort.
      destruct (Z.ltb_spec (localeCompare d1 d2) 0); [|lia].
      now inversion Esort.
    + rewrite E21 in Esort.
      cbn [sortFrom insert bind Monad_outcome outcome_bind] in Esort.
      destruct (Z.ltb_spec (localeCompare d2 d1) 0); [lia|].
      now inversion Esort.
Qed.

(** C8: without a posts directory [readPosts] returns the empty
    collection; it throws nothing, prints nothing, changes nothing. *)
Theorem readPosts_without_directory (r : tree) :
  FS.lookup ["content"; "posts"] r = None ->
  readPosts r = (Ok [], r, []).
Proof.
  intros H. now rewrite readPosts_run, H.
Qed.

End ReadPosts.

(** Witness of C1: the posts of 2024-01-01 and 2024-06-01. *)
Lemma readPosts_sorted_by_date_witness :
exists posts,
  Samples.ref_readPosts Samples.twoPosts = (Ok posts, Samples.twoPosts, []) /\
  posts = [JObject [("date", JString "2024-06-01")];
           JObject [("date", JString "2024-01-01")]].
Proof.
destruct (readPosts_sorted_by_date (host := Reference.host) Samples.twoPosts
            [("a.json", File (Str.dq "{'date': '2024-01-01'}"));
             ("b.json", File (Str.dq "{'date': '2024-06-01'}"))]
            ReferenceFacts.compareCodeUnits_total
            ReferenceFacts.compareCodeUnits_trans eq_refl)
  as (posts & Hrun & _ & _ & Htwo).
- vm_compute. repeat constructor; discriminate.
- exists posts. split; [exact Hrun|].
  apply (Htwo (JObject [("date", JString "2024-01-01")])
              (JObject [("date", JString "2024-06-01")])
              "2024-01-01" "2024-06-01"); try reflexivity.
  left. reflexivity.
Defined.

(** C1 as stated fails: two post files that parse, with numbers for dates,
    and [readPosts] returns no collection. *)
Lemma readPosts_numeric_dates_throw :
  @parsedPosts Reference.host
    [("a.json", File (Str.dq "{'date': 2024}"));
     ("b.json", File (Str.dq "{'date': 2025}"))]
  = [JObject [("date", JNumber 2024%Z)]; JObject [("date", JNumber 2025%Z)]] /\
  Samples.ref_readPosts Samples.numericDates
  = (Throw (TypeError (Str.dq "(b.date || '').localeCompare is not a function")),
     Samples.numericDates, []) /\
  ~ exists posts,
      outcome_of (Samples.ref_readPosts Samples.numericDates) = Ok posts.
Proof.
  split; [vm_compute; reflexivity|]. split; [vm_compute; reflexivity|].
  intros [posts H]. vm_compute in H. discriminate.
Qed.

Lemma readPosts_without_directory_witness :
Samples.ref_readPosts Samples.emptyProject = (Ok [], Samples.emptyProject, []).
Proof.
apply (readPosts_without_directory (host := Reference.host)). reflexivity.
Defined.


(** ** readJSON, injectData, injectOrigin *)

Section Injection.
Context {host : Host}.

Lemma outcome_not_exit_bind {A B} (m : outcome A) (k : A -> outcome B) :
  (forall c, m <> Exit c) -> (forall a c, k a <> Exit c) ->
  forall c, (x <- m ;; k x) <> Exit c.
Proof.
  intros Hm Hk c. destruct m as [a|e|c']; cbn; [apply Hk | discriminate |].
  now destruct (Hm c').
Qed.

(** [injectData] after [readPosts] has returned. *)
Lemma injectData_run (html : string) (r : tree) (posts : list json)
      (out : list event) :
  readPosts r = (Ok posts, r, out) ->
  injectData html r =
  (let unlinked :=
     valueOr (parsedAt ["content"; "unlinked-comments.json"] r) (JArray []) in
   let about :=
     valueOr (parsedAt ["content"; "about.json"] r)
             (JObject [("en", JString ""); ("es", JString "")]) in
   let site := valueOr (parsedAt ["content"; "site.json"] r) (JObject []) in
   contact_email <- Get (Some site) "contact_email" ;;
   String_replace
     (Str.replace
        (Str.replace
           (Str.replace html "/*__POSTS_JSON__*/" (JSON_stringify (JArray posts)))
           "/*__UNLINKED_JSON__*/" (JSON_stringify unlinked))
        "/*__ABOUT_JSON__*/" (JSON_stringify about))
     "/*__CONTACT_EMAIL__*/" (orElse contact_email (JString "")),
   r,
   out ++ [Log ("  Found " +:+ Str.ofNat (List.length posts) +:+ " post(s)")]).
Proof.
  intros Hposts. unfold injectData.
  rewrite bind_run, Hposts.
  rewrite bind_run, readJSON_run.
  rewrite bind_run, readJSON_run.
  rewrite bind_run, readJSON_run.
  rewrite bind_run. unfold console_log at 1, pure.
  reflexivity.
Qed.

(** C7: [readJSON] returns the parsed content of the file, or the fallback
    when there is no file or its text does not parse; it never throws,
    prints nothing and changes nothing.  When [unlinked-comments.json],
    [about.json] and [site.json] are missing or do not parse, [injectData]
    puts the defaults in their places: [[]], the object of two empty
    strings, the empty string. *)
Theorem readJSON_fallback :
  (forall (filePath : path) (fallback : json) (r : tree),
      readJSON filePath fallback r
      = (Ok (valueOr (parsedAt filePath r) fallback), r, [])) /\
  (forall (html : string) (r : tree) (posts : list json) (out : list event),
      readPosts r = (Ok posts, r, out) ->
      parsedAt ["content"; "unlinked-comments.json"] r = None ->
      parsedAt ["content"; "about.json"] r = None ->
      parsedAt ["content"; "site.json"] r = None ->
      injectData html r =
      (Ok (Str.replace
             (Str.replace
                (Str.replace
                   (Str.replace html "/*__POSTS_JSON__*/"
                      (JSON_stringify (JArray posts)))
                   "/*__UNLINKED_JSON__*/" "[]")
                "/*__ABOUT_JSON__*/"
                (Str.dq "{
  'en': '',
  'es': ''
}"))
             "/*__CONTACT_EMAIL__*/" ""),
       r,
       out ++ [Log ("  Found " +:+ Str.ofNat (List.length posts) +:+ " post(s)")])).
Proof.
  split; [exact readJSON_run|].
  intros html r posts out Hposts Hu Ha Hs.
  rewrite (injectData_run html r posts out Hposts), Hu, Ha, Hs.
  reflexivity.
Qed.


Lemma append_length (a b : string) :
  String.length (a +:+ b) = String.length a + String.length b.
Proof. induction a as [|x a IH]; simpl; [reflexivity | now rewrite IH]. Qed.

Lemma append_inj_length (a b c d : string) :
  a +:+ b = c +:+ d -> String.length a = String.length c -> a = c /\ b = d.
Proof.
  revert c. induction a as [|x a IH]; intros [|y c] H Hl; simpl in *;
    try discriminate; [auto|].
  inversion H; subst. destruct (IH c) as [-> ->]; auto.
Qed.

(** [replaceFirstLiteral] puts the text in the place of the occurrence
    before which there is no other, and leaves a string without occurrence
    as it is. *)
Lemma replaceFirstLiteral_first (s pat t a b : string) :
  s = a +:+ pat +:+ b ->
  (forall a' b', s = a' +:+ pat +:+ b' -> String.length a <= String.length a') ->
  Str.replaceFirstLiteral s pat t = a +:+ t +:+ b.
Proof.
  intros Hs Hfirst. unfold Str.replaceFirstLiteral.
  destruct (Str.splitFirst pat s) as [[pre post]|] eqn:E.
  - assert (Hsound := StrFacts.splitFirst_sound _ _ _ _ E).
    assert (H1 := StrFacts.splitFirst_first _ _ _ _ _ _ E Hs).
    assert (H2 := Hfirst _ _ Hsound).
    rewrite Hs in Hsound.
    destruct (append_inj_length _ _ _ _ Hsound) as [-> Hrest]; [lia|].
    destruct (append_inj_length _ _ _ _ Hrest) as [_ ->]; reflexivity.
  - now destruct (StrFacts.splitFirst_none _ _ a b E).
Qed.

Lemma replaceFirstLiteral_absent (s pat t : string) :
  (forall a b, s <> a +:+ pat +:+ b) -> Str.replaceFirstLiteral s pat t = s.
Proof.
  intros Hs. unfold Str.replaceFirstLiteral.
  destruct (Str.splitFirst pat s) as [[pre post]|] eqn:E; [|reflexivity].
  now destruct (Hs _ _ (StrFacts.splitFirst_sound _ _ _ _ E)).
Qed.


(** [injectOrigin] without an origin fragment. *)
Lemma injectOrigin_null (html : string) :
  injectOrigin html None = html /\ injectOrigin html (Some "") = html.
Proof. split; reflexivity. Qed.


(** [buildOriginHTML] without a parsed origin document. *)
Lemma buildOriginHTML_absent (r : tree) :
  parsedAt ["content"; "origin.json"] r = None ->
  buildOriginHTML r = (Ok None, r, []).
Proof.
  intros H. unfold buildOriginHTML. rewrite bind_run, readJSON_run.
  change (path_join ROOT ["content"; "origin.json"])
    with ["content"; "origin.json"].
  rewrite H. reflexivity.
Qed.

(** [buildOriginHTML] reads only: it leaves the tree, prints nothing and
    does not end the process. *)
Lemma buildOriginHTML_reads (r : tree) :
  exists o, buildOriginHTML r = (o, r, []) /\ forall c, o <> Exit c.
Proof.
  unfold buildOriginHTML. rewrite bind_run, readJSON_run.
  destruct (negb (ToBoolean (Some (valueOr (parsedAt (path_join ROOT ["content"; "origin.json"]) r) JNull)))).
  - eexists. split; [reflexivity | discriminate].
  - unfold pure. eexists. split; [reflexivity|].
    repeat (apply outcome_not_exit_bind; [|intros ?]);
      try discriminate.
    + destruct (valueOr _ _); cbn; discriminate.
    + destruct a as [[]|]; cbn; discriminate.
    + destruct a0 as [v|]; cbn; [|discriminate].
      destruct (ToString_outcome v) as [[s ->]| ->]; discriminate.
    + destruct (valueOr _ _); cbn; discriminate.
    + destruct a2 as [[]|]; cbn; discriminate.
    + destruct a3 as [v|]; cbn; [|discriminate].
      destruct (ToString_outcome v) as [[s ->]| ->]; discriminate.
Qed.

(** [buildOriginHTML] on an origin document without [body]. *)
Lemma buildOriginHTML_no_body (r : tree) (origin : json) :
  parsedAt ["content"; "origin.json"] r = Some origin ->
  ToBoolean (Some origin) = true ->
  Get (Some origin) "body" = Ok None ->
  buildOriginHTML r = (Throw (nullishRead "undefined" "en"), r, []).
Proof.
  intros Hparsed Htruthy Hbody. unfold buildOriginHTML.
  rewrite bind_run, readJSON_run.
  change (path_join ROOT ["content"; "origin.json"])
    with ["content"; "origin.json"].
  rewrite Hparsed. cbn [valueOr]. rewrite Htruthy. cbn [negb].
  unfold pure. rewrite Hbody. reflexivity.
Qed.

End Injection.

(** Witness of C7: a project without any content. *)
Lemma readJSON_fallback_witness :
  Samples.ref_injectData "/*__UNLINKED_JSON__*/ /*__CONTACT_EMAIL__*/"
    Samples.emptyProject
  = (Ok "[] ", Samples.emptyProject, [Log "  Found 0 post(s)"]).
Proof.
  unfold Samples.ref_injectData.
  rewrite (proj2 (readJSON_fallback (host := Reference.host)) _ _ [] []);
    reflexivity.
Defined.



(** ** What a program keeps *)

Lemma tree_of_bind_ok {A B} (m : F A) (k : A -> F B) r a r' out :
  m r = (Ok a, r', out) -> tree_of ((x <- m ;; k x) r) = tree_of (k a r').
Proof.
  intros H. rewrite bind_run, H. now destruct (k a r') as [[o t] out'].
Qed.

Lemma outcome_of_bind_ok {A B} (m : F A) (k : A -> F B) r a r' out :
  m r = (Ok a, r', out) -> outcome_of ((x <- m ;; k x) r) = outcome_of (k a r').
Proof.
  intros H. rewrite bind_run, H. now destruct (k a r') as [[o t] out'].
Qed.

Lemma console_of_bind_ok {A B} (m : F A) (k : A -> F B) r a r' out :
  m r = (Ok a, r', out) ->
  console_of ((x <- m ;; k x) r) = out ++ console_of (k a r').
Proof.
  intros H. rewrite bind_run, H. now destruct (k a r') as [[o t] out'].
Qed.

Lemma write_not_exit p data : forall q es c, FS.write p q data es <> Exit c.
Proof.
  induction q as [|name q IH]; intros es c; cbn [FS.write]; [discriminate|].
  destruct q as [|name' q'].
  - destruct (assoc name es) as [[]|]; discriminate.
  - destruct (assoc name es) as [[|sub]|]; try discriminate.
    specialize (IH sub c).
    destruct (FS.write p (name' :: q') data sub); try discriminate.
    congruence.
Qed.

Lemma mkdirp_not_exit p : forall q es c, FS.mkdirp p q es <> Exit c.
Proof.
  induction q as [|name q IH]; intros es c; cbn [FS.mkdirp]; [discriminate|].
  destruct (assoc name es) as [[|sub]|]; try discriminate.
  - specialize (IH sub c). destruct (FS.mkdirp p q sub); try discriminate.
    congruence.
  - specialize (IH [] c). destruct (FS.mkdirp p q []); try discriminate.
    congruence.
Qed.

Section Safe.
(** An invariant of the tree. *)
Variable I : tree -> Prop.

Lemma reads_safe {A} (m : F A) : reads m -> safe I m.
Proof. intros H r Hr. destruct (H r) as [-> Hc]. auto. Qed.

Lemma safe_ret {A} (a : A) : safe I (ret a).
Proof. intros r Hr. split; [exact Hr | discriminate]. Qed.

Lemma safe_bind {A B} (m : F A) (k : A -> F B) :
  safe I m -> (forall a, safe I (k a)) -> safe I (x <- m ;; k x).
Proof.
  intros Hm Hk r Hr. destruct (Hm r Hr) as [Ht Hc].
  rewrite bind_run. destruct (m r) as [[[a|e|c] t] out]; cbn in *.
  - destruct (Hk a t Ht) as [Ht' Hc'].
    destruct (k a t) as [[o t'] out']; cbn in *. auto.
  - split; [assumption | discriminate].
  - now destruct (Hc c).
Qed.

Lemma safe_try_catch {A} (body : F A) (handler : exn -> F A) :
  safe I body -> (forall e, safe I (handler e)) -> safe I (try_catch body handler).
Proof.
  intros Hb Hh r Hr. destruct (Hb r Hr) as [Ht Hc].
  unfold try_catch. destruct (body r) as [[[a|e|c] t] out]; cbn in *.
  - auto.
  - destruct (Hh e t Ht) as [Ht' Hc'].
    destruct (handler e t) as [[o t'] out']; cbn in *. auto.
  - now destruct (Hc c).
Qed.

Lemma safe_for_of {A S} (l : list A) (body : S -> A -> F S) :
  (forall s x, safe I (body s x)) -> forall s, safe I (for_of l s body).
Proof.
  intros Hbody. induction l as [|x l IH]; intros s; cbn [for_of].
  - apply safe_ret.
  - apply safe_bind; [apply Hbody | intros s'; apply IH].
Qed.

Lemma safe_if {A} (b : bool) (m1 m2 : F A) :
  safe I m1 -> safe I m2 -> safe I (if b then m1 else m2).
Proof. now destruct b. Qed.

Lemma safe_pure {A} (o : outcome A) : (forall c, o <> Exit c) -> safe I (pure o).
Proof. intros Ho r Hr. split; [exact Hr | exact Ho]. Qed.

Lemma safe_existsSync p : safe I (existsSync p).
Proof. intros r Hr. split; [exact Hr | discriminate]. Qed.

Lemma safe_readFileSync p : safe I (readFileSync p).
Proof.
  intros r Hr. unfold readFileSync.
  destruct (FS.lookup p r) as [[d|es]|]; split; (exact Hr || discriminate).
Qed.

Lemma safe_readdirSync_withFileTypes p : safe I (readdirSync_withFileTypes p).
Proof.
  intros r Hr. unfold readdirSync_withFileTypes.
  destruct (FS.lookup p r) as [[d|es]|]; split; (exact Hr || discriminate).
Qed.

Lemma safe_console_log t : safe I (console_log t).
Proof. intros r Hr. split; [exact Hr | discriminate]. Qed.

Lemma safe_console_warn t : safe I (console_warn t).
Proof. intros r Hr. split; [exact Hr | discriminate]. Qed.

(** *** Writing *)

(** The paths whose writing keeps the invariant. *)
Variable writable : path -> Prop.
Hypothesis I_write :
  forall p data r r',
    writable p -> I r -> FS.write p p data r = Ok r' -> I r'.
Hypothesis I_mkdirp :
  forall p r r', writable p -> I r -> FS.mkdirp p p r = Ok r' -> I r'.
Hypothesis writable_child :
  forall p name, writable p -> writable (path_join p [name]).

Lemma safe_writeFileSync p data : writable p -> safe I (writeFileSync p data).
Proof.
  intros Hp r Hr. unfold writeFileSync.
  destruct (FS.write p p data r) as [r'|e|c] eqn:E; cbn.
  - split; [eapply I_write; eassumption | discriminate].
  - split; [exact Hr | discriminate].
  - now destruct (write_not_exit p data p r c).
Qed.

Lemma safe_copyFileSync src dest : writable dest -> safe I (copyFileSync src dest).
Proof.
  intros Hp r Hr. unfold copyFileSync.
  destruct (FS.lookup src r) as [[data|es]|];
    try (split; [exact Hr | discriminate]).
  destruct (FS.write dest dest data r) as [r'|e|c] eqn:E; cbn.
  - split; [eapply I_write; eassumption | discriminate].
  - split; [exact Hr | discriminate].
  - now destruct (write_not_exit dest data dest r c).
Qed.

Lemma safe_mkdirSync p : writable p -> safe I (mkdirSync p).
Proof.
  intros Hp r Hr. unfold mkdirSync.
  destruct (FS.mkdirp p p r) as [r'|e|c] eqn:E; cbn.
  - split; [eapply I_mkdirp; eassumption | discriminate].
  - split; [exact Hr | discriminate].
  - now destruct (mkdirp_not_exit p p r c).
Qed.

Lemma safe_ensureDir p : writable p -> safe I (ensureDir p).
Proof.
  intros Hp. unfold ensureDir. apply safe_bind; [apply safe_existsSync|].
  intros e. apply safe_if; [now apply safe_mkdirSync | apply safe_ret].
Qed.

Lemma safe_copyTree (n : node) : forall src dest,
  writable dest -> safe I (copyTree n src dest).
Proof.
  induction n as [data|es IH] using node_induction; intros src dest Hd;
    cbn [copyTree].
  - apply safe_bind; [now apply safe_ensureDir|]. intros _.
    apply safe_bind; [apply safe_readdirSync_withFileTypes|]. intros _.
    apply safe_ret.
  - apply safe_bind; [now apply safe_ensureDir|]. intros _.
    induction es as [|[name c] es IHes]; [apply safe_ret|].
    inversion IH as [|? ? Hc Hes]; subst. cbn [snd] in Hc.
    apply safe_bind; [|intros _; now apply IHes].
    destruct c as [data|sub].
    + apply safe_copyFileSync. now apply writable_child.
    + apply Hc. now apply writable_child.
Qed.

Lemma safe_copyDirSync src dest : writable dest -> safe I (copyDirSync src dest).
Proof.
  intros Hd r Hr. unfold copyDirSync.
  destruct (FS.lookup src r) as [n|].
  - now apply safe_copyTree.
  - split; [exact Hr | discriminate].
Qed.
End Safe.

(** ** The functions that only read *)

Section Readers.
Context {host : Host}.

Lemma Array_sort_byDate_returns (l : list json) :
  forall c, Array_sort byDateDescending l <> Exit c.
Proof.
  intros c E.
  assert (H := sortFrom_result byDateDescending (fun _ => True)
                 (fun e => isTypeError e = true)
                 (fun a b _ _ => byDateDescending_outcome a b) l []).
  unfold Array_sort in E. rewrite E in H.
  apply H; [constructor | now apply Forall_forall].
Qed.

Lemma readJSON_reads p fallback : reads (readJSON p fallback).
Proof. intros r. rewrite readJSON_run. split; [reflexivity | discriminate]. Qed.

Lemma readPosts_reads : reads readPosts.
Proof.
  intros r. rewrite readPosts_run.
  destruct (FS.lookup ["content"; "posts"] r) as [[d|es]|];
    split; try reflexivity; try discriminate.
  apply Array_sort_byDate_returns.
Qed.

Lemma String_replace_returns s pat v :
  forall c, String_replace s pat v <> Exit c.
Proof.
  intros c. unfold String_replace.
  destruct (ToString_outcome v) as [[t ->]| ->]; discriminate.
Qed.

Lemma injectData_reads html : reads (injectData html).
Proof.
  intros r. destruct (readPosts_reads r) as [Ht Hc].
  destruct (readPosts r) as [[[posts|e|c] t] out] eqn:E; cbn in Ht, Hc; subst t.
  - rewrite (injectData_run html r posts out E). split; [reflexivity|].
    cbn [outcome_of fst]. cbv zeta.
    destruct (Get _ "contact_email") as [d|e|c] eqn:G; cbn.
    + apply String_replace_returns.
    + discriminate.
    + destruct (valueOr _ _); discriminate.
  - unfold injectData. rewrite bind_run, E. split; [reflexivity | discriminate].
  - now destruct (Hc c).
Qed.

Lemma buildOriginHTML_reads' : reads buildOriginHTML.
Proof.
  intros r. destruct (buildOriginHTML_reads r) as (o & -> & Ho). auto.
Qed.

End Readers.

(** ** The output directory *)

Section Dist.
(** The entries of [ROOT] other than [dist], which stands last. *)
Variable pre : tree.
Hypothesis pre_without_dist : assoc "dist" pre = None.
(** What holds of the entries of [dist], and the names that may change. *)
Variable Q : tree -> Prop.
Variable allowed : string -> Prop.
Hypothesis Q_set : forall D name n, allowed name -> Q D -> Q (FS.set name n D).

Lemma write_sets p data name q es es' :
  FS.write p (name :: q) data es = Ok es' -> exists n, es' = FS.set name n es.
Proof.
  cbn [FS.write]. destruct q as [|name' q'].
  - destruct (assoc name es) as [[]|]; try discriminate;
      intros H; inversion H; eauto.
  - destruct (assoc name es) as [[|sub]|]; try discriminate.
    destruct (FS.write p (name' :: q') data sub); try discriminate.
    intros H; inversion H; eauto.
Qed.

Lemma mkdirp_sets p name q es es' :
  FS.mkdirp p (name :: q) es = Ok es' -> exists n, es' = FS.set name n es.
Proof.
  cbn [FS.mkdirp]. destruct (assoc name es) as [[|sub]|]; try discriminate.
  - destruct (FS.mkdirp p q sub); try discriminate.
    intros H; inversion H; eauto.
  - destruct (FS.mkdirp p q []); try discriminate.
    intros H; inversion H; eauto.
Qed.

Lemma assoc_dist_last D : assoc "dist" (pre ++ [("dist", Dir D)]) = Some (Dir D).
Proof. rewrite FSFacts.assoc_app, pre_without_dist. reflexivity. Qed.

Lemma write_below p data name name' q es :
  FS.write p (name :: name' :: q) data es =
  match assoc name es with
  | Some (Dir sub) =>
      match FS.write p (name' :: q) data sub with
      | Ok sub' => Ok (FS.set name (Dir sub') es)
      | Throw e => Throw e
      | Exit c => Exit c
      end
  | Some (File _) => Throw (FS.ENOTDIR "open" p)
  | None => Throw (FS.ENOENT "open" p)
  end.
Proof. reflexivity. Qed.

Lemma distHolds_write p data r r' :
  inDist allowed p -> distHolds pre Q r -> FS.write p p data r = Ok r' -> distHolds pre Q r'.
Proof.
  intros (name & q & -> & Hname) (D & -> & HD).
  generalize ("dist" :: name :: q) at 1. intros p0.
  rewrite write_below, assoc_dist_last.
  destruct (FS.write p0 (name :: q) data D) as [D'|e|c] eqn:E; try discriminate.
  intros H; inversion H; subst.
  destruct (write_sets _ _ _ _ _ _ E) as [n ->].
  exists (FS.set name n D). split; [|now apply Q_set].
  now apply FSFacts.set_last.
Qed.

Lemma distHolds_mkdirp p r r' :
  inDist allowed p -> distHolds pre Q r -> FS.mkdirp p p r = Ok r' -> distHolds pre Q r'.
Proof.
  intros (name & q & -> & Hname) (D & -> & HD).
  generalize ("dist" :: name :: q) at 1. intros p0.
  change (FS.mkdirp p0 ("dist" :: name :: q) (pre ++ [("dist", Dir D)]))
    with (match assoc "dist" (pre ++ [("dist", Dir D)]) with
          | Some (File _) => Throw (FS.ENOTDIR "mkdir" p0)
          | Some (Dir sub) =>
              match FS.mkdirp p0 (name :: q) sub with
              | Ok sub' => Ok (FS.set "dist" (Dir sub') (pre ++ [("dist", Dir D)]))
              | Throw e => Throw e
              | Exit c => Exit c
              end
          | None =>
              match FS.mkdirp p0 (name :: q) [] with
              | Ok sub' => Ok (FS.set "dist" (Dir sub') (pre ++ [("dist", Dir D)]))
              | Throw e => Throw e
              | Exit c => Exit c
              end
          end).
  rewrite assoc_dist_last.
  destruct (FS.mkdirp p0 (name :: q) D) as [D'|e|c] eqn:E; try discriminate.
  intros H; inversion H; subst.
  destruct (mkdirp_sets _ _ _ _ _ E) as [n ->].
  exists (FS.set name n D). split; [|now apply Q_set].
  now apply FSFacts.set_last.
Qed.

Lemma inDist_child p name : inDist allowed p -> inDist allowed (path_join p [name]).
Proof.
  intros (n & q & -> & Hn). exists n, (q ++ [name]). auto.
Qed.

End Dist.

(** ** build *)

(** Steps of a program that keep an invariant. *)
Ltac safe_steps Hw Hm Hc :=
  cbv zeta;
  repeat lazymatch goal with
    | |- safe _ (bind _ _) => apply safe_bind; [|intros ?]
    | |- safe _ (ret _) => apply safe_ret
    | |- safe _ (if _ then _ else _) => apply safe_if
    | |- safe _ (for_of _ _ _) => apply safe_for_of; intros ? ?
    | |- safe _ (console_log _) => apply safe_console_log
    | |- safe _ (console_warn _) => apply safe_console_warn
    | |- safe _ (existsSync _) => apply safe_existsSync
    | |- safe _ (readFileSync _) => apply safe_readFileSync
    | |- safe _ (injectData _) => apply reads_safe; apply injectData_reads
    | |- safe _ (writeFileSync _ _) => apply (safe_writeFileSync _ _ Hw)
    | |- safe _ (copyFileSync _ _) => apply (safe_copyFileSync _ _ Hw)
    | |- safe _ (copyDirSync _ _) => apply (safe_copyDirSync _ _ Hw Hm Hc)
    end.

(** One step of a run: a statement that returns. *)
Ltac run_step H :=
  rewrite ?(outcome_of_bind_ok _ _ _ _ _ _ H),
          ?(tree_of_bind_ok _ _ _ _ _ _ H),
          ?(console_of_bind_ok _ _ _ _ _ _ H).

Section SafeBuild.
Context {host : Host}.
Variable I : tree -> Prop.
Variable writable : path -> Prop.
Hypothesis I_write :
  forall p data r r',
    writable p -> I r -> FS.write p p data r = Ok r' -> I r'.
Hypothesis I_mkdirp :
  forall p r r', writable p -> I r -> FS.mkdirp p p r = Ok r' -> I r'.
Hypothesis writable_child :
  forall p name, writable p -> writable (path_join p [name]).

Lemma build_tail_safe (s f : Z) :
  writable ["dist"; "blog.html"] -> writable ["dist"; "assets"] ->
  writable ["dist"; "CNAME"] ->
  safe I (build_tail s f).
Proof.
  intros Hblog Hassets Hcname. unfold build_tail.
  safe_steps I_write I_mkdirp writable_child; assumption.
Qed.

Lemma origin_page_safe (originHTML : option string) (page : string) :
  writable ["dist"; page] -> safe I (origin_page originHTML page).
Proof.
  intros Hpage. unfold origin_page.
  safe_steps I_write I_mkdirp writable_child; assumption.
Qed.

Lemma build_pages_safe (s f : Z) (originHTML : option string) :
  (forall name, writable ["dist"; name]) ->
  safe I (build_pages s f originHTML).
Proof.
  intros Hdist. unfold build_pages.
  apply safe_bind.
  - apply safe_for_of. intros _ page. now apply origin_page_safe.
  - intros _. now apply build_tail_safe.
Qed.

End SafeBuild.

Section Build.
Context {host : Host}.

Lemma build_unfold (s f : Z) :
  build s f =
  (console_log "white_silence_black_ink — build started" ;;
   cleanDir DIST_DIR ;;
   originHTML <- buildOriginHTML ;;
   (if truthy originHTML then console_log "  ✓ origin.json loaded"
    else console_warn
           "  ⚠  origin.json not found — origin pages will have empty content") ;;
   e <- existsSync (path_join ROOT ["templates"; "entry.html"]) ;;
   (if e then
      copyFileSync (path_join ROOT ["templates"; "entry.html"])
        (path_join DIST_DIR ["index.html"]) ;;
      console_log "  ✓ index.html (entry)"
    else
      console_error "  ✗ templates/entry.html not found — aborting" ;;
      process_exit 1) ;;
   build_pages s f originHTML).
Proof. reflexivity. Qed.

Lemma cleanDir_run (r : tree) : cleanDir DIST_DIR r = (Ok tt, cleaned r, []).
Proof.
  unfold cleanDir, cleaned. rewrite bind_run. unfold existsSync at 1.
  change (FS.lookup DIST_DIR r) with
    (match assoc "dist" r with Some c => Some c | None => None end).
  destruct (assoc "dist" r) as [c|] eqn:E.
  - rewrite bind_run. unfold rmSync at 1.
    change (FS.remove DIST_DIR r) with (FS.unlink "dist" r).
    unfold mkdirSync.
    change (FS.mkdirp DIST_DIR DIST_DIR (FS.unlink "dist" r))
      with (match assoc "dist" (FS.unlink "dist" r) with
            | Some (File _) => Throw (FS.EEXIST "mkdir" DIST_DIR)
            | Some (Dir sub) => Ok (FS.set "dist" (Dir sub) (FS.unlink "dist" r))
            | None => Ok (FS.set "dist" (Dir []) (FS.unlink "dist" r))
            end).
    rewrite FSFacts.assoc_unlink_same.
    rewrite FSFacts.set_absent by apply FSFacts.assoc_unlink_same.
    reflexivity.
  - rewrite bind_run. cbn [ret Monad_F]. unfold mkdirSync.
    change (FS.mkdirp DIST_DIR DIST_DIR r)
      with (match assoc "dist" r with
            | Some (File _) => Throw (FS.EEXIST "mkdir" DIST_DIR)
            | Some (Dir sub) => Ok (FS.set "dist" (Dir sub) r)
            | None => Ok (FS.set "dist" (Dir []) r)
            end).
    rewrite E, (FSFacts.set_absent _ _ _ E), (FSFacts.unlink_absent _ _ E).
    reflexivity.
Qed.

(** What is not in [dist] is where it was, whatever [dist] holds. *)
Lemma lookup_beside_dist (k : string) (q : path) (r : tree) (n : node) :
  k <> "dist" ->
  FS.lookup (k :: q) (FS.unlink "dist" r ++ [("dist", n)]) = FS.lookup (k :: q) r.
Proof. apply FSFacts.lookup_unlink_other. Qed.

Lemma lookup_cleaned (k : string) (q : path) (r : tree) :
  k <> "dist" -> FS.lookup (k :: q) (cleaned r) = FS.lookup (k :: q) r.
Proof. apply lookup_beside_dist. Qed.

Lemma parsedAt_cleaned (k : string) (q : path) (r : tree) :
  k <> "dist" -> parsedAt (k :: q) (cleaned r) = parsedAt (k :: q) r.
Proof. intros H. unfold parsedAt. now rewrite lookup_cleaned. Qed.

Lemma lookup_dist_cleaned (name : string) (q : path) (r : tree) :
  FS.lookup ("dist" :: name :: q) (cleaned r) = None.
Proof.
  unfold cleaned, FS.lookup. cbn [FS.lookupIn].
  rewrite FSFacts.assoc_app, FSFacts.assoc_unlink_same. reflexivity.
Qed.

Lemma origin_line (originHTML : option string) (r : tree) :
  (if truthy originHTML then console_log "  ✓ origin.json loaded"
   else console_warn
          "  ⚠  origin.json not found — origin pages will have empty content") r
  = (Ok tt, r,
     [if truthy originHTML then Log "  ✓ origin.json loaded"
      else Warn "  ⚠  origin.json not found — origin pages will have empty content"]).
Proof. destruct (truthy originHTML); reflexivity. Qed.

Lemma started_line (r : tree) :
  console_log "white_silence_black_ink — build started" r
  = (Ok tt, r, [Log "white_silence_black_ink — build started"]).
Proof. reflexivity. Qed.

Lemma existsSync_run (p : path) (r : tree) :
  existsSync p r
  = (Ok (match FS.lookup p r with Some _ => true | None => false end), r, []).
Proof. reflexivity. Qed.

Lemma entry_exists (r : tree) :
  existsSync (path_join ROOT ["templates"; "entry.html"]) (cleaned r)
  = (Ok (match FS.lookup ["templates"; "entry.html"] r with
         | Some _ => true
         | None => false
         end), cleaned r, []).
Proof.
  rewrite existsSync_run.
  change (path_join ROOT ["templates"; "entry.html"])
    with ["templates"; "entry.html"].
  rewrite lookup_cleaned by discriminate. reflexivity.
Qed.

(** The start of every build: the console line, the empty [dist], the
    origin fragment. *)
Lemma build_start (s f : Z) (r : tree) :
  exists o, buildOriginHTML (cleaned r) = (o, cleaned r, []) /\
            (forall c, o <> Exit c) /\
            (forall e, o = Throw e ->
                       build s f r
                       = (Throw e, cleaned r,
                          [Log "white_silence_black_ink — build started"])).
Proof.
  destruct (buildOriginHTML_reads (cleaned r)) as (o & Ho & Hc).
  exists o. split; [exact Ho|]. split; [exact Hc|].
  intros e ->. rewrite build_unfold.
  rewrite bind_run. unfold console_log at 1.
  rewrite bind_run, cleanDir_run.
  rewrite bind_run, Ho. reflexivity.
Qed.

(** After the entry page nothing ends the process. *)
Lemma build_pages_return (s f : Z) (originHTML : option string) :
  safe (fun _ => True)
    ((copyFileSync (path_join ROOT ["templates"; "entry.html"])
        (path_join DIST_DIR ["index.html"]) ;;
      console_log "  ✓ index.html (entry)") ;;
     build_pages s f originHTML).
Proof.
  apply safe_bind; [|intros _].
  - apply safe_bind; [|intros _; apply safe_console_log].
    now apply (safe_copyFileSync _ (fun _ => True)).
  - now apply (build_pages_safe _ (fun _ => True)).
Qed.

(** C3, as the code has it: without [templates/entry.html] the build ends
    with exit code 1 and there is no [dist/index.html]; this is the only
    condition under which the build calls [process.exit], and any other
    exit code that is not zero comes from an exception that nothing
    catches. *)
Theorem build_exit_code (s f : Z) (r : tree) :
  (FS.lookup ["templates"; "entry.html"] r = None ->
   exitCode (outcome_of (build s f r)) = 1%Z /\
   FS.lookup ["dist"; "index.html"] (tree_of (build s f r)) = None) /\
  (forall c, outcome_of (build s f r) = Exit c ->
             c = 1%Z /\ FS.lookup ["templates"; "entry.html"] r = None) /\
  (exitCode (outcome_of (build s f r)) <> 0%Z ->
   FS.lookup ["templates"; "entry.html"] r = None \/
   exists e, outcome_of (build s f r) = Throw e).
Proof.
  destruct (build_start s f r) as (o & Ho & Hc & Hthrow).
  assert (Hcases :
            (FS.lookup ["templates"; "entry.html"] r = None ->
             (exists e, outcome_of (build s f r) = Throw e
                        /\ tree_of (build s f r) = cleaned r)
             \/ (outcome_of (build s f r) = Exit 1%Z
                 /\ tree_of (build s f r) = cleaned r))
            /\ (FS.lookup ["templates"; "entry.html"] r <> None ->
                forall c, outcome_of (build s f r) <> Exit c)).
  { destruct o as [originHTML|e|c]; [| |now destruct (Hc c)].
    - rewrite build_unfold.
      run_step (started_line r). run_step (cleanDir_run r). run_step Ho.
      run_step (origin_line originHTML (cleaned r)).
      run_step (entry_exists r).
      destruct (FS.lookup ["templates"; "entry.html"] r) as [n|].
      + split; [discriminate|]. intros _.
        apply (proj2 (build_pages_return s f originHTML (cleaned r) Logic.I)).
      + split; [|congruence]. intros _. right. split; reflexivity.
    - rewrite (Hthrow e eq_refl). split.
      + intros _. left. exists e. split; reflexivity.
      + intros _ c. discriminate. }
  destruct Hcases as [Habsent Hpresent].
  split; [|split].
  - intros H. destruct (Habsent H) as [(e & -> & ->)|[-> ->]];
      (split; [reflexivity | apply lookup_dist_cleaned]).
  - intros c Hexit.
    destruct (FS.lookup ["templates"; "entry.html"] r) as [n|] eqn:E.
    + now destruct (Hpresent ltac:(discriminate) c).
    + destruct (Habsent eq_refl) as [(e & He & _)|[He _]];
        rewrite He in Hexit; [discriminate|]. inversion Hexit. auto.
  - intros Hcode.
    destruct (outcome_of (build s f r)) as [[]|e|c] eqn:E.
    + now destruct Hcode.
    + right. eauto.
    + left.
      destruct (FS.lookup ["templates"; "entry.html"] r) as [n|] eqn:El;
        [|reflexivity].
      now destruct (Hpresent ltac:(discriminate) c).
Qed.

(** C10: when [content/origin.json] parses to a truthy value without
    [body] (or with the body [null]), [buildOriginHTML] ends in the
    TypeError of reading [en], and so does the build, with exit code 1 and
    an empty [dist]. *)
Theorem buildOriginHTML_without_body
        (s f : Z) (r : tree) (origin : json) (body : option json) :
  parsedAt ["content"; "origin.json"] r = Some origin ->
  ToBoolean (Some origin) = true ->
  Get (Some origin) "body" = Ok body ->
  body = None \/ body = Some JNull ->
  let e := nullishRead (match body with None => "undefined" | Some _ => "null" end)
                       "en" in
  buildOriginHTML r = (Throw e, r, []) /\
  build s f r
  = (Throw e, cleaned r, [Log "white_silence_black_ink — build started"]) /\
  exitCode (outcome_of (build s f r)) = 1%Z.
Proof.
  intros Hparsed Htruthy Hbody Hnone e.
  assert (Hthrows : forall t, parsedAt ["content"; "origin.json"] t = Some origin ->
                              buildOriginHTML t = (Throw e, t, [])).
  { intros t Ht. unfold buildOriginHTML. rewrite bind_run, readJSON_run.
    change (path_join ROOT ["content"; "origin.json"])
      with ["content"; "origin.json"].
    rewrite Ht. cbn [valueOr]. rewrite Htruthy. cbn [negb].
    unfold pure. rewrite Hbody. subst e.
    destruct Hnone as [-> | ->]; reflexivity. }
  split; [now apply Hthrows|].
  destruct (build_start s f r) as (o & Ho & _ & Hthrow).
  rewrite Hthrows in Ho by (rewrite parsedAt_cleaned; [assumption | discriminate]).
  inversion Ho; subst o.
  rewrite (Hthrow e eq_refl). split; reflexivity.
Qed.

End Build.

(** Witness of C3: a project without entry template and with an old
    [dist/index.html]. *)
Lemma build_exit_code_witness :
  exitCode (outcome_of (Samples.ref_build 0 0 Samples.noEntry)) = 1%Z /\
  FS.lookup ["dist"; "index.html"] (tree_of (Samples.ref_build 0 0 Samples.noEntry))
  = None.
Proof.
  apply (proj1 (build_exit_code (host := Reference.host) 0 0 Samples.noEntry)).
  reflexivity.
Defined.

(** C3 as stated fails: the entry template is there, and the build ends
    with exit code 1. *)
Lemma build_exit_code_with_entry :
  FS.lookup ["templates"; "entry.html"] Samples.originWithoutBody
  = Some (File "<html></html>") /\
  outcome_of (Samples.ref_build 0 0 Samples.originWithoutBody)
  = Throw (nullishRead "undefined" "en") /\
  ~ (exitCode (outcome_of (Samples.ref_build 0 0 Samples.originWithoutBody))
     <> 0%Z ->
     FS.lookup ["templates"; "entry.html"] Samples.originWithoutBody = None).
Proof.
  split; [vm_compute; reflexivity|]. split; [vm_compute; reflexivity|].
  intros H. assert (H' := H ltac:(vm_compute; discriminate)).
  vm_compute in H'. discriminate.
Qed.

(** Witness of C10: the origin document [{"title": "x"}]. *)
Lemma buildOriginHTML_without_body_witness :
  Samples.ref_buildOriginHTML Samples.originWithoutBody
  = (Throw (nullishRead "undefined" "en"), Samples.originWithoutBody, []) /\
  exitCode (outcome_of (Samples.ref_build 0 0 Samples.originWithoutBody)) = 1%Z.
Proof.
  destruct (buildOriginHTML_without_body (host := Reference.host) 0 0
              Samples.originWithoutBody (JObject [("title", JString "x")]) None
              eq_refl eq_refl eq_refl (or_introl eq_refl))
    as (H1 & _ & H3).
  split; [exact H1 | exact H3].
Defined.

(** ** The pages of a build *)

Section Pages.
Context {host : Host}.
Variable r : tree.

Lemma cleaned_inDistOf : cleaned r = inDistOf r [].
Proof. reflexivity. Qed.

Lemma lookup_inDistOf (k : string) (q : path) (D : tree) :
  k <> "dist" -> FS.lookup (k :: q) (inDistOf r D) = FS.lookup (k :: q) r.
Proof. apply lookup_beside_dist. Qed.

Lemma lookup_dist_inDistOf (name : string) (D : tree) :
  FS.lookup ["dist"; name] (inDistOf r D) = assoc name D.
Proof.
  unfold inDistOf, FS.lookup. cbn [FS.lookupIn].
  rewrite FSFacts.assoc_app, FSFacts.assoc_unlink_same. cbn.
  destruct (assoc name D); reflexivity.
Qed.

Lemma write_dist_file (p : path) (name data : string) (D : tree) :
  notDir (assoc name D) ->
  FS.write p ["dist"; name] data (inDistOf r D)
  = Ok (inDistOf r (FS.set name (File data) D)).
Proof.
  intros Hn. unfold inDistOf. rewrite write_below.
  rewrite (assoc_dist_last _ (FSFacts.assoc_unlink_same "dist" r)).
  cbn [FS.write].
  destruct (assoc name D) as [[|]|]; [ | now destruct Hn | ];
    now rewrite (FSFacts.set_last _ _ _ _ (FSFacts.assoc_unlink_same "dist" r)).
Qed.

Lemma copyFileSync_to_dist (src : path) (name data : string) (D : tree) :
  FS.lookup src (inDistOf r D) = Some (File data) ->
  notDir (assoc name D) ->
  copyFileSync src (path_join DIST_DIR [name]) (inDistOf r D)
  = (Ok tt, inDistOf r (FS.set name (File data) D), []).
Proof.
  intros Hsrc Hn. unfold copyFileSync. rewrite Hsrc.
  change (path_join DIST_DIR [name]) with ["dist"; name].
  now rewrite write_dist_file.
Qed.

Lemma origin_page_run (originHTML : option string) (page t : string) (D : tree) :
  FS.lookup ["templates"; page] r = Some (File t) ->
  notDir (assoc page D) ->
  origin_page originHTML page (inDistOf r D)
  = (Ok tt, inDistOf r (FS.set page (File (injectOrigin t originHTML)) D),
     [Log ("  ✓ " +:+ page +:+ " (origin injected)")]).
Proof.
  intros Ht Hn. unfold origin_page. cbv zeta.
  change (path_join ROOT ["templates"; page]) with ["templates"; page].
  change (path_join DIST_DIR [page]) with ["dist"; page].
  rewrite bind_run, existsSync_run, lookup_inDistOf, Ht by discriminate.
  rewrite bind_run. unfold readFileSync at 1.
  rewrite lookup_inDistOf, Ht by discriminate.
  rewrite bind_run. unfold writeFileSync at 1.
  rewrite write_dist_file by assumption. reflexivity.
Qed.

Lemma origin_page_skipped (originHTML : option string) (page : string) (D : tree) :
  FS.lookup ["templates"; page] r = None ->
  origin_page originHTML page (inDistOf r D)
  = (Ok tt, inDistOf r D, [Warn ("  ⚠  templates/" +:+ page +:+ " not found")]).
Proof.
  intros Ht. unfold origin_page. cbv zeta.
  change (path_join ROOT ["templates"; page]) with ["templates"; page].
  rewrite bind_run, existsSync_run, lookup_inDistOf, Ht by discriminate.
  reflexivity.
Qed.

(** The build of a project that has only pages: no blog template, no
    assets, no [CNAME]. *)
Lemma build_tail_nothing (s f : Z) (D : tree) :
  FS.lookup ["templates"; "blog.html"] r = None ->
  FS.lookup ["assets"] r = None ->
  FS.lookup ["CNAME"] r = None ->
  outcome_of (build_tail s f (inDistOf r D)) = Ok tt.
Proof.
  intros Hblog Hassets Hcname. unfold build_tail. cbv zeta.
  change (path_join ROOT ["templates"; "blog.html"])
    with ["templates"; "blog.html"].
  change (path_join ROOT ["assets"]) with ["assets"].
  change (path_join ROOT ["CNAME"]) with ["CNAME"].
  rewrite bind_run, existsSync_run, lookup_inDistOf, Hblog by discriminate.
  rewrite bind_run. unfold console_warn at 1.
  rewrite bind_run, existsSync_run, lookup_inDistOf, Hassets by discriminate.
  rewrite bind_run. cbn [ret Monad_F].
  rewrite bind_run, existsSync_run, lookup_inDistOf, Hcname by discriminate.
  reflexivity.
Qed.

End Pages.

(** ** Two runs side by side *)

Section Sim.
(** How the trees of the two runs are related, and their consoles. *)
Variable R : tree -> tree -> Prop.
Variable C : list event -> list event -> Prop.
Hypothesis C_nil : C [] [].
Hypothesis C_app :
  forall a a' b b', C a a' -> C b b' -> C (a ++ b) (a' ++ b').
Hypothesis C_same : forall e, C [e] [e].

Lemma sim_ret {A} (a : A) : sim R C (ret a) (ret a).
Proof. intros r r' H. cbn. auto. Qed.

Lemma sim_bind {A B} (m m' : F A) (k k' : A -> F B) :
  sim R C m m' -> (forall a, sim R C (k a) (k' a)) ->
  sim R C (x <- m ;; k x) (x <- m' ;; k' x).
Proof.
  intros Hm Hk r r' Hr. destruct (Hm r r' Hr) as (Ho & Ht & Hc).
  rewrite !bind_run.
  destruct (m r) as [[o t] out], (m' r') as [[o' t'] out']; cbn in *.
  subst o'. destruct o as [a|e|c]; cbn; auto.
  destruct (Hk a t t' Ht) as (Ho' & Ht' & Hc').
  destruct (k a t) as [[o1 t1] out1], (k' a t') as [[o1' t1'] out1']; cbn in *.
  auto.
Qed.

Lemma sim_if {A} (b : bool) (m1 m1' m2 m2' : F A) :
  sim R C m1 m1' -> sim R C m2 m2' ->
  sim R C (if b then m1 else m2) (if b then m1' else m2').
Proof. now destruct b. Qed.

Lemma sim_for_of {A S} (l : list A) (body body' : S -> A -> F S) :
  (forall s x, sim R C (body s x) (body' s x)) ->
  forall s, sim R C (for_of l s body) (for_of l s body').
Proof.
  intros Hbody. induction l as [|x l IH]; intros s; cbn [for_of].
  - apply sim_ret.
  - apply sim_bind; [apply Hbody | intros s'; apply IH].
Qed.

Lemma sim_console_log t : sim R C (console_log t) (console_log t).
Proof. intros r r' H. cbn. auto. Qed.

Lemma sim_console_warn t : sim R C (console_warn t) (console_warn t).
Proof. intros r r' H. cbn. auto. Qed.

Lemma sim_console_error t : sim R C (console_error t) (console_error t).
Proof. intros r r' H. cbn. auto. Qed.

Lemma sim_process_exit {A} c : sim R C (@process_exit A c) (process_exit c).
Proof. intros r r' H. cbn. auto. Qed.

(** *** Reading and writing *)

(** The paths at which related trees hold the same, and the paths at
    which writing keeps them related. *)
Variable readable : path -> Prop.
Variable writable : path -> Prop.
Hypothesis R_lookup :
  forall p r r', readable p -> R r r' -> FS.lookup p r = FS.lookup p r'.
Hypothesis R_write :
  forall p data r r',
    writable p -> R r r' ->
    match FS.write p p data r, FS.write p p data r' with
    | Ok t, Ok t' => R t t'
    | Throw e, Throw e' => e = e'
    | _, _ => False
    end.
Hypothesis R_mkdirp :
  forall p r r',
    writable p -> R r r' ->
    match FS.mkdirp p p r, FS.mkdirp p p r' with
    | Ok t, Ok t' => R t t'
    | Throw e, Throw e' => e = e'
    | _, _ => False
    end.
Hypothesis readable_child :
  forall p name, readable p -> readable (path_join p [name]).
Hypothesis writable_child :
  forall p name, writable p -> writable (path_join p [name]).
Hypothesis writable_readable : forall p, writable p -> readable p.

Lemma sim_existsSync p : readable p -> sim R C (existsSync p) (existsSync p).
Proof.
  intros Hp r r' Hr. unfold existsSync. rewrite (R_lookup p r r' Hp Hr).
  cbn. auto.
Qed.

Lemma sim_readFileSync p : readable p -> sim R C (readFileSync p) (readFileSync p).
Proof.
  intros Hp r r' Hr. unfold readFileSync. rewrite (R_lookup p r r' Hp Hr).
  destruct (FS.lookup p r') as [[d|es]|]; cbn; auto.
Qed.

Lemma sim_readdirSync_withFileTypes p :
  readable p ->
  sim R C (readdirSync_withFileTypes p) (readdirSync_withFileTypes p).
Proof.
  intros Hp r r' Hr. unfold readdirSync_withFileTypes.
  rewrite (R_lookup p r r' Hp Hr).
  destruct (FS.lookup p r') as [[d|es]|]; cbn; auto.
Qed.

Lemma sim_writeFileSync p data :
  writable p -> sim R C (writeFileSync p data) (writeFileSync p data).
Proof.
  intros Hp r r' Hr. unfold writeFileSync.
  generalize (R_write p data r r' Hp Hr).
  destruct (FS.write p p data r) as [t|e|c], (FS.write p p data r') as [t'|e'|c'];
    cbn; try contradiction; auto.
  intros ->. auto.
Qed.

Lemma sim_copyFileSync src dest :
  readable src -> writable dest ->
  sim R C (copyFileSync src dest) (copyFileSync src dest).
Proof.
  intros Hs Hd r r' Hr. unfold copyFileSync.
  rewrite (R_lookup src r r' Hs Hr).
  destruct (FS.lookup src r') as [[data|es]|]; cbn; auto.
  generalize (R_write dest data r r' Hd Hr).
  destruct (FS.write dest dest data r) as [t|e|c],
           (FS.write dest dest data r') as [t'|e'|c'];
    cbn; try contradiction; auto.
  intros ->. auto.
Qed.

Lemma sim_mkdirSync p : writable p -> sim R C (mkdirSync p) (mkdirSync p).
Proof.
  intros Hp r r' Hr. unfold mkdirSync.
  generalize (R_mkdirp p r r' Hp Hr).
  destruct (FS.mkdirp p p r) as [t|e|c], (FS.mkdirp p p r') as [t'|e'|c'];
    cbn; try contradiction; auto.
  intros ->. auto.
Qed.

Lemma sim_ensureDir p : writable p -> sim R C (ensureDir p) (ensureDir p).
Proof.
  intros Hp. unfold ensureDir.
  apply sim_bind; [now apply sim_existsSync, writable_readable|].
  intros e. apply sim_if; [now apply sim_mkdirSync | apply sim_ret].
Qed.

Lemma sim_copyTree (n : node) : forall src dest,
  readable src -> writable dest ->
  sim R C (copyTree n src dest) (copyTree n src dest).
Proof.
  induction n as [data|es IH] using node_induction; intros src dest Hs Hd;
    cbn [copyTree].
  - apply sim_bind; [now apply sim_ensureDir|]. intros _.
    apply sim_bind; [now apply sim_readdirSync_withFileTypes|]. intros _.
    apply sim_ret.
  - apply sim_bind; [now apply sim_ensureDir|]. intros _.
    induction es as [|[name c] es IHes]; [apply sim_ret|].
    inversion IH as [|? ? Hc Hes]; subst. cbn [snd] in Hc.
    apply sim_bind; [|intros _; now apply IHes].
    destruct c as [data|sub].
    + apply sim_copyFileSync; [now apply readable_child | now apply writable_child].
    + apply Hc; [now apply readable_child | now apply writable_child].
Qed.

Lemma sim_copyDirSync src dest :
  readable src -> writable dest ->
  sim R C (copyDirSync src dest) (copyDirSync src dest).
Proof.
  intros Hs Hd r r' Hr. unfold copyDirSync.
  rewrite (R_lookup src r r' Hs Hr).
  destruct (FS.lookup src r') as [n|].
  - now apply sim_copyTree.
  - cbn. auto.
Qed.

End Sim.

(** Steps of two runs of one program. *)
Ltac sim_steps Hn Ha Hs Hl Hw Hm Hrc Hwc Hwr :=
  cbv zeta;
  repeat lazymatch goal with
    | |- sim _ _ (bind _ _) (bind _ _) => apply (sim_bind _ _ Ha); [|intros ?]
    | |- sim _ _ (ret _) (ret _) => apply (sim_ret _ _ Hn)
    | |- sim _ _ (if _ then _ else _) (if _ then _ else _) => apply sim_if
    | |- sim _ _ (for_of _ _ _) (for_of _ _ _) =>
        apply (sim_for_of _ _ Hn Ha); intros ? ?
    | |- sim _ _ (console_log ?t) (console_log ?t) =>
        apply (sim_console_log _ _ Hs)
    | |- sim _ _ (console_warn _) (console_warn _) =>
        apply (sim_console_warn _ _ Hs)
    | |- sim _ _ (console_error _) (console_error _) =>
        apply (sim_console_error _ _ Hs)
    | |- sim _ _ (process_exit _) (process_exit _) =>
        apply (sim_process_exit _ _ Hn)
    | |- sim _ _ (existsSync _) (existsSync _) =>
        apply (sim_existsSync _ _ Hn _ Hl)
    | |- sim _ _ (readFileSync _) (readFileSync _) =>
        apply (sim_readFileSync _ _ Hn _ Hl)
    | |- sim _ _ (writeFileSync _ _) (writeFileSync _ _) =>
        apply (sim_writeFileSync _ _ Hn _ Hw)
    | |- sim _ _ (copyFileSync _ _) (copyFileSync _ _) =>
        apply (sim_copyFileSync _ _ Hn _ _ Hl Hw)
    | |- sim _ _ (copyDirSync _ _) (copyDirSync _ _) =>
        apply (sim_copyDirSync _ _ Hn Ha _ _ Hl Hw Hm Hrc Hwc Hwr)
    end.

Section SimBuild.
Context {host : Host}.
Variable R : tree -> tree -> Prop.
Variable C : list event -> list event -> Prop.
Hypothesis C_nil : C [] [].
Hypothesis C_app :
  forall a a' b b', C a a' -> C b b' -> C (a ++ b) (a' ++ b').
Hypothesis C_same : forall e, C [e] [e].
Variable readable : path -> Prop.
Variable writable : path -> Prop.
Hypothesis R_lookup :
  forall p r r', readable p -> R r r' -> FS.lookup p r = FS.lookup p r'.
Hypothesis R_write :
  forall p data r r',
    writable p -> R r r' ->
    match FS.write p p data r, FS.write p p data r' with
    | Ok t, Ok t' => R t t'
    | Throw e, Throw e' => e = e'
    | _, _ => False
    end.
Hypothesis R_mkdirp :
  forall p r r',
    writable p -> R r r' ->
    match FS.mkdirp p p r, FS.mkdirp p p r' with
    | Ok t, Ok t' => R t t'
    | Throw e, Throw e' => e = e'
    | _, _ => False
    end.
Hypothesis readable_child :
  forall p name, readable p -> readable (path_join p [name]).
Hypothesis writable_child :
  forall p name, writable p -> writable (path_join p [name]).
Hypothesis writable_readable : forall p, writable p -> readable p.
(** What is read and written by [build]. *)
Hypothesis readable_input :
  forall k q, k <> "content" -> k <> "dist" -> readable (k :: q).
Hypothesis writable_dist : forall name, writable ["dist"; name].
(** The content, as [injectData] and [buildOriginHTML] read it. *)
Hypothesis R_injectData : forall html, sim R C (injectData html) (injectData html).
Hypothesis R_buildOriginHTML : sim R C buildOriginHTML buildOriginHTML.

Lemma sim_build_tail (s f s' f' : Z) :
  C [Log (Str.newline +:+ "━━━ Build complete in "
          +:+ toFixed2 (f - s) +:+ "s ━━━" +:+ Str.newline)]
    [Log (Str.newline +:+ "━━━ Build complete in "
          +:+ toFixed2 (f' - s') +:+ "s ━━━" +:+ Str.newline)] ->
  sim R C (build_tail s f) (build_tail s' f').
Proof.
  intros Hline. unfold build_tail.
  sim_steps C_nil C_app C_same R_lookup R_write R_mkdirp
            readable_child writable_child writable_readable;
    try (apply readable_input; discriminate);
    try apply writable_dist;
    try apply R_injectData.
  intros r r' Hr. cbn. auto.
Qed.

Lemma sim_build_pages (s f s' f' : Z) (originHTML : option string) :
  C [Log (Str.newline +:+ "━━━ Build complete in "
          +:+ toFixed2 (f - s) +:+ "s ━━━" +:+ Str.newline)]
    [Log (Str.newline +:+ "━━━ Build complete in "
          +:+ toFixed2 (f' - s') +:+ "s ━━━" +:+ Str.newline)] ->
  sim R C (build_pages s f originHTML) (build_pages s' f' originHTML).
Proof.
  intros Hline. unfold build_pages.
  apply (sim_bind _ _ C_app); [|intros _; now apply sim_build_tail].
  apply (sim_for_of _ _ C_nil C_app). intros _ page. unfold origin_page.
  sim_steps C_nil C_app C_same R_lookup R_write R_mkdirp
            readable_child writable_child writable_readable;
    try (apply readable_input; discriminate);
    try apply writable_dist.
Qed.

(** Two builds whose trees are related once [dist] is emptied end alike,
    with related trees and consoles. *)
Lemma build_sim (s f s' f' : Z) (r r' : tree) :
  C [Log (Str.newline +:+ "━━━ Build complete in "
          +:+ toFixed2 (f - s) +:+ "s ━━━" +:+ Str.newline)]
    [Log (Str.newline +:+ "━━━ Build complete in "
          +:+ toFixed2 (f' - s') +:+ "s ━━━" +:+ Str.newline)] ->
  R (cleaned r) (cleaned r') ->
  outcome_of (build s f r) = outcome_of (build s' f' r') /\
  R (tree_of (build s f r)) (tree_of (build s' f' r')) /\
  C (console_of (build s f r)) (console_of (build s' f' r')).
Proof.
  intros Hline Hr. rewrite !build_unfold.
  run_step (started_line r). run_step (started_line r').
  run_step (cleanDir_run r). run_step (cleanDir_run r').
  assert (Hrest :
            sim R C
              (originHTML <- buildOriginHTML ;;
               (if truthy originHTML then console_log "  ✓ origin.json loaded"
                else console_warn
                       "  ⚠  origin.json not found — origin pages will have empty content") ;;
               e <- existsSync (path_join ROOT ["templates"; "entry.html"]) ;;
               (if e then
                  copyFileSync (path_join ROOT ["templates"; "entry.html"])
                    (path_join DIST_DIR ["index.html"]) ;;
                  console_log "  ✓ index.html (entry)"
                else
                  console_error "  ✗ templates/entry.html not found — aborting" ;;
                  process_exit 1) ;;
               build_pages s f originHTML)
              (originHTML <- buildOriginHTML ;;
               (if truthy originHTML then console_log "  ✓ origin.json loaded"
                else console_warn
                       "  ⚠  origin.json not found — origin pages will have empty content") ;;
               e <- existsSync (path_join ROOT ["templates"; "entry.html"]) ;;
               (if e then
                  copyFileSync (path_join ROOT ["templates"; "entry.html"])
                    (path_join DIST_DIR ["index.html"]) ;;
                  console_log "  ✓ index.html (entry)"
                else
                  console_error "  ✗ templates/entry.html not found — aborting" ;;
                  process_exit 1) ;;
               build_pages s' f' originHTML)).
  { apply (sim_bind _ _ C_app); [exact R_buildOriginHTML | intros originHTML].
    sim_steps C_nil C_app C_same R_lookup R_write R_mkdirp
              readable_child writable_child writable_readable;
      try (apply readable_input; discriminate);
      try apply writable_dist.
    now apply sim_build_pages. }
  destruct (Hrest _ _ Hr) as (Ho & Ht & Hc).
  split; [exact Ho|]. split; [exact Ht|].
  apply (C_app [_] [_]); [apply C_same|].
  apply (C_app [] []); [apply C_nil | exact Hc].
Qed.

End SimBuild.

(** ** Building twice *)

Section Twice.
Context {host : Host}.

Lemma withoutTiming_app (a b : list event) :
  withoutTiming (a ++ b) = withoutTiming a ++ withoutTiming b.
Proof. apply filter_app. Qed.

(** On one tree a program ends as it ends, whatever the clock. *)
Lemma sim_same_tree {A} (C : list event -> list event -> Prop) (m : F A) :
  (forall out, C out out) -> sim eq C m m.
Proof. intros HC r r' <-. auto. Qed.

Lemma unlink_inDistOf (r D : tree) :
  FS.unlink "dist" (inDistOf r D) = FS.unlink "dist" r.
Proof.
  unfold inDistOf.
  change (FS.unlink "dist" (FS.unlink "dist" r ++ [("dist", Dir D)]))
    with (filter (fun e : string * node => negb (String.eqb "dist" (fst e)))
            (FS.unlink "dist" r ++ [("dist", Dir D)])).
  rewrite filter_app.
  change (filter (fun e : string * node => negb (String.eqb "dist" (fst e)))
            [("dist", Dir D)]) with (@nil (string * node)).
  rewrite app_nil_r.
  apply (FSFacts.unlink_absent "dist"), FSFacts.assoc_unlink_same.
Qed.

(** A build leaves the project as it was, but for [dist]. *)
Lemma build_shape (s f : Z) (r : tree) :
  exists D, tree_of (build s f r) = inDistOf r D.
Proof.
  destruct (build_start s f r) as (o & Ho & Hc & Hthrow).
  destruct o as [originHTML|e|c]; [| |now destruct (Hc c)].
  - rewrite build_unfold.
    run_step (started_line r). run_step (cleanDir_run r). run_step Ho.
    run_step (origin_line originHTML (cleaned r)).
    run_step (entry_exists r).
    destruct (FS.lookup ["templates"; "entry.html"] r) as [n|].
    + assert (Hpre := FSFacts.assoc_unlink_same "dist" r).
      assert (Hset : forall (D : tree) (name : string) (n : node),
                 True -> True -> True) by auto.
      destruct (safe_bind (distHolds (FS.unlink "dist" r) (fun _ => True)) _ _
                  (safe_bind _ _ _
                     (safe_copyFileSync _ (inDist (fun _ => True))
                        (distHolds_write _ Hpre _ _ Hset)
                        (path_join ROOT ["templates"; "entry.html"])
                        (path_join DIST_DIR ["index.html"])
                        (ex_intro _ "index.html"
                           (ex_intro _ [] (conj eq_refl Logic.I))))
                     (fun _ => safe_console_log _ "  ✓ index.html (entry)"))
                  (fun _ =>
                     build_pages_safe _ (inDist (fun _ => True))
                       (distHolds_write _ Hpre _ _ Hset)
                       (distHolds_mkdirp _ Hpre _ _ Hset)
                       (inDist_child _) s f originHTML
                       (fun name => ex_intro _ name
                                      (ex_intro _ [] (conj eq_refl Logic.I))))
                  (cleaned r))
        as [(D & HD & _) _].
      * exists []. split; [reflexivity | exact Logic.I].
      * exists D. exact HD.
    + exists []. reflexivity.
  - rewrite (Hthrow e eq_refl). exists []. reflexivity.
Qed.

(** C6: a second build on the tree the first one left ends as the first
    did, leaves the same tree, [dist] included, and prints the same lines
    but for the one with the elapsed time. *)
Theorem build_twice (s1 f1 s2 f2 : Z) (r : tree) :
  tree_of (build s2 f2 (tree_of (build s1 f1 r))) = tree_of (build s1 f1 r) /\
  outcome_of (build s2 f2 (tree_of (build s1 f1 r)))
  = outcome_of (build s1 f1 r) /\
  withoutTiming (console_of (build s2 f2 (tree_of (build s1 f1 r))))
  = withoutTiming (console_of (build s1 f1 r)).
Proof.
  destruct (build_shape s1 f1 r) as [D HD].
  assert (Hclean : cleaned (tree_of (build s1 f1 r)) = cleaned r).
  { rewrite HD. unfold cleaned. now rewrite unlink_inDistOf. }
  destruct (build_sim eq (fun a b => withoutTiming a = withoutTiming b)
              eq_refl
              (fun a a' b b' Ha Hb =>
                 eq_trans (withoutTiming_app a b)
                   (eq_trans (f_equal2 (@app event) Ha Hb)
                      (eq_sym (withoutTiming_app a' b'))))
              (fun e => eq_refl)
              (fun _ => True) (fun _ => True)
              (fun p r0 r0' _ (H : r0 = r0') => f_equal (FS.lookup p) H))
    with (s := s2) (f := f2) (s' := s1) (f' := f1)
         (r := tree_of (build s1 f1 r)) (r' := r)
    as (Ho & Ht & Hc); auto.
  - intros p data r0 r0' _ <-.
    destruct (FS.write p p data r0) as [t|e|c] eqn:E; auto.
    now destruct (write_not_exit p data p r0 c).
  - intros p r0 r0' _ <-.
    destruct (FS.mkdirp p p r0) as [t|e|c] eqn:E; auto.
    now destruct (mkdirp_not_exit p p r0 c).
  - intros html. now apply sim_same_tree.
  - now apply sim_same_tree.
Qed.

End Twice.

(** ** A post file that does not parse *)

Section Malformed.
Context {host : Host}.

Lemma map_fst_filter {A} (p : string -> bool) (es : list (string * A)) :
  map fst (filter (fun e => p (fst e)) es) = filter p (map fst es).
Proof.
  induction es as [|[k x] es IH]; cbn; [reflexivity|].
  destruct (p k); cbn; now rewrite IH.
Qed.

Lemma loadPost_unlink (f g : string) (es : tree) :
  g <> f -> loadPost (FS.unlink f es) g = loadPost es g.
Proof.
  intros H. unfold loadPost. now rewrite FSFacts.assoc_unlink_other.
Qed.

(** Without the file that does not load, the parsed posts are the same. *)
Lemma parsedPosts_unlink (f m : string) (es : tree) :
  loadPost es f = inr m -> parsedPosts (FS.unlink f es) = parsedPosts es.
Proof.
  intros Hf. unfold parsedPosts, postFiles, FS.unlink.
  rewrite (map_fst_filter (fun k => negb (String.eqb f k))).
  fold (FS.unlink f es).
  induction (map fst es) as [|g names IH]; [reflexivity|].
  cbn [filter]. destruct (String.eqb_spec f g) as [<-|Hne]; cbn [negb].
  - destruct (Str.endsWith f ".json"); [|exact IH].
    cbn [flat_map]. rewrite Hf. exact IH.
  - cbn [filter]. destruct (Str.endsWith g ".json"); [|exact IH].
    cbn [flat_map]. rewrite loadPost_unlink by congruence. now rewrite IH.
Qed.

Lemma warning_of_malformed (f m : string) (es : tree) :
  In f (map fst es) -> Str.endsWith f ".json" = true ->
  loadPost es f = inr m ->
  In (Warn ("  ⚠  " +:+ f +:+ ": " +:+ m)) (postWarnings es).
Proof.
  intros Hin Hjson Hf. unfold postWarnings. apply in_flat_map.
  exists f. split.
  - unfold postFiles. apply filter_In. auto.
  - rewrite Hf. now left.
Qed.

Lemma assoc_In {A} (k : string) (x : A) (l : list (string * A)) :
  assoc k l = Some x -> In k (map fst l).
Proof.
  induction l as [|[k' y] l IH]; cbn; [discriminate|].
  destruct (String.eqb_spec k k') as [->|Hne]; auto.
Qed.

(** *** Projects with the same posts *)

Lemma samePosts_lookup p r r' :
  besideContent p -> samePosts r r' -> FS.lookup p r = FS.lookup p r'.
Proof.
  intros (k & q & -> & Hk) (H1 & _ & _).
  unfold FS.lookup. cbn [FS.lookupIn]. now rewrite (H1 k Hk).
Qed.

Lemma mkdirp_below p name q es :
  FS.mkdirp p (name :: q) es =
  match assoc name es with
  | Some (File _) =>
      Throw (match q with
             | [] => FS.EEXIST "mkdir" p
             | _ => FS.ENOTDIR "mkdir" p
             end)
  | Some (Dir sub) =>
      match FS.mkdirp p q sub with
      | Ok sub' => Ok (FS.set name (Dir sub') es)
      | Throw e => Throw e
      | Exit c => Exit c
      end
  | None =>
      match FS.mkdirp p q [] with
      | Ok sub' => Ok (FS.set name (Dir sub') es)
      | Throw e => Throw e
      | Exit c => Exit c
      end
  end.
Proof. reflexivity. Qed.

Lemma write_local p data k q r r' :
  assoc k r = assoc k r' ->
  match FS.write p (k :: q) data r, FS.write p (k :: q) data r' with
  | Ok t, Ok t' => exists n, t = FS.set k n r /\ t' = FS.set k n r'
  | Throw e, Throw e' => e = e'
  | _, _ => False
  end.
Proof.
  intros H. destruct q as [|k' q'].
  - cbn [FS.write]. rewrite <- H.
    destruct (assoc k r) as [[|]|]; eauto.
  - rewrite !write_below, <- H.
    destruct (assoc k r) as [[|sub]|]; auto.
    destruct (FS.write p (k' :: q') data sub) as [t|e|c] eqn:E.
    + eauto.
    + reflexivity.
    + now destruct (write_not_exit p data (k' :: q') sub c).
Qed.

Lemma mkdirp_local p k q r r' :
  assoc k r = assoc k r' ->
  match FS.mkdirp p (k :: q) r, FS.mkdirp p (k :: q) r' with
  | Ok t, Ok t' => exists n, t = FS.set k n r /\ t' = FS.set k n r'
  | Throw e, Throw e' => e = e'
  | _, _ => False
  end.
Proof.
  intros H. rewrite !mkdirp_below, <- H.
  destruct (assoc k r) as [[|sub]|]; auto.
  - destruct (FS.mkdirp p q sub) as [t|e|c] eqn:E.
    + eauto.
    + reflexivity.
    + now destruct (mkdirp_not_exit p q sub c).
  - destruct (FS.mkdirp p q []) as [t|e|c] eqn:E.
    + eauto.
    + reflexivity.
    + now destruct (mkdirp_not_exit p q [] c).
Qed.

Lemma lookup_set_other (k k' : string) (q : path) (n : node) (r : tree) :
  k' <> k -> FS.lookup (k' :: q) (FS.set k n r) = FS.lookup (k' :: q) r.
Proof.
  intros H. unfold FS.lookup. cbn [FS.lookupIn].
  now rewrite FSFacts.assoc_set_other.
Qed.

Lemma samePosts_set (n : node) (r r' : tree) :
  samePosts r r' -> samePosts (FS.set "dist" n r) (FS.set "dist" n r').
Proof.
  intros (H1 & H2 & H3). split; [|split].
  - intros k Hk. destruct (String.eqb_spec k "dist") as [->|Hne].
    + now rewrite !FSFacts.assoc_set_same.
    + rewrite !FSFacts.assoc_set_other by assumption. auto.
  - intros k q Hk. rewrite !lookup_set_other by discriminate. auto.
  - rewrite !lookup_set_other by discriminate. exact H3.
Qed.

Lemma samePosts_write p data r r' :
  belowDist p -> samePosts r r' ->
  match FS.write p p data r, FS.write p p data r' with
  | Ok t, Ok t' => samePosts t t'
  | Throw e, Throw e' => e = e'
  | _, _ => False
  end.
Proof.
  intros (q & ->) Hr.
  generalize (write_local ("dist" :: q) data "dist" q r r'
                (proj1 Hr "dist" ltac:(discriminate))).
  destruct (FS.write ("dist" :: q) ("dist" :: q) data r),
           (FS.write ("dist" :: q) ("dist" :: q) data r');
    try (intros H'; exact H').
  intros (n & -> & ->). now apply samePosts_set.
Qed.

Lemma samePosts_mkdirp p r r' :
  belowDist p -> samePosts r r' ->
  match FS.mkdirp p p r, FS.mkdirp p p r' with
  | Ok t, Ok t' => samePosts t t'
  | Throw e, Throw e' => e = e'
  | _, _ => False
  end.
Proof.
  intros (q & ->) Hr.
  generalize (mkdirp_local ("dist" :: q) "dist" q r r'
                (proj1 Hr "dist" ltac:(discriminate))).
  destruct (FS.mkdirp ("dist" :: q) ("dist" :: q) r),
           (FS.mkdirp ("dist" :: q) ("dist" :: q) r');
    try (intros H'; exact H').
  intros (n & -> & ->). now apply samePosts_set.
Qed.

Lemma samePosts_cleaned (r r' : tree) :
  samePosts r r' -> samePosts (cleaned r) (cleaned r').
Proof.
  intros (H1 & H2 & H3). split; [|split].
  - intros k Hk. unfold cleaned. rewrite !FSFacts.assoc_app.
    destruct (String.eqb_spec k "dist") as [->|Hne].
    + now rewrite !FSFacts.assoc_unlink_same.
    + rewrite !FSFacts.assoc_unlink_other by assumption.
      rewrite (H1 k Hk). reflexivity.
  - intros k q Hk. rewrite !lookup_cleaned by discriminate. auto.
  - rewrite !lookup_cleaned by discriminate. exact H3.
Qed.

Lemma samePosts_readPosts (r r' : tree) :
  samePosts r r' ->
  outcome_of (readPosts r) = outcome_of (readPosts r') /\
  tree_of (readPosts r) = r /\ tree_of (readPosts r') = r'.
Proof.
  intros (_ & _ & H3). rewrite !readPosts_run.
  destruct (FS.lookup ["content"; "posts"] r) as [[d|es]|],
           (FS.lookup ["content"; "posts"] r') as [[d'|es']|];
    try contradiction; cbn; auto.
  now rewrite H3.
Qed.

Lemma samePosts_parsedAt (name : string) (r r' : tree) :
  name <> "posts" -> samePosts r r' ->
  parsedAt ["content"; name] r = parsedAt ["content"; name] r'.
Proof.
  intros Hname (_ & H2 & _). unfold parsedAt. now rewrite (H2 name [] Hname).
Qed.

Lemma samePosts_injectData (html : string) :
  sim samePosts (fun _ _ => True) (injectData html) (injectData html).
Proof.
  intros r r' Hr.
  destruct (samePosts_readPosts r r' Hr) as (Ho & Ht & Ht').
  destruct (readPosts r) as [[o t] out] eqn:E,
           (readPosts r') as [[o' t'] out'] eqn:E'.
  cbn in Ho, Ht, Ht'. subst o' t t'.
  destruct o as [posts|e|c].
  - rewrite (injectData_run html r posts out E),
            (injectData_run html r' posts out' E').
    rewrite !(samePosts_parsedAt _ r r') by (discriminate || assumption).
    cbn. auto.
  - unfold injectData. rewrite !bind_run, E, E'. cbn. auto.
  - unfold injectData. rewrite !bind_run, E, E'. cbn. auto.
Qed.

Lemma samePosts_buildOriginHTML :
  sim samePosts (fun _ _ => True) buildOriginHTML buildOriginHTML.
Proof.
  intros r r' Hr. unfold buildOriginHTML.
  rewrite !bind_run, !readJSON_run.
  change (path_join ROOT ["content"; "origin.json"])
    with ["content"; "origin.json"].
  rewrite (samePosts_parsedAt "origin.json" r r') by (discriminate || assumption).
  destruct (negb _); cbn; auto.
Qed.

(** Two builds of projects with the same posts end alike and leave the
    same [dist]. *)
Lemma build_samePosts (s f : Z) (r r' : tree) :
  samePosts r r' ->
  outcome_of (build s f r) = outcome_of (build s f r') /\
  FS.lookup ["dist"] (tree_of (build s f r))
  = FS.lookup ["dist"] (tree_of (build s f r')).
Proof.
  intros Hr.
  destruct (build_sim samePosts (fun _ _ => True) Logic.I
              (fun _ _ _ _ _ _ => Logic.I) (fun _ => Logic.I)
              besideContent belowDist
              samePosts_lookup samePosts_write samePosts_mkdirp)
    with (s := s) (f := f) (s' := s) (f' := f) (r := r) (r' := r')
    as (Ho & Ht & _).
  - intros p name (k & q & -> & Hk). exists k, (q ++ [name]). auto.
  - intros p name (q & ->). exists (q ++ [name]). reflexivity.
  - intros p (q & ->). exists "dist", q. split; [reflexivity | discriminate].
  - intros k q Hk _. exists k, q. auto.
  - intros name. exists [name]. reflexivity.
  - exact samePosts_injectData.
  - exact samePosts_buildOriginHTML.
  - exact Logic.I.
  - now apply samePosts_cleaned.
  - split; [exact Ho|].
    apply (samePosts_lookup ["dist"]); [|exact Ht].
    exists "dist", []. split; [reflexivity | discriminate].
Qed.

Lemma samePosts_without (r es : tree) (f m : string) :
  FS.lookup ["content"; "posts"] r = Some (Dir es) ->
  loadPost es f = inr m ->
  FS.lookup ["content"; "posts"] (FS.remove ["content"; "posts"; f] r)
  = Some (Dir (FS.unlink f es)) /\
  samePosts (FS.remove ["content"; "posts"; f] r) r.
Proof.
  intros Hdir Hf. assert (Hdir' := Hdir).
  unfold FS.lookup in Hdir'. cbn [FS.lookupIn] in Hdir'.
  destruct (assoc "content" r) as [[d|sub]|] eqn:Ec; try discriminate.
  destruct (assoc "posts" sub) as [n|] eqn:Ep; [|discriminate].
  inversion Hdir'; subst n.
  assert (Egood : FS.remove ["content"; "posts"; f] r
                  = FS.set "content"
                      (Dir (FS.set "posts" (Dir (FS.unlink f es)) sub)) r).
  { cbn [FS.remove]. rewrite Ec, Ep. reflexivity. }
  rewrite Egood.
  assert (Hposts : FS.lookup ["content"; "posts"]
                     (FS.set "content"
                        (Dir (FS.set "posts" (Dir (FS.unlink f es)) sub)) r)
                   = Some (Dir (FS.unlink f es))).
  { unfold FS.lookup. cbn [FS.lookupIn].
    now rewrite !FSFacts.assoc_set_same. }
  split; [exact Hposts|]. split; [|split].
  - intros k Hk. now apply FSFacts.assoc_set_other.
  - intros k q Hk. unfold FS.lookup. cbn [FS.lookupIn].
    rewrite FSFacts.assoc_set_same, Ec.
    now rewrite FSFacts.assoc_set_other.
  - rewrite Hposts, Hdir. now apply (parsedPosts_unlink f m).
Qed.

End Malformed.

(** ** A post that is null *)

Section NullPost.
Context {host : Host}.

(** [buildOriginHTML] does not look at [dist]. *)
Lemma buildOriginHTML_cleaned (r : tree) :
  outcome_of (buildOriginHTML (cleaned r)) = outcome_of (buildOriginHTML r).
Proof.
  unfold buildOriginHTML. rewrite !bind_run, !readJSON_run.
  change (path_join ROOT ["content"; "origin.json"])
    with ["content"; "origin.json"].
  rewrite parsedAt_cleaned by discriminate.
  destruct (negb _); reflexivity.
Qed.

(** Nor does [injectData]. *)
Lemma injectData_inDistOf (html : string) (r D : tree) (e : exn) (out : list event) :
  injectData html r = (Throw e, r, out) ->
  injectData html (inDistOf r D) = (Throw e, inDistOf r D, out).
Proof.
  assert (Hposts : forall t,
             FS.lookup ["content"; "posts"] t = FS.lookup ["content"; "posts"] r ->
             readPosts t = (outcome_of (readPosts r), t, console_of (readPosts r))).
  { intros t Ht. rewrite !readPosts_run, Ht.
    destruct (FS.lookup ["content"; "posts"] r) as [[d|es]|]; reflexivity. }
  assert (Hparsed : forall name,
             parsedAt ["content"; name] (inDistOf r D) = parsedAt ["content"; name] r).
  { intros name. unfold parsedAt. now rewrite lookup_inDistOf by discriminate. }
  assert (Hr := Hposts r eq_refl).
  assert (Ht := Hposts (inDistOf r D) (lookup_inDistOf r "content" ["posts"] D ltac:(discriminate))).
  destruct (outcome_of (readPosts r)) as [posts|e'|c] eqn:Eo.
  - rewrite (injectData_run html r posts _ Hr),
            (injectData_run html _ posts _ Ht), !Hparsed.
    cbv zeta. intros H.
    assert (H1 := f_equal (fun x => fst (fst x)) H).
    assert (H2 := f_equal snd H).
    cbn [fst snd] in H1, H2. now rewrite H1, H2.
  - unfold injectData. rewrite !bind_run, Hr, Ht.
    intros H. inversion H. reflexivity.
  - unfold injectData. rewrite !bind_run, Hr, Ht. discriminate.
Qed.

Lemma origin_page_any (originHTML : option string) (page : string) (r D : tree) :
  notDir (FS.lookup ["templates"; page] r) ->
  notDir (assoc page D) ->
  exists D' out,
    origin_page originHTML page (inDistOf r D) = (Ok tt, inDistOf r D', out) /\
    forall name, name <> page -> assoc name D' = assoc name D.
Proof.
  intros Ht Hn.
  destruct (FS.lookup ["templates"; page] r) as [[t|es]|] eqn:E;
    [ | now destruct Ht | ].
  - eexists _, _. split; [now apply (origin_page_run r originHTML page t)|].
    intros name Hname. now apply FSFacts.assoc_set_other.
  - eexists _, _. split; [now apply origin_page_skipped | reflexivity].
Qed.

(** A build with its entry template and its origin fragment comes to the
    blog page, with nothing of that name in [dist]. *)
Lemma build_reaches_tail (s f : Z) (r : tree) (originHTML : option string)
      (e : string) :
  outcome_of (buildOriginHTML r) = Ok originHTML ->
  FS.lookup ["templates"; "entry.html"] r = Some (File e) ->
  notDir (FS.lookup ["templates"; "ripple.html"] r) ->
  notDir (FS.lookup ["templates"; "clean.html"] r) ->
  exists D,
    assoc "blog.html" D = None /\
    outcome_of (build s f r) = outcome_of (build_tail s f (inDistOf r D)) /\
    tree_of (build s f r) = tree_of (build_tail s f (inDistOf r D)).
Proof.
  intros Horigin Hentry Hripple Hclean.
  assert (Ho : buildOriginHTML (cleaned r) = (Ok originHTML, cleaned r, [])).
  { destruct (buildOriginHTML_reads (cleaned r)) as (o & Ho & _).
    rewrite <- buildOriginHTML_cleaned, Ho in Horigin. cbn in Horigin.
    now subst o. }
  set (D1 := FS.set "index.html" (File e) []).
  assert (Hcopy :
            (copyFileSync (path_join ROOT ["templates"; "entry.html"])
               (path_join DIST_DIR ["index.html"]) ;;
             console_log "  ✓ index.html (entry)") (cleaned r)
            = (Ok tt, inDistOf r D1, [Log "  ✓ index.html (entry)"])).
  { rewrite bind_run, cleaned_inDistOf.
    rewrite (copyFileSync_to_dist r _ "index.html" e []);
      [reflexivity | | exact Logic.I].
    change (path_join ROOT ["templates"; "entry.html"])
      with ["templates"; "entry.html"].
    now rewrite lookup_inDistOf by discriminate. }
  destruct (origin_page_any originHTML "ripple.html" r D1 Hripple Logic.I)
    as (D2 & out2 & Hpage2 & Hframe2).
  destruct (origin_page_any originHTML "clean.html" r D2 Hclean)
    as (D3 & out3 & Hpage3 & Hframe3).
  { rewrite Hframe2 by discriminate. exact Logic.I. }
  assert (Hloop :
            for_of ["ripple.html"; "clean.html"] tt
              (fun _ page => origin_page originHTML page) (inDistOf r D1)
            = (Ok tt, inDistOf r D3, out2 ++ out3 ++ [])).
  { cbn [for_of]. rewrite bind_run, Hpage2. rewrite bind_run, Hpage3.
    reflexivity. }
  exists D3. split.
  { rewrite Hframe3, Hframe2 by discriminate. reflexivity. }
  rewrite build_unfold.
  run_step (started_line r). run_step (cleanDir_run r). run_step Ho.
  run_step (origin_line originHTML (cleaned r)). run_step (entry_exists r).
  rewrite Hentry. cbv iota.
  run_step Hcopy. unfold build_pages. run_step Hloop.
  split; reflexivity.
Qed.

(** The blog page of a build whose [injectData] throws. *)
Lemma build_tail_throws (s f : Z) (r D : tree) (html : string) (e : exn)
      (out : list event) :
  FS.lookup ["templates"; "blog.html"] r = Some (File html) ->
  injectData html r = (Throw e, r, out) ->
  build_tail s f (inDistOf r D)
  = (Throw e, inDistOf r D, out).
Proof.
  intros Hblog Hthrow. unfold build_tail. cbv zeta.
  change (path_join ROOT ["templates"; "blog.html"])
    with ["templates"; "blog.html"].
  rewrite bind_run, existsSync_run, lookup_inDistOf, Hblog by discriminate.
  rewrite bind_run. rewrite bind_run. unfold readFileSync at 1.
  rewrite lookup_inDistOf, Hblog by discriminate.
  rewrite bind_run, (injectData_inDistOf html r D e out Hthrow).
  reflexivity.
Qed.

(** C9: with two or more parsed posts of which one is [null],
    [readPosts] ends in a TypeError of the comparator, after the warnings
    of the loop; when the other posts have date keys it is the TypeError
    of reading [date] of [null].  [injectData] ends in the same exception,
    and so does a build that comes to its blog page, with exit code 1 and
    without a blog page. *)
Theorem readPosts_null_post_throws (r es : tree) :
  FS.lookup ["content"; "posts"] r = Some (Dir es) ->
  2 <= List.length (parsedPosts es) ->
  In JNull (parsedPosts es) ->
  (exists e,
      isTypeError e = true /\
      readPosts r = (Throw e, r, postWarnings es) /\
      (forall html, injectData html r = (Throw e, r, postWarnings es)) /\
      (forall (s f : Z) (originHTML : option string) (entry html : string),
          outcome_of (buildOriginHTML r) = Ok originHTML ->
          FS.lookup ["templates"; "entry.html"] r = Some (File entry) ->
          notDir (FS.lookup ["templates"; "ripple.html"] r) ->
          notDir (FS.lookup ["templates"; "clean.html"] r) ->
          FS.lookup ["templates"; "blog.html"] r = Some (File html) ->
          outcome_of (build s f r) = Throw e /\
          exitCode (outcome_of (build s f r)) = 1%Z /\
          FS.lookup ["dist"; "blog.html"] (tree_of (build s f r)) = None)) /\
  (Forall (fun post => post = JNull \/ dateKey post <> None) (parsedPosts es) ->
   readPosts r = (Throw (nullishRead "null" "date"), r, postWarnings es)).
Proof.
  intros Hdir Hlen Hnull.
  assert (Hex : Exists (fun a : json => isNull a = true) (parsedPosts es))
    by (apply Exists_exists; exists JNull; auto).
  split.
  - destruct (Array_sort_throws byDateDescending (fun _ => True) isNull
                (fun e => isTypeError e = true)) with (l := parsedPosts es)
      as (e & E & He); auto.
    + intros a b _ _ Hbad. exists (nullishRead "null" "date"). split; [|reflexivity].
      apply byDateDescending_null.
      destruct Hbad as [H|H]; [left; destruct a | right; destruct b];
        try discriminate; reflexivity.
    + intros a b _ _. apply byDateDescending_outcome.
    + now apply Forall_forall.
    + exists e. split; [exact He|].
      assert (Hr : readPosts r = (Throw e, r, postWarnings es))
        by now rewrite readPosts_run, Hdir, E.
      assert (Hinject : forall html,
                 injectData html r = (Throw e, r, postWarnings es)).
      { intros html. unfold injectData. rewrite bind_run, Hr. reflexivity. }
      split; [exact Hr|]. split; [exact Hinject|].
      intros s f originHTML entry html Horigin Hentry Hripple Hclean Hblog.
      destruct (build_reaches_tail s f r originHTML entry
                  Horigin Hentry Hripple Hclean) as (D & HD & Ho & Ht).
      rewrite Ho, Ht,
        (build_tail_throws s f r D html e _ Hblog (Hinject html)).
      cbn [outcome_of tree_of fst snd].
      split; [reflexivity|]. split; [reflexivity|].
      now rewrite lookup_dist_inDistOf.
  - intros Hall.
    destruct (Array_sort_throws byDateDescending
                (fun post => post = JNull \/ dateKey post <> None) isNull
                (fun e => e = nullishRead "null" "date"))
      with (l := parsedPosts es) as (e & E & He); auto.
    + intros a b _ _ Hbad. exists (nullishRead "null" "date"). split; [|reflexivity].
      apply byDateDescending_null.
      destruct Hbad as [H|H]; [left; destruct a | right; destruct b];
        try discriminate; reflexivity.
    + intros a b [->|Ha] [->|Hb];
        try solve [rewrite byDateDescending_null; [reflexivity | auto]].
      destruct (dateKey a) as [ka|] eqn:Ea; [|contradiction].
      destruct (dateKey b) as [kb|] eqn:Eb; [|contradiction].
      now rewrite (byDateDescending_dated a b ka kb).
    + subst e. now rewrite readPosts_run, Hdir, E.
Qed.

End NullPost.

(** Witness of C9: a post file that holds [null] beside a post. *)
Lemma readPosts_null_post_throws_witness :
  Samples.ref_readPosts Samples.nullPost
  = (Throw (nullishRead "null" "date"), Samples.nullPost, []).
Proof.
  apply (readPosts_null_post_throws (host := Reference.host) Samples.nullPost
           [("a.json", File "null");
            ("b.json", File (Str.dq "{'date': '2024-01-01'}"))]).
  - reflexivity.
  - vm_compute. lia.
  - vm_compute. auto.
  - vm_compute. constructor; [left; reflexivity|].
    constructor; [right; discriminate|]. constructor.
Defined.

(** ** cleanDir and ensureDir *)

Section Directories.

Lemma lookup_cons (name : string) (q : path) (es : tree) :
  FS.lookup (name :: q) es =
  match assoc name es with
  | Some c => FS.lookupIn q c
  | None => None
  end.
Proof. reflexivity. Qed.

Lemma remove_below name name' q es :
  FS.remove (name :: name' :: q) es =
  match assoc name es with
  | Some (Dir sub) => FS.set name (Dir (FS.remove (name' :: q) sub)) es
  | _ => es
  end.
Proof. reflexivity. Qed.

(** Nothing is at [q] once it is removed. *)
Lemma lookup_remove : forall q es, q <> [] -> FS.lookup q (FS.remove q es) = None.
Proof.
  induction q as [|name q IH]; intros es Hq; [contradiction|].
  destruct q as [|name' q].
  - cbn [FS.remove]. rewrite lookup_cons. now rewrite FSFacts.assoc_unlink_same.
  - rewrite remove_below, lookup_cons.
    destruct (assoc name es) as [[data|sub]|] eqn:E.
    + rewrite E. reflexivity.
    + rewrite FSFacts.assoc_set_same. apply (IH sub). discriminate.
    + rewrite E. reflexivity.
Qed.

(** [mkdir -p] of a path that is not there leaves an empty directory at
    it. *)
Lemma mkdirp_creates p : forall q es t,
  FS.lookup q es = None -> FS.mkdirp p q es = Ok t ->
  FS.lookup q t = Some (Dir []).
Proof.
  induction q as [|name q IH]; intros es t Hnone Hmk; [discriminate|].
  rewrite mkdirp_below in Hmk. rewrite lookup_cons in Hnone.
  destruct (assoc name es) as [[data|sub]|] eqn:E; [discriminate| |].
  - destruct (FS.mkdirp p q sub) as [sub'| |] eqn:Es; try discriminate.
    inversion Hmk; subst t. rewrite lookup_cons, FSFacts.assoc_set_same.
    now apply (IH sub).
  - destruct (FS.mkdirp p q []) as [sub'| |] eqn:Es; try discriminate.
    inversion Hmk; subst t. rewrite lookup_cons, FSFacts.assoc_set_same.
    destruct q as [|name' q].
    + cbn in Es. inversion Es. reflexivity.
    + now apply (IH []).
Qed.

(** A failed [mkdir -p] is the one of a path through a regular file. *)
Lemma mkdirp_head p name q es :
  match FS.mkdirp p (name :: q) es with
  | Ok t => exists n, t = FS.set name n es
  | Throw _ => True
  | Exit _ => False
  end.
Proof.
  rewrite mkdirp_below.
  destruct (assoc name es) as [[data|sub]|]; [exact I| |].
  - destruct (FS.mkdirp p q sub) as [sub'|e|c] eqn:E; [eauto|exact I|].
    now destruct (mkdirp_not_exit p q sub c).
  - destruct (FS.mkdirp p q []) as [sub'|e|c] eqn:E; [eauto|exact I|].
    now destruct (mkdirp_not_exit p q [] c).
Qed.

(** X1: [cleanDir(p)] never ends the process; when it returns, [p] is an
    empty directory, whatever was there, a regular file included, and
    nothing is printed.  For a path of one name, as [dist] is, it always
    returns, and what is under another name of [ROOT] is as it was. *)
Theorem cleanDir_leaves_empty (p : path) (r : tree) :
  p <> [] ->
  (forall c, outcome_of (cleanDir p r) <> Exit c) /\
  console_of (cleanDir p r) = [] /\
  (outcome_of (cleanDir p r) = Ok tt ->
   FS.lookup p (tree_of (cleanDir p r)) = Some (Dir [])) /\
  (forall name, p = [name] ->
     outcome_of (cleanDir p r) = Ok tt /\
     forall k q, k <> name ->
       FS.lookup (k :: q) (tree_of (cleanDir p r)) = FS.lookup (k :: q) r).
Proof.
  intros Hp.
  assert (Hrun : cleanDir p r = mkdirSync p (FS.remove p r)).
  { unfold cleanDir. rewrite bind_run. unfold existsSync at 1.
    destruct (FS.lookup p r) as [n|] eqn:E.
    - rewrite bind_run. unfold rmSync at 1.
      destruct (mkdirSync p (FS.remove p r)) as [[o t] out]. reflexivity.
    - rewrite bind_run. cbn [ret Monad_F].
      assert (Hsame : FS.remove p r = r).
      { clear Hp. revert r E. induction p as [|name q IH]; intros r E; [reflexivity|].
        destruct q as [|name' q].
        - cbn [FS.remove]. apply FSFacts.unlink_absent.
          rewrite lookup_cons in E. now destruct (assoc name r).
        - rewrite remove_below. rewrite lookup_cons in E.
          destruct (assoc name r) as [[data|sub]|] eqn:Ea; try reflexivity.
          rewrite (IH sub E).
          clear - Ea. induction r as [|[k x] r IHr]; [discriminate|].
          cbn [assoc FS.set] in *. destruct (String.eqb name k) eqn:Ek.
          + apply String.eqb_eq in Ek. subst k. now inversion Ea.
          + now rewrite (IHr Ea). }
      rewrite Hsame.
      destruct (mkdirSync p r) as [[o t] out]. reflexivity. }
  rewrite Hrun. unfold mkdirSync.
  destruct (FS.mkdirp p p (FS.remove p r)) as [t|e|c] eqn:Emk.
  - cbn [outcome_of tree_of console_of fst snd].
    split; [discriminate|]. split; [reflexivity|]. split.
    + intros _. apply (mkdirp_creates p p (FS.remove p r)); [|exact Emk].
      now apply lookup_remove.
    + intros name ->. split; [reflexivity|]. intros k q Hk.
      cbn [FS.remove] in Emk.
      generalize (mkdirp_head [name] name [] (FS.unlink name r)).
      rewrite Emk. intros [n ->].
      rewrite !lookup_cons, FSFacts.assoc_set_other, FSFacts.assoc_unlink_other;
        auto.
  - cbn [outcome_of tree_of console_of fst snd].
    split; [discriminate|]. split; [reflexivity|]. split; [discriminate|].
    intros name ->. exfalso. cbn [FS.remove] in Emk.
    rewrite mkdirp_below, FSFacts.assoc_unlink_same in Emk. discriminate.
  - now destruct (mkdirp_not_exit p p (FS.remove p r) c).
Qed.

Lemma ensureDir_run (p : path) (r : tree) :
  ensureDir p r =
  match FS.lookup p r with
  | Some _ => (Ok tt, r, [])
  | None => mkdirSync p r
  end.
Proof.
  unfold ensureDir. rewrite bind_run. unfold existsSync.
  destruct (FS.lookup p r) as [n|]; [reflexivity|].
  cbn [negb]. destruct (mkdirSync p r) as [[o t] out]. reflexivity.
Qed.

(** X2: [ensureDir(p)] leaves everything as it is when anything is at
    [p], a regular file included; otherwise it makes the directory, empty,
    with the directories on the way, or ends in the exception of [mkdir]
    and leaves the tree as it was. *)
Theorem ensureDir_makes_directory (p : path) (r : tree) :
  (FS.lookup p r <> None -> ensureDir p r = (Ok tt, r, [])) /\
  (FS.lookup p r = None ->
   match outcome_of (ensureDir p r) with
   | Ok _ => FS.lookup p (tree_of (ensureDir p r)) = Some (Dir [])
   | Throw e => tree_of (ensureDir p r) = r /\ FS.mkdirp p p r = Throw e
   | Exit _ => False
   end).
Proof.
  rewrite ensureDir_run.
  destruct (FS.lookup p r) as [n|] eqn:E.
  - split; [reflexivity | discriminate].
  - split; [intros H; now destruct H|]. intros _.
    unfold mkdirSync.
    destruct (FS.mkdirp p p r) as [t|e|c] eqn:Emk;
      cbn [outcome_of tree_of fst snd].
    + now apply (mkdirp_creates p p r).
    + split; reflexivity.
    + now destruct (mkdirp_not_exit p p r c).
Qed.

End Directories.

Lemma cleanDir_leaves_empty_witness :
  FS.lookup ["dist"] (tree_of (cleanDir ["dist"] Samples.noEntry)) = Some (Dir []).
Proof.
  destruct (cleanDir_leaves_empty ["dist"] Samples.noEntry ltac:(discriminate))
    as (_ & _ & H & _).
  apply H. reflexivity.
Defined.

Lemma ensureDir_makes_directory_witness :
  FS.lookup ["dist"; "assets"] (tree_of (ensureDir ["dist"; "assets"] Samples.noEntry))
  = Some (Dir []).
Proof.
  exact (proj2 (ensureDir_makes_directory ["dist"; "assets"] Samples.noEntry) eq_refl).
Defined.
(** ** copyDirSync *)

Section Copies.

Lemma graft_below name name' q n es :
  FS.graft (name :: name' :: q) n es =
  match assoc name es with
  | Some (Dir sub) => FS.set name (Dir (FS.graft (name' :: q) n sub)) es
  | _ => es
  end.
Proof. reflexivity. Qed.

Lemma set_set name n1 n2 : forall es,
  FS.set name n2 (FS.set name n1 es) = FS.set name n2 es.
Proof.
  induction es as [|[k x] es IH]; cbn [FS.set].
  - now rewrite String.eqb_refl.
  - destruct (String.eqb name k) eqn:E; cbn [FS.set]; rewrite E; [reflexivity|].
    now rewrite IH.
Qed.

(** Writing a file into the directory at [q]. *)
Lemma write_graft p data name : forall q es cur,
  FS.lookup q es = Some (Dir cur) ->
  notDir (assoc name cur) ->
  FS.write p (q ++ [name]) data es = Ok (FS.graft (q ++ [name]) (File data) es).
Proof.
  induction q as [|k q IH]; intros es cur Hq Hn.
  - cbn in Hq. inversion Hq; subst cur. cbn [app FS.write FS.graft].
    destruct (assoc name es) as [[|]|]; [reflexivity | now destruct Hn | reflexivity].
  - rewrite lookup_cons in Hq.
    destruct (assoc k es) as [[|sub]|] eqn:E; try discriminate;
      [destruct q; discriminate|].
    change ((k :: q) ++ [name]) with (k :: (q ++ [name])).
    destruct (q ++ [name]) as [|k' q'] eqn:Eq; [now destruct q|].
    rewrite write_below, graft_below, E.
    now rewrite (IH sub cur Hq Hn).
Qed.

(** Making the directory [name] in the directory at [q]. *)
Lemma mkdirp_graft p name : forall q es cur,
  FS.lookup q es = Some (Dir cur) ->
  assoc name cur = None ->
  FS.mkdirp p (q ++ [name]) es = Ok (FS.graft (q ++ [name]) (Dir []) es).
Proof.
  induction q as [|k q IH]; intros es cur Hq Hn.
  - cbn in Hq. inversion Hq; subst cur. cbn [app FS.graft].
    rewrite mkdirp_below, Hn. reflexivity.
  - rewrite lookup_cons in Hq.
    destruct (assoc k es) as [[|sub]|] eqn:E; try discriminate;
      [destruct q; discriminate|].
    change ((k :: q) ++ [name]) with (k :: (q ++ [name])).
    rewrite mkdirp_below, E, (IH sub cur Hq Hn).
    destruct (q ++ [name]) as [|k' q'] eqn:Eq; [now destruct q|].
    now rewrite graft_below, E.
Qed.

(** What is at [q ++ [name]] after the graft, and in the directory at [q]. *)
Lemma lookup_graft name n : forall q es cur,
  FS.lookup q es = Some (Dir cur) ->
  FS.lookup q (FS.graft (q ++ [name]) n es) = Some (Dir (FS.set name n cur)).
Proof.
  induction q as [|k q IH]; intros es cur Hq.
  - cbn in Hq. inversion Hq; subst cur. reflexivity.
  - rewrite lookup_cons in Hq.
    destruct (assoc k es) as [[|sub]|] eqn:E; try discriminate;
      [destruct q; discriminate|].
    change ((k :: q) ++ [name]) with (k :: (q ++ [name])).
    destruct (q ++ [name]) as [|k' q'] eqn:Eq; [now destruct q|].
    rewrite graft_below, E, lookup_cons, FSFacts.assoc_set_same.
    now apply (IH sub).
Qed.

(** Grafting twice at one place. *)
Lemma graft_graft n1 n2 : forall q es,
  FS.graft q n2 (FS.graft q n1 es) = FS.graft q n2 es.
Proof.
  induction q as [|k q IH]; intros es; [reflexivity|].
  destruct q as [|k' q].
  - cbn [FS.graft]. apply set_set.
  - rewrite !graft_below.
    destruct (assoc k es) as [[|sub]|] eqn:E; rewrite ?E; try reflexivity.
    now rewrite FSFacts.assoc_set_same, set_set, IH.
Qed.

(** A graft into the grafted directory. *)
Lemma graft_child name nm c done : forall q es cur,
  FS.lookup q es = Some (Dir cur) ->
  FS.graft ((q ++ [name]) ++ [nm]) c (FS.graft (q ++ [name]) (Dir done) es)
  = FS.graft (q ++ [name]) (Dir (FS.set nm c done)) es.
Proof.
  induction q as [|k q IH]; intros es cur Hq.
  - cbn [app]. rewrite graft_below. cbn [FS.graft].
    now rewrite FSFacts.assoc_set_same, set_set.
  - rewrite lookup_cons in Hq.
    destruct (assoc k es) as [[|sub]|] eqn:E; try discriminate;
      [destruct q; discriminate|].
    change (((k :: q) ++ [name]) ++ [nm]) with (k :: ((q ++ [name]) ++ [nm])).
    change ((k :: q) ++ [name]) with (k :: (q ++ [name])).
    destruct (q ++ [name]) as [|k' q'] eqn:Eq; [now destruct q|].
    change ((k' :: q') ++ [nm]) with (k' :: (q' ++ [nm])).
    rewrite !graft_below, E, FSFacts.assoc_set_same, set_set.
    change (k' :: (q' ++ [nm])) with ((k' :: q') ++ [nm]).
    now rewrite (IH sub cur Hq).
Qed.

(** A graft changes nothing on a path that leaves its own. *)
Lemma lookup_graft_other n a b : forall c x y es,
  a <> b ->
  FS.lookup (c ++ a :: x) (FS.graft (c ++ b :: y) n es)
  = FS.lookup (c ++ a :: x) es.
Proof.
  induction c as [|k c IH]; intros x y es Hab.
  - cbn [app]. rewrite !lookup_cons.
    destruct y as [|k' y].
    + cbn [FS.graft]. now rewrite FSFacts.assoc_set_other.
    + rewrite graft_below.
      destruct (assoc b es) as [[|sub]|]; try reflexivity.
      now rewrite FSFacts.assoc_set_other.
  - change ((k :: c) ++ a :: x) with (k :: (c ++ a :: x)).
    change ((k :: c) ++ b :: y) with (k :: (c ++ b :: y)).
    destruct (c ++ b :: y) as [|k' q'] eqn:Eq; [now destruct c|].
    rewrite graft_below, !lookup_cons.
    destruct (assoc k es) as [[|sub]|] eqn:E; rewrite ?E; try reflexivity.
    rewrite FSFacts.assoc_set_same, <- Eq.
    now apply (IH x y sub).
Qed.

Lemma lookup_grafted name n q es cur :
  FS.lookup q es = Some (Dir cur) ->
  FS.lookup (q ++ [name]) (FS.graft (q ++ [name]) n es) = Some n.
Proof.
  intros Hq. rewrite (FSFacts.lookup_child q _ _ name (lookup_graft name n q es cur Hq)).
  apply FSFacts.assoc_set_same.
Qed.

Lemma distinct_app_absent (nm : string) : forall (done : tree) (c : node) (rest : tree),
  distinct (map fst (done ++ (nm, c) :: rest)) = true ->
  assoc nm done = None /\ assoc nm (done ++ (nm, c) :: rest) = Some c.
Proof.
  induction done as [|[k x] done IH]; intros c rest Hd.
  - cbn. now rewrite String.eqb_refl.
  - cbn [map app fst distinct] in Hd. apply andb_prop in Hd. destruct Hd as [Hk Hd].
    destruct (IH c rest Hd) as [H1 H2].
    assert (Hne : String.eqb nm k = false).
    { destruct (String.eqb nm k) eqn:E; [|reflexivity].
      apply String.eqb_eq in E. subst k. exfalso.
      apply negb_true_iff in Hk.
      assert (Hin : existsb (String.eqb nm) (map fst (done ++ (nm, c) :: rest)) = true).
      { apply existsb_exists. exists nm. split; [|apply String.eqb_refl].
        rewrite map_app. apply in_or_app. right. now left. }
      congruence. }
    cbn [app assoc]. now rewrite Hne.
Qed.

Lemma copyTree_grafts (n : node) :
  forall (c : path) (a b : string) (x y parent : path) (name : string)
         (r cur es : tree),
    n = Dir es -> wellFormed n = true -> a <> b ->
    parent ++ [name] = c ++ b :: y ->
    FS.lookup (c ++ a :: x) r = Some n ->
    FS.lookup parent r = Some (Dir cur) -> assoc name cur = None ->
    copyTree n (c ++ a :: x) (parent ++ [name]) r
    = (Ok tt, FS.graft (parent ++ [name]) n r, []).
Proof.
  induction n as [data|es0 IH] using node_induction;
    intros c a b x y parent name r cur es Hn Hwf Hab Hdest Hsrc Hparent Hname;
    [discriminate|].
  inversion Hn; subst es0. clear Hn.
  cbn [copyTree]. rewrite bind_run, ensureDir_run.
  rewrite (FSFacts.lookup_child parent r cur name Hparent), Hname.
  unfold mkdirSync. rewrite (mkdirp_graft _ name parent r cur Hparent Hname).
  cbn [wellFormed] in Hwf. apply andb_prop in Hwf. destruct Hwf as [Hdistinct Hall].
  set (src := c ++ a :: x) in *. set (dest := parent ++ [name]) in *.
  enough (Hloop :
    forall rest done,
      es = done ++ rest ->
      (fix each (entries : list (string * node)) : F unit :=
         match entries with
         | [] => ret tt
         | (name, c) :: rest =>
             match c with
             | Dir _ => copyTree c (path_join src [name]) (path_join dest [name])
             | File _ => copyFileSync (path_join src [name]) (path_join dest [name])
             end ;; each rest
         end) rest (FS.graft dest (Dir done) r)
      = (Ok tt, FS.graft dest (Dir (done ++ rest)) r, [])).
  { cbv zeta. rewrite (Hloop es [] eq_refl). reflexivity. }
  induction rest as [|[nm ch] rest IHrest]; intros done Hes.
  - now rewrite app_nil_r.
  - rewrite bind_run.
    assert (Hnm : assoc nm done = None /\ assoc nm es = Some ch).
    { rewrite Hes. apply distinct_app_absent. now rewrite <- Hes. }
    destruct Hnm as [Hdone Hch].
    assert (Hstate : FS.lookup dest (FS.graft dest (Dir done) r) = Some (Dir done))
      by (apply (lookup_grafted name (Dir done) parent r cur Hparent)).
    assert (Hread : FS.lookup (path_join src [nm]) (FS.graft dest (Dir done) r)
                    = Some ch).
    { assert (Esrc : path_join src [nm] = c ++ a :: (x ++ [nm]))
        by (unfold path_join, src; now rewrite <- app_assoc).
      rewrite Esrc, Hdest, lookup_graft_other by assumption.
      rewrite <- Esrc. unfold path_join.
      now rewrite (FSFacts.lookup_child src r es nm Hsrc). }
    assert (Hnext : FS.graft (path_join dest [nm]) ch (FS.graft dest (Dir done) r)
                    = FS.graft dest (Dir (done ++ [(nm, ch)])) r).
    { unfold path_join, dest.
      rewrite (graft_child name nm ch done parent r cur Hparent).
      now rewrite (FSFacts.set_absent nm ch done Hdone). }
    assert (Hstep :
      match ch with
      | Dir _ => copyTree ch (path_join src [nm]) (path_join dest [nm])
      | File _ => copyFileSync (path_join src [nm]) (path_join dest [nm])
      end (FS.graft dest (Dir done) r)
      = (Ok tt, FS.graft dest (Dir (done ++ [(nm, ch)])) r, [])).
    { destruct ch as [data|sub].
      - unfold copyFileSync. rewrite Hread. unfold path_join.
        rewrite (write_graft _ data nm dest _ done Hstate)
          by (now rewrite Hdone).
        unfold path_join in Hnext. now rewrite Hnext.
      - rewrite <- Hnext.
        assert (Hin : In (nm, Dir sub) es)
          by (rewrite Hes; apply in_or_app; right; now left).
        rewrite Forall_forall in IH.
        assert (Esrc : path_join src [nm] = c ++ a :: (x ++ [nm]))
          by (unfold path_join, src; now rewrite <- app_assoc).
        rewrite Esrc in Hread |- *. unfold path_join.
        apply (IH _ Hin c a b (x ++ [nm]) (y ++ [nm]) dest nm _ done sub);
          auto.
        + rewrite forallb_forall in Hall. apply (Hall _ Hin).
        + rewrite Hdest, <- app_assoc. reflexivity.
}
    rewrite Hstep.
    rewrite (IHrest (done ++ [(nm, ch)])) by (now rewrite <- app_assoc).
    now rewrite <- app_assoc.
Qed.

(** X3: [copyDirSync(src, dest)] does nothing when there is nothing at
    [src]: [dest] is not made.  When [src] is a directory, [dest] parts
    from it, is not there yet and the directory that is to hold it is,
    the copy returns without a line on the console and [dest] is the same
    tree as [src], every file below it with its text; the directory that
    holds [dest] has the one new entry, after the others, and whatever
    parts from [dest] is as it was. *)
Theorem copyDirSync_copies (src parent : path) (name : string) (r : tree) :
  (FS.lookup src r = None ->
   copyDirSync src (parent ++ [name]) r = (Ok tt, r, [])) /\
  (forall es cur : tree,
      apart src (parent ++ [name]) ->
      FS.lookup src r = Some (Dir es) ->
      wellFormed (Dir es) = true ->
      FS.lookup parent r = Some (Dir cur) ->
      assoc name cur = None ->
      let result := copyDirSync src (parent ++ [name]) r in
      outcome_of result = Ok tt /\
      console_of result = [] /\
      FS.lookup (parent ++ [name]) (tree_of result) = Some (Dir es) /\
      FS.lookup parent (tree_of result) = Some (Dir (cur ++ [(name, Dir es)])) /\
      (forall p, apart p (parent ++ [name]) ->
                 FS.lookup p (tree_of result) = FS.lookup p r)).
Proof.
  split.
  - intros Hsrc. unfold copyDirSync. now rewrite Hsrc.
  - intros es cur (c & a & x & b & y & Es & Ed & Hab) Hsrc Hwf Hparent Hname result.
    assert (Hrun : result
                   = (Ok tt, FS.graft (parent ++ [name]) (Dir es) r, [])).
    { unfold result, copyDirSync. rewrite Hsrc. subst src.
      now apply (copyTree_grafts (Dir es) c a b x y parent name r cur es). }
    rewrite Hrun. cbn [outcome_of tree_of console_of fst snd].
    split; [reflexivity|]. split; [reflexivity|]. split; [|split].
    + now apply (lookup_grafted name (Dir es) parent r cur).
    + rewrite (lookup_graft name (Dir es) parent r cur Hparent).
      now rewrite (FSFacts.set_absent name (Dir es) cur Hname).
    + intros p (c' & a' & x' & b' & y' & Ep & Ed' & Hab').
      subst p. rewrite Ed'. now apply lookup_graft_other.
Qed.

End Copies.

Lemma copyDirSync_copies_witness :
  FS.lookup ["dist"; "assets"; "img"; "logo.svg"]
    (tree_of (copyDirSync ["assets"] ["dist"; "assets"] Samples.withAssets))
  = Some (File "<svg/>").
Proof.
  assert (Hapart : apart ["assets"] (["dist"] ++ ["assets"])).
  { exists [], "assets", [], "dist", ["assets"].
    split; [reflexivity|]. split; [reflexivity | discriminate]. }
  destruct (proj2 (copyDirSync_copies ["assets"] ["dist"] "assets" Samples.withAssets)
              [("style.css", File "body { margin: 0 }");
               ("img", Dir [("logo.svg", File "<svg/>")])]
              [("old.html", File "old")]
              Hapart eq_refl eq_refl eq_refl eq_refl)
    as (_ & _ & H & _).
  cbn [app] in H.
  change ["dist"; "assets"; "img"; "logo.svg"]
    with (["dist"; "assets"] ++ ["img"; "logo.svg"]).
  unfold FS.lookup in *. rewrite FSFacts.lookupIn_app, H. reflexivity.
Defined.
(** ** A build of every page *)

Section Complete.
Context {host : Host}.

(** [injectData] does not look at [dist]. *)
Lemma injectData_dist (html : string) (r D : tree) :
  injectData html (inDistOf r D)
  = (outcome_of (injectData html r), inDistOf r D, console_of (injectData html r)).
Proof.
  assert (Hposts : forall t,
             FS.lookup ["content"; "posts"] t = FS.lookup ["content"; "posts"] r ->
             readPosts t = (outcome_of (readPosts r), t, console_of (readPosts r))).
  { intros t Ht. rewrite !readPosts_run, Ht.
    destruct (FS.lookup ["content"; "posts"] r) as [[d|es]|]; reflexivity. }
  assert (Hparsed : forall name,
             parsedAt ["content"; name] (inDistOf r D) = parsedAt ["content"; name] r).
  { intros name. unfold parsedAt. now rewrite lookup_inDistOf by discriminate. }
  assert (Hr := Hposts r eq_refl).
  assert (Ht := Hposts (inDistOf r D)
                  (lookup_inDistOf r "content" ["posts"] D ltac:(discriminate))).
  destruct (outcome_of (readPosts r)) as [posts|e'|c] eqn:Eo.
  - rewrite (injectData_run html r posts _ Hr),
            (injectData_run html _ posts _ Ht), !Hparsed.
    reflexivity.
  - unfold injectData. rewrite !bind_run, Hr, Ht. reflexivity.
  - unfold injectData. rewrite !bind_run, Hr, Ht. reflexivity.
Qed.

Lemma run_eq {A} (x : outcome A * tree * list event) o t c :
  outcome_of x = o -> tree_of x = t -> console_of x = c -> x = (o, t, c).
Proof. destruct x as [[o' t'] c']. cbn. now intros -> -> ->. Qed.

(** The copy of a directory into [dist]. *)
Lemma copyDirSync_to_dist (r D es : tree) (name : string) :
  name <> "dist" ->
  FS.lookup [name] r = Some (Dir es) ->
  wellFormed (Dir es) = true ->
  assoc name D = None ->
  copyDirSync (path_join ROOT [name]) (path_join DIST_DIR [name]) (inDistOf r D)
  = (Ok tt, inDistOf r (D ++ [(name, Dir es)]), []).
Proof.
  intros Hname Hsrc Hwf HD.
  assert (Hdist : FS.lookup ["dist"] (inDistOf r D) = Some (Dir D)).
  { unfold inDistOf. rewrite lookup_cons.
    now rewrite (assoc_dist_last _ (FSFacts.assoc_unlink_same "dist" r)). }
  assert (Hsrc' : FS.lookup [name] (inDistOf r D) = Some (Dir es))
    by now rewrite lookup_inDistOf.
  assert (Hcopy := copyTree_grafts (Dir es) [] name "dist" [] [name] ["dist"] name
                     (inDistOf r D) D es eq_refl Hwf Hname eq_refl
                     Hsrc' Hdist HD).
  cbn [app] in Hcopy.
  unfold copyDirSync.
  change (path_join ROOT [name]) with [name].
  change (path_join DIST_DIR [name]) with ["dist"; name].
  rewrite Hsrc', Hcopy, graft_below.
  unfold inDistOf at 1.
  rewrite (assoc_dist_last _ (FSFacts.assoc_unlink_same "dist" r)).
  cbn [FS.graft]. rewrite (FSFacts.set_absent _ _ _ HD).
  unfold inDistOf.
  now rewrite (FSFacts.set_last _ _ _ _ (FSFacts.assoc_unlink_same "dist" r)).
Qed.

End Complete.
(** ** What a build leaves in dist *)

Section Guarded.
Context {host : Host}.
Variable I : tree -> Prop.
Variable writable : path -> Prop.
Hypothesis I_write :
  forall p data r r',
    writable p -> I r -> FS.write p p data r = Ok r' -> I r'.
Hypothesis I_mkdirp :
  forall p r r', writable p -> I r -> FS.mkdirp p p r = Ok r' -> I r'.
Hypothesis writable_child :
  forall p name, writable p -> writable (path_join p [name]).

Lemma existsSync_bind {A} (p : path) (k : bool -> F A) (t : tree) :
  (e <- existsSync p ;; k e) t
  = k (match FS.lookup p t with Some _ => true | None => false end) t.
Proof.
  rewrite bind_run. unfold existsSync.
  set (b := match FS.lookup p t with Some _ => true | None => false end).
  destruct (k b t) as [[o t'] out]. reflexivity.
Qed.

(** A statement under [if (fs.existsSync(p))] where there is nothing
    at [p], or that keeps the invariant. *)
Lemma safe_guarded {A} (p : path) (body els : F A) :
  (forall t, I t -> FS.lookup p t = None) \/ safe I body ->
  safe I els ->
  safe I (e <- existsSync p ;; if e then body else els).
Proof.
  intros Hbody Hels t Ht. rewrite existsSync_bind.
  destruct (FS.lookup p t) as [n|] eqn:E; [|now apply Hels].
  destruct Hbody as [Habsent|Hsafe]; [|now apply Hsafe].
  rewrite (Habsent t Ht) in E. discriminate.
Qed.

Lemma safe_guarded_then {A} (p : path) (body els : F unit) (rest : F A) :
  (forall t, I t -> FS.lookup p t = None) \/ safe I body ->
  safe I els -> safe I rest ->
  safe I (e <- existsSync p ;; (if e then body else els) ;; rest).
Proof.
  intros Hbody Hels Hrest t Ht. rewrite existsSync_bind.
  destruct (FS.lookup p t) as [n|] eqn:E.
  - destruct Hbody as [Habsent|Hsafe].
    + rewrite (Habsent t Ht) in E. discriminate.
    + now apply safe_bind.
  - now apply safe_bind.
Qed.

(** The statements after the entry page write the outputs whose sources
    are there. *)
Lemma build_pages_guarded (s f : Z) (originHTML : option string) :
  (forall name src,
      In (name, src) (tl outputs) ->
      (forall t, I t -> FS.lookup src t = None) \/ writable ["dist"; name]) ->
  safe I (build_pages s f originHTML).
Proof.
  intros Hout.
  assert (Hpage : forall page,
             In (page, ["templates"; page]) (tl outputs) ->
             safe I (origin_page originHTML page)).
  { intros page Hin. unfold origin_page. cbv zeta.
    apply safe_guarded; [|apply safe_console_warn].
    destruct (Hout _ _ Hin) as [Habsent|Hw]; [now left|right].
    safe_steps I_write I_mkdirp writable_child; assumption. }
  unfold build_pages. apply safe_bind.
  - cbn [for_of]. apply safe_bind; [apply Hpage; cbn; auto|]. intros ?.
    apply safe_bind; [apply Hpage; cbn; auto|]. intros ?. apply safe_ret.
  - intros _. unfold build_tail. cbv zeta.
    apply safe_guarded_then; [ |apply safe_console_warn| ].
    { destruct (Hout "blog.html" ["templates"; "blog.html"]) as [Habsent|Hw];
        [cbn; auto 6 | now left | right].
      safe_steps I_write I_mkdirp writable_child; assumption. }
    apply safe_guarded_then; [ |apply safe_ret| ].
    { destruct (Hout "assets" ["assets"]) as [Habsent|Hw];
        [cbn; auto 6 | now left | right].
      safe_steps I_write I_mkdirp writable_child; assumption. }
    apply safe_guarded_then; [ |apply safe_ret|apply safe_console_log].
    destruct (Hout "CNAME" ["CNAME"]) as [Habsent|Hw];
      [cbn; auto 6 | now left | right].
    safe_steps I_write I_mkdirp writable_child; assumption.
Qed.

End Guarded.

Section DistContents.
Context {host : Host}.

Lemma outputs_decide (name : string) (r : tree) (l : list (string * path)) :
  (exists src, In (name, src) l /\ FS.lookup src r <> None) \/
  (forall src, In (name, src) l -> FS.lookup src r = None).
Proof.
  induction l as [|[nm src] l IH]; [right; intros ? []|].
  destruct IH as [(src' & Hin & Hp)|Hnone].
  { left. exists src'. split; [now right | assumption]. }
  destruct (string_dec name nm) as [->|Hne].
  - destruct (FS.lookup src r) as [n|] eqn:E.
    + left. exists src. split; [now left | congruence].
    + right. intros src' [H|H]; [now inversion H; subst | now apply Hnone].
  - right. intros src' [H|H]; [inversion H; congruence | now apply Hnone].
Qed.

Lemma distHolds_lookup (Q : tree -> Prop) (k : string) (q : path) (t r : tree) :
  k <> "dist" -> distHolds (FS.unlink "dist" r) Q t ->
  FS.lookup (k :: q) t = FS.lookup (k :: q) r.
Proof. intros Hk (D & -> & _). now apply lookup_beside_dist. Qed.

(** X5: whatever the project and however the build ends, what is not in
    [dist] is as it was: the entries of [ROOT] in their order, with a
    directory [dist] after them. *)
Theorem build_keeps_sources (s f : Z) (r : tree) :
  (forall k q, k <> "dist" ->
               FS.lookup (k :: q) (tree_of (build s f r)) = FS.lookup (k :: q) r) /\
  (exists D, tree_of (build s f r) = FS.unlink "dist" r ++ [("dist", Dir D)]).
Proof.
  destruct (build_shape s f r) as [D HD]. split; [|now exists D].
  intros k q Hk. rewrite HD. now apply lookup_inDistOf.
Qed.

(** X6: whatever the project and however the build ends, an entry of
    [dist] is one of the six outputs of the build and there is something
    at the path it is made from: nothing of an old [dist] is left, and
    no page stays whose template is gone. *)
Theorem build_outputs_only (s f : Z) (r : tree) (name : string) (n : node) :
  FS.lookup ["dist"; name] (tree_of (build s f r)) = Some n ->
  exists src, In (name, src) outputs /\ FS.lookup src r <> None.
Proof.
  intros Hthere.
  destruct (outputs_decide name r outputs) as [H|Hnone]; [exact H|]. exfalso.
  enough (Habsent : FS.lookup ["dist"; name] (tree_of (build s f r)) = None)
    by congruence.
  clear Hthere.
  destruct (build_start s f r) as (o & Ho & Hc & Hthrow).
  destruct o as [originHTML|e|c]; [| |now destruct (Hc c)].
  - rewrite build_unfold.
    run_step (started_line r). run_step (cleanDir_run r). run_step Ho.
    run_step (origin_line originHTML (cleaned r)).
    run_step (entry_exists r).
    destruct (FS.lookup ["templates"; "entry.html"] r) as [x|] eqn:Eentry;
      [|apply lookup_dist_cleaned].
    assert (Hindex : "index.html" <> name).
    { intros <-. specialize (Hnone _ (or_introl eq_refl)). congruence. }
    set (Q := fun D : tree => assoc name D = None).
    set (allowed := fun nm : string => nm <> name).
    assert (Hpre := FSFacts.assoc_unlink_same "dist" r).
    assert (Hset : forall (D : tree) (nm : string) (x : node),
               allowed nm -> Q D -> Q (FS.set nm x D)).
    { unfold Q, allowed. intros D nm y Hnm HD.
      rewrite FSFacts.assoc_set_other; auto. }
    assert (Hperm : forall nm src,
               In (nm, src) (tl outputs) ->
               (forall t, distHolds (FS.unlink "dist" r) Q t -> FS.lookup src t = None)
               \/ inDist allowed ["dist"; nm]).
    { intros nm src Hin. destruct (string_dec nm name) as [->|Hne].
      - left. intros t Ht.
        assert (Hsrc := Hnone src (or_intror Hin)).
        cbn in Hin.
        destruct Hin as [H|[H|[H|[H|[H|[]]]]]]; inversion H; subst src;
          (erewrite distHolds_lookup; [exact Hsrc | discriminate | exact Ht]).
      - right. exists nm, []. split; [reflexivity | exact Hne]. }
    destruct (safe_bind (distHolds (FS.unlink "dist" r) Q) _ _
                (safe_bind _ _ _
                   (safe_copyFileSync _ (inDist allowed)
                      (distHolds_write _ Hpre _ _ Hset)
                      (path_join ROOT ["templates"; "entry.html"])
                      (path_join DIST_DIR ["index.html"])
                      (ex_intro _ "index.html"
                         (ex_intro _ [] (conj eq_refl Hindex))))
                   (fun _ => safe_console_log _ "  ✓ index.html (entry)"))
                (fun _ =>
                   build_pages_guarded _ (inDist allowed)
                     (distHolds_write _ Hpre _ _ Hset)
                     (distHolds_mkdirp _ Hpre _ _ Hset)
                     (inDist_child _) s f originHTML Hperm)
                (cleaned r))
      as [(D & HD & HQ) _].
    { exists []. split; reflexivity. }
    rewrite HD. change (FS.unlink "dist" r ++ [("dist", Dir D)]) with (inDistOf r D).
    now rewrite lookup_dist_inDistOf.
  - rewrite (Hthrow e eq_refl). apply lookup_dist_cleaned.
Qed.

(** X7: when the origin document is read without an exception and the
    entry template is a file, [dist/index.html] is that file, with its
    text, however the rest of the build ends. *)
Theorem build_copies_entry (s f : Z) (r : tree) (originHTML : option string)
        (entry : string) :
  outcome_of (buildOriginHTML r) = Ok originHTML ->
  FS.lookup ["templates"; "entry.html"] r = Some (File entry) ->
  FS.lookup ["dist"; "index.html"] (tree_of (build s f r)) = Some (File entry).
Proof.
  intros Horigin Hentry.
  assert (Ho : buildOriginHTML (cleaned r) = (Ok originHTML, cleaned r, [])).
  { destruct (buildOriginHTML_reads (cleaned r)) as (o & Ho & _).
    rewrite <- buildOriginHTML_cleaned, Ho in Horigin. cbn in Horigin.
    now subst o. }
  set (D1 := [("index.html", File entry)]).
  assert (Hcopy :
            (copyFileSync (path_join ROOT ["templates"; "entry.html"])
               (path_join DIST_DIR ["index.html"]) ;;
             console_log "  ✓ index.html (entry)") (cleaned r)
            = (Ok tt, inDistOf r D1, [Log "  ✓ index.html (entry)"])).
  { rewrite bind_run, cleaned_inDistOf.
    rewrite (copyFileSync_to_dist r _ "index.html" entry []);
      [reflexivity | | exact Logic.I].
    change (path_join ROOT ["templates"; "entry.html"])
      with ["templates"; "entry.html"].
    now rewrite lookup_inDistOf by discriminate. }
  rewrite build_unfold.
  run_step (started_line r). run_step (cleanDir_run r). run_step Ho.
  run_step (origin_line originHTML (cleaned r)). run_step (entry_exists r).
  rewrite Hentry. cbv iota. run_step Hcopy.
  set (Q := fun D : tree => assoc "index.html" D = Some (File entry)).
  set (allowed := fun nm : string => nm <> "index.html").
  assert (Hpre := FSFacts.assoc_unlink_same "dist" r).
  assert (Hset : forall (D : tree) (nm : string) (x : node),
             allowed nm -> Q D -> Q (FS.set nm x D)).
  { unfold Q, allowed. intros D nm y Hnm HD.
    rewrite FSFacts.assoc_set_other; auto. }
  destruct (build_pages_guarded (distHolds (FS.unlink "dist" r) Q) (inDist allowed)
              (distHolds_write _ Hpre _ _ Hset)
              (distHolds_mkdirp _ Hpre _ _ Hset)
              (inDist_child _) s f originHTML) with (r := inDistOf r D1)
    as [(D & HD & HQ) _].
  { intros nm src Hin. right. exists nm, []. split; [reflexivity|].
    cbn in Hin.
    destruct Hin as [H|[H|[H|[H|[H|[]]]]]]; inversion H; discriminate. }
  { exists D1. split; reflexivity. }
  rewrite HD. change (FS.unlink "dist" r ++ [("dist", Dir D)]) with (inDistOf r D).
  now rewrite lookup_dist_inDistOf.
Qed.

End DistContents.
(** ** The entries of the posts directory *)

Section PostFiles.
Context {host : Host}.

Lemma postFiles_unlink (f : string) (es : tree) :
  Str.endsWith f ".json" = false -> postFiles (FS.unlink f es) = postFiles es.
Proof.
  intros Hf. unfold postFiles, FS.unlink.
  induction es as [|[k x] es IH]; [reflexivity|].
  cbn [filter map fst]. destruct (String.eqb f k) eqn:E; cbn [negb].
  - apply String.eqb_eq in E. subst k. now rewrite Hf.
  - cbn [map fst filter]. now rewrite IH.
Qed.

Lemma flat_map_same {A B} (g h : A -> list B) (l : list A) :
  (forall a, In a l -> g a = h a) -> flat_map g l = flat_map h l.
Proof.
  induction l as [|a l IH]; intros H; [reflexivity|].
  cbn [flat_map]. rewrite (H a (or_introl eq_refl)), IH; [reflexivity|].
  intros b Hb. apply H. now right.
Qed.

(** A name that does not end in [.json] is not looked at. *)
Lemma loadPost_other (f : string) (es : tree) :
  Str.endsWith f ".json" = false ->
  forall g, In g (postFiles es) -> loadPost (FS.unlink f es) g = loadPost es g.
Proof.
  intros Hf g Hg. apply loadPost_unlink. intros ->.
  unfold postFiles in Hg. apply filter_In in Hg. destruct Hg as [_ Hg]. congruence.
Qed.

(** X8: [readPosts] when [content/posts] is not what it expects.  A
    regular file in the place of the directory passes the check of
    [existsSync] and ends [readPosts] in the exception of [readdirSync],
    which nothing catches.  An entry whose name does not end in [.json]
    is not read: the posts and the console are those of the directory
    without it.  A directory whose name ends in [.json] is skipped like a
    file that does not parse, with the warning that it is a directory. *)
Theorem readPosts_entries (r : tree) :
  (forall data,
      FS.lookup ["content"; "posts"] r = Some (File data) ->
      readPosts r = (Throw (FS.ENOTDIR "scandir" ["content"; "posts"]), r, [])) /\
  (forall (r' es : tree) (f : string),
      FS.lookup ["content"; "posts"] r = Some (Dir es) ->
      FS.lookup ["content"; "posts"] r' = Some (Dir (FS.unlink f es)) ->
      (Str.endsWith f ".json" = false ->
       outcome_of (readPosts r') = outcome_of (readPosts r) /\
       console_of (readPosts r') = console_of (readPosts r)) /\
      (forall sub,
          Str.endsWith f ".json" = true -> assoc f es = Some (Dir sub) ->
          outcome_of (readPosts r') = outcome_of (readPosts r) /\
          In (Warn ("  ⚠  " +:+ f
                    +:+ ": EISDIR: illegal operation on a directory, read"))
             (console_of (readPosts r)))).
Proof.
  split.
  - intros data Hfile. now rewrite readPosts_run, Hfile.
  - intros r' es f Hdir Hdir'. rewrite !readPosts_run, Hdir, Hdir'.
    cbn [outcome_of console_of fst snd]. split.
    + intros Hf.
      assert (Hposts : parsedPosts (FS.unlink f es) = parsedPosts es).
      { unfold parsedPosts. rewrite (postFiles_unlink f es Hf).
        apply flat_map_same. intros g Hg.
        now rewrite (loadPost_other f es Hf g Hg). }
      assert (Hwarn : postWarnings (FS.unlink f es) = postWarnings es).
      { unfold postWarnings. rewrite (postFiles_unlink f es Hf).
        apply flat_map_same. intros g Hg.
        now rewrite (loadPost_other f es Hf g Hg). }
      now rewrite Hposts, Hwarn.
    + intros sub Hf Hsub.
      assert (Hload : loadPost es f = inr (message (FS.EISDIR "read")))
        by (unfold loadPost; now rewrite Hsub).
      split.
      * now rewrite (parsedPosts_unlink f _ es Hload).
      * apply (warning_of_malformed f _ es); auto.
        eapply assoc_In; eassumption.
Qed.

End PostFiles.

(** ** Posts that are listed in their order *)

Section SortedInput.
Context {A : Type} (comparefn : A -> A -> outcome Z).

(** [x] stays behind the elements that the comparison does not put it
    before. *)
Lemma insert_last (x : A) : forall s,
  Forall (fun y => exists c, comparefn x y = Ok c /\ (c >= 0)%Z) s ->
  insert comparefn x s = Ok (s ++ [x]).
Proof.
  induction s as [|y s IH]; intros H; [reflexivity|].
  inversion H as [|? ? (c & Ec & Hc) Hs]; subst.
  cbn [insert bind Monad_outcome outcome_bind]. rewrite Ec.
  cbn [outcome_bind].
  destruct (Z.ltb_spec c 0); [lia|].
  now rewrite (IH Hs).
Qed.

Lemma sortFrom_in_order : forall rest sorted,
  Forall (fun x =>
            Forall (fun y => exists c, comparefn x y = Ok c /\ (c >= 0)%Z) sorted)
         rest ->
  StronglySorted (fun y x => exists c, comparefn x y = Ok c /\ (c >= 0)%Z) rest ->
  sortFrom comparefn sorted rest = Ok (sorted ++ rest).
Proof.
  induction rest as [|x rest IH]; intros sorted Hs Hr.
  - now rewrite app_nil_r.
  - inversion Hs as [|? ? Hx Hrest]; subst.
    inversion Hr as [|? ? Hr' Hxr]; subst.
    cbn [sortFrom bind Monad_outcome outcome_bind].
    rewrite (insert_last x sorted Hx). cbn [outcome_bind].
    rewrite IH; [now rewrite <- app_assoc | | exact Hr'].
    rewrite Forall_forall in Hrest, Hxr |- *.
    intros z Hz. apply Forall_app. split; [now apply Hrest|].
    constructor; [now apply Hxr | constructor].
Qed.

End SortedInput.

Section ListedOrder.
Context {host : Host}.

(** X9: posts that are listed in descending order of their dates come
    back as they are listed: the sort moves a post only before one that
    compares smaller, so posts of one date, and posts without any, keep
    the order of the directory. *)
Theorem readPosts_keeps_listed_order (r es : tree) :
  FS.lookup ["content"; "posts"] r = Some (Dir es) ->
  Forall (fun post => dateKey post <> None) (parsedPosts es) ->
  StronglySorted
    (fun a b => (localeCompare (keyOf a) (keyOf b) >= 0)%Z) (parsedPosts es) ->
  readPosts r = (Ok (parsedPosts es), r, postWarnings es).
Proof.
  intros Hdir Hdated Hsorted.
  rewrite readPosts_run, Hdir. unfold Array_sort.
  rewrite (sortFrom_in_order byDateDescending (parsedPosts es) []);
    [reflexivity | apply Forall_forall; intros; constructor |].
  induction Hsorted as [|a l Hl IH Ha]; [constructor|].
  inversion Hdated as [|? ? Hda Hdl]; subst.
  constructor; [now apply IH|].
  rewrite Forall_forall in Ha, Hdl |- *. intros b Hb.
  specialize (Ha b Hb). specialize (Hdl b Hb). unfold keyOf in Ha.
  destruct (dateKey a) as [ka|] eqn:Ea; [|contradiction].
  destruct (dateKey b) as [kb|] eqn:Eb; [|contradiction].
  exists (localeCompare ka kb). split; [|exact Ha].
  now apply byDateDescending_dated.
Qed.

End ListedOrder.
(** ** Templates and origin documents *)

Section Templates.
Context {host : Host}.

Lemma replace_absent (s pat replacement : string) :
  Str.occursIn pat s = false -> Str.replace s pat replacement = s.
Proof.
  unfold Str.occursIn, Str.replace.
  now destruct (Str.splitFirst pat s) as [[pre post]|].
Qed.

(** X10: a template without the placeholder of the origin fragment
    comes out of [injectOrigin] as it is, whatever the fragment; a
    template without any of the four tokens comes out of [injectData] as
    it is, whatever the posts and the documents, after the line that
    counts the posts. *)
Theorem templates_without_placeholders (html : string) :
  (Str.occursIn "<!-- __ORIGIN_HTML__ -->" html = false ->
   forall originHTML, injectOrigin html originHTML = html) /\
  (forall (r : tree) (posts : list json) (out : list event) (email : string),
      readPosts r = (Ok posts, r, out) ->
      textField "contact_email"
        (valueOr (parsedAt ["content"; "site.json"] r) (JObject [])) = Some email ->
      Str.occursIn "/*__POSTS_JSON__*/" html = false ->
      Str.occursIn "/*__UNLINKED_JSON__*/" html = false ->
      Str.occursIn "/*__ABOUT_JSON__*/" html = false ->
      Str.occursIn "/*__CONTACT_EMAIL__*/" html = false ->
      injectData html r
      = (Ok html, r,
         out ++ [Log ("  Found " +:+ Str.ofNat (List.length posts) +:+ " post(s)")])).
Proof.
  split.
  - intros Habsent [o|]; [|reflexivity]. unfold injectOrigin.
    destruct (negb (truthy (Some o))); [reflexivity|].
    now apply replace_absent.
  - intros r posts out email Hposts Hemail H1 H2 H3 H4.
    rewrite (injectData_run html r posts out Hposts). cbv zeta.
    destruct (orElse_textField _ _ _ Hemail) as (d & Gd & Od).
    rewrite Gd. cbn [bind Monad_outcome outcome_bind].
    unfold String_replace. rewrite Od.
    cbn [ToString bind Monad_outcome outcome_bind ret].
    now rewrite (replace_absent html _ _ H1), (replace_absent html _ _ H2),
      (replace_absent html _ _ H3), (replace_absent html _ _ H4).
Qed.

(** X11: what [buildOriginHTML] returns.  It is [null] when
    [content/origin.json] is missing, does not parse or holds a falsy
    value.  For an object whose [body] is an object it is the two columns
    with the texts of [body.en] and [body.es], the text [undefined] for
    one that is missing; this fragment is never empty, so that the build
    reports the origin document as loaded. *)
Theorem buildOriginHTML_renders (r : tree) :
  (parsedAt ["content"; "origin.json"] r = None \/
   (exists origin, parsedAt ["content"; "origin.json"] r = Some origin /\
                   ToBoolean (Some origin) = false) ->
   buildOriginHTML r = (Ok None, r, [])) /\
  (forall (props body : list (string * json)) (en es : string),
      parsedAt ["content"; "origin.json"] r = Some (JObject props) ->
      assoc "body" props = Some (JObject body) ->
      ToStringU (assoc "en" body) = Ok en ->
      ToStringU (assoc "es" body) = Ok es ->
      buildOriginHTML r = (Ok (Some (originColumns en es)), r, []) /\
      truthy (Some (originColumns en es)) = true).
Proof.
  split.
  - intros [Hnone|(origin & Hsome & Hfalsy)].
    + now apply buildOriginHTML_absent.
    + unfold buildOriginHTML. rewrite bind_run, readJSON_run.
      change (path_join ROOT ["content"; "origin.json"])
        with ["content"; "origin.json"].
      rewrite Hsome. cbn [valueOr]. rewrite Hfalsy. reflexivity.
  - intros props body en es Hparsed Hbody Hen Hes. split; [|reflexivity].
    unfold buildOriginHTML. rewrite bind_run, readJSON_run.
    change (path_join ROOT ["content"; "origin.json"])
      with ["content"; "origin.json"].
    rewrite Hparsed. cbn [valueOr ToBoolean negb].
    unfold pure. cbn [Get bind Monad_outcome outcome_bind].
    rewrite Hbody. cbn [Get outcome_bind]. rewrite Hen. cbn [outcome_bind].
    rewrite Hes. reflexivity.
Qed.

End Templates.
(** ** More of copyDirSync, build and readPosts *)

Section MoreEdges.
Context {host : Host}.

(** X12: [copyDirSync(src, dest)] for a regular file at [src]:
    [existsSync] does not tell it from a directory, so [dest] is made,
    empty, and the copy ends in the exception of [readdirSync]. *)
Theorem copyDirSync_of_file (src parent : path) (name : string) (r cur : tree)
        (data : string) :
  apart src (parent ++ [name]) ->
  FS.lookup src r = Some (File data) ->
  FS.lookup parent r = Some (Dir cur) ->
  assoc name cur = None ->
  let result := copyDirSync src (parent ++ [name]) r in
  outcome_of result = Throw (FS.ENOTDIR "scandir" src) /\
  console_of result = [] /\
  FS.lookup (parent ++ [name]) (tree_of result) = Some (Dir []) /\
  FS.lookup src (tree_of result) = Some (File data).
Proof.
  intros (c & a & x & b & y & Es & Ed & Hab) Hsrc Hparent Hname result.
  assert (Hkeep : FS.lookup src (FS.graft (parent ++ [name]) (Dir []) r)
                  = Some (File data)).
  { rewrite Es, Ed, lookup_graft_other by assumption. now rewrite <- Es. }
  assert (Hrun : result
                 = (Throw (FS.ENOTDIR "scandir" src),
                    FS.graft (parent ++ [name]) (Dir []) r, [])).
  { unfold result, copyDirSync. rewrite Hsrc. cbn [copyTree].
    rewrite bind_run, ensureDir_run.
    rewrite (FSFacts.lookup_child parent r cur name Hparent), Hname.
    unfold mkdirSync. rewrite (mkdirp_graft _ name parent r cur Hparent Hname).
    rewrite bind_run. unfold readdirSync_withFileTypes at 1.
    now rewrite Hkeep. }
  rewrite Hrun. cbn [outcome_of tree_of console_of fst snd].
  split; [reflexivity|]. split; [reflexivity|]. split; [|exact Hkeep].
  now apply (lookup_grafted name (Dir []) parent r cur).
Qed.

(** X13: a build does not depend on what [dist] held: two projects that
    differ only in [dist] are built alike, with the same outcome, the same
    tree and the same console. *)
Theorem build_ignores_old_dist (s f : Z) (r r' : tree) :
  FS.unlink "dist" r = FS.unlink "dist" r' ->
  build s f r = build s f r'.
Proof.
  intros Hsame.
  assert (Hclean : cleaned r = cleaned r') by (unfold cleaned; now rewrite Hsame).
  rewrite !build_unfold.
  rewrite !(bind_run (console_log _)), !started_line.
  rewrite !(bind_run (cleanDir _)), !cleanDir_run, Hclean.
  reflexivity.
Qed.

End MoreEdges.
(** ** When a build returns *)

Section Produces.
Context {host : Host}.

(** Where every post has a date key the comparator returns, and so does
    the sort, whatever the comparison of the host. *)
Lemma Array_sort_dated (l : list json) :
  Forall (fun post => dateKey post <> None) l ->
  exists l', Array_sort byDateDescending l = Ok l' /\ Permutation l l'.
Proof.
  intros Hdated.
  assert (Hcmp : forall a b : json,
             dateKey a <> None -> dateKey b <> None ->
             match byDateDescending a b with
             | Ok _ => True
             | Throw _ => False
             | Exit _ => False
             end).
  { intros a b Ha Hb.
    destruct (dateKey a) as [ka|] eqn:Ea; [|contradiction].
    destruct (dateKey b) as [kb|] eqn:Eb; [|contradiction].
    now rewrite (byDateDescending_dated a b ka kb Ea Eb). }
  generalize (sortFrom_result byDateDescending
                (fun post => dateKey post <> None) (fun _ => False)
                Hcmp l [] (Forall_nil _) Hdated).
  unfold Array_sort.
  destruct (sortFrom byDateDescending [] l) as [l'|e|c]; [|contradiction..].
  intros Hperm. now exists l'.
Qed.

Lemma readPosts_dated (r : tree) :
  datedPosts r -> exists posts out, readPosts r = (Ok posts, r, out).
Proof.
  unfold datedPosts. rewrite readPosts_run.
  destruct (FS.lookup ["content"; "posts"] r) as [[data|es]|];
    [contradiction| |eauto].
  intros Hdated. destruct (Array_sort_dated _ Hdated) as (posts & -> & _). eauto.
Qed.

(** [injectData] returns on dated posts and a contact address that is a
    text. *)
Lemma injectData_returns (r : tree) (email : string) :
  datedPosts r ->
  textField "contact_email"
    (valueOr (parsedAt ["content"; "site.json"] r) (JObject [])) = Some email ->
  forall html, exists text, outcome_of (injectData html r) = Ok text.
Proof.
  intros Hdated Hemail html.
  destruct (readPosts_dated r Hdated) as (posts & out & Hposts).
  rewrite (injectData_run html r posts out Hposts). cbv zeta.
  destruct (orElse_textField _ _ _ Hemail) as (d & Gd & Od).
  cbn [outcome_of fst]. rewrite Gd. cbn [bind Monad_outcome outcome_bind].
  unfold String_replace. rewrite Od.
  cbn [ToString bind Monad_outcome outcome_bind ret]. eauto.
Qed.

(** An origin page, when its template is there or not. *)
Lemma origin_page_made (originHTML : option string) (page : string) (r D : tree) :
  notDir (FS.lookup ["templates"; page] r) ->
  notDir (assoc page D) ->
  exists D' out,
    origin_page originHTML page (inDistOf r D) = (Ok tt, inDistOf r D', out) /\
    (forall name, name <> page -> assoc name D' = assoc name D) /\
    (FS.lookup ["templates"; page] r <> None -> assoc page D' <> None).
Proof.
  intros Ht Hn.
  destruct (FS.lookup ["templates"; page] r) as [[t|es]|] eqn:E;
    [ | now destruct Ht | ].
  - eexists _, _. split; [now apply (origin_page_run r originHTML page t)|].
    split.
    + intros name Hname. now apply FSFacts.assoc_set_other.
    + intros _. now rewrite FSFacts.assoc_set_same.
  - eexists _, _. split; [now apply origin_page_skipped|].
    split; [reflexivity | intros H; now destruct H].
Qed.

(** The blog page, when its template is there or not. *)
Lemma blog_page_made (r D : tree) :
  notDir (FS.lookup ["templates"; "blog.html"] r) ->
  (forall blog, exists html, outcome_of (injectData blog r) = Ok html) ->
  notDir (assoc "blog.html" D) ->
  exists D' out,
    (if match FS.lookup ["templates"; "blog.html"] r with
        | Some _ => true
        | None => false
        end
     then
       html <- readFileSync ["templates"; "blog.html"] ;;
       html <- injectData html ;;
       writeFileSync (path_join DIST_DIR ["blog.html"]) html ;;
       console_log "  ✓ blog.html (SPA)"
     else console_warn "  ⚠  templates/blog.html not found") (inDistOf r D)
    = (Ok tt, inDistOf r D', out) /\
    (forall name, name <> "blog.html" -> assoc name D' = assoc name D) /\
    (FS.lookup ["templates"; "blog.html"] r <> None ->
     assoc "blog.html" D' <> None).
Proof.
  intros Hblog Hdata HD.
  destruct (FS.lookup ["templates"; "blog.html"] r) as [[blog|es]|] eqn:E;
    [ | now destruct Hblog | ].
  - destruct (Hdata blog) as [html Hhtml].
    eexists _, _. split; [|split].
    + rewrite bind_run. unfold readFileSync at 1.
      rewrite lookup_inDistOf, E by discriminate.
      rewrite bind_run, injectData_dist, Hhtml.
      rewrite bind_run. unfold writeFileSync at 1.
      change (path_join DIST_DIR ["blog.html"]) with ["dist"; "blog.html"].
      rewrite (write_dist_file r _ "blog.html" html D HD).
      unfold console_log. reflexivity.
    + intros name Hname. now apply FSFacts.assoc_set_other.
    + intros _. now rewrite FSFacts.assoc_set_same.
  - eexists _, _. split; [|split].
    + unfold console_warn. reflexivity.
    + reflexivity.
    + intros H. now destruct H.
Qed.

(** A build of a sound project returns, with every output whose source
    is there. *)
Lemma build_produces (s f : Z) (r : tree) (originHTML : option string)
      (entry email : string) :
  outcome_of (buildOriginHTML r) = Ok originHTML ->
  FS.lookup ["templates"; "entry.html"] r = Some (File entry) ->
  notDir (FS.lookup ["templates"; "ripple.html"] r) ->
  notDir (FS.lookup ["templates"; "clean.html"] r) ->
  notDir (FS.lookup ["templates"; "blog.html"] r) ->
  datedPosts r ->
  textField "contact_email"
    (valueOr (parsedAt ["content"; "site.json"] r) (JObject [])) = Some email ->
  directoryOrNothing (FS.lookup ["assets"] r) ->
  notDir (FS.lookup ["CNAME"] r) ->
  outcome_of (build s f r) = Ok tt /\
  forall name src,
    In (name, src) outputs -> FS.lookup src r <> None ->
    FS.lookup ["dist"; name] (tree_of (build s f r)) <> None.
Proof.
  intros Horigin Hentry Hripple Hclean Hblog Hdated Hemail Hassets Hcname.
  assert (Hdata := injectData_returns r email Hdated Hemail).
  assert (Ho : buildOriginHTML (cleaned r) = (Ok originHTML, cleaned r, [])).
  { destruct (buildOriginHTML_reads (cleaned r)) as (o & Ho & _).
    rewrite <- buildOriginHTML_cleaned, Ho in Horigin. cbn in Horigin.
    now subst o. }
  set (D1 := [("index.html", File entry)]).
  assert (Hcopy :
            (copyFileSync (path_join ROOT ["templates"; "entry.html"])
               (path_join DIST_DIR ["index.html"]) ;;
             console_log "  ✓ index.html (entry)") (cleaned r)
            = (Ok tt, inDistOf r D1, [Log "  ✓ index.html (entry)"])).
  { rewrite bind_run, cleaned_inDistOf.
    rewrite (copyFileSync_to_dist r _ "index.html" entry []);
      [reflexivity | | exact Logic.I].
    change (path_join ROOT ["templates"; "entry.html"])
      with ["templates"; "entry.html"].
    now rewrite lookup_inDistOf by discriminate. }
  destruct (origin_page_made originHTML "ripple.html" r D1 Hripple Logic.I)
    as (D2 & out2 & Hpage2 & Hframe2 & Hmade2).
  destruct (origin_page_made originHTML "clean.html" r D2 Hclean)
    as (D3 & out3 & Hpage3 & Hframe3 & Hmade3).
  { rewrite Hframe2 by discriminate. exact Logic.I. }
  assert (Hloop :
            for_of ["ripple.html"; "clean.html"] tt
              (fun _ page => origin_page originHTML page) (inDistOf r D1)
            = (Ok tt, inDistOf r D3, out2 ++ out3 ++ [])).
  { cbn [for_of]. rewrite bind_run, Hpage2. rewrite bind_run, Hpage3.
    reflexivity. }
  destruct (blog_page_made r D3 Hblog Hdata)
    as (D4 & out4 & Hpage4 & Hframe4 & Hmade4).
  { rewrite Hframe3, Hframe2 by discriminate. exact Logic.I. }
  assert (HD4 : forall name,
             name = "assets" \/ name = "CNAME" -> assoc name D4 = None).
  { intros name [-> | ->];
      now rewrite Hframe4, Hframe3, Hframe2 by discriminate. }
  assert (Hassets' :
            exists D5,
              (if match FS.lookup ["assets"] r with Some _ => true | None => false end
               then copyDirSync (path_join ROOT ["assets"])
                      (path_join DIST_DIR ["assets"]) ;;
                    console_log "  ✓ assets/"
               else ret tt) (inDistOf r D4)
              = (Ok tt, inDistOf r D5,
                 reported "  ✓ assets/" (FS.lookup ["assets"] r))
              /\ (forall name, name <> "assets" -> assoc name D5 = assoc name D4)
              /\ (FS.lookup ["assets"] r <> None -> assoc "assets" D5 <> None)).
  { destruct (FS.lookup ["assets"] r) as [[d|es]|] eqn:Ea;
      [now destruct Hassets| |].
    - exists (D4 ++ [("assets", Dir es)]). split; [|split].
      + rewrite bind_run.
        rewrite (copyDirSync_to_dist r D4 es "assets" ltac:(discriminate) Ea Hassets)
          by (apply HD4; now left).
        reflexivity.
      + intros name Hname. rewrite FSFacts.assoc_app.
        destruct (assoc name D4); [reflexivity|].
        cbn [assoc]. destruct (String.eqb name "assets") eqn:E; [|reflexivity].
        apply String.eqb_eq in E. contradiction.
      + intros _. rewrite FSFacts.assoc_app, HD4 by now left. discriminate.
    - exists D4. split; [reflexivity|]. split; [reflexivity|].
      intros H. now destruct H. }
  destruct Hassets' as (D5 & Hrun5 & Hframe5 & Hmade5).
  assert (Hcname' :
            exists D6 out,
              (if match FS.lookup ["CNAME"] r with Some _ => true | None => false end
               then copyFileSync (path_join ROOT ["CNAME"])
                      (path_join DIST_DIR ["CNAME"]) ;;
                    console_log "  ✓ CNAME"
               else ret tt) (inDistOf r D5)
              = (Ok tt, inDistOf r D6, out)
              /\ (forall name, name <> "CNAME" -> assoc name D6 = assoc name D5)
              /\ (FS.lookup ["CNAME"] r <> None -> assoc "CNAME" D6 <> None)).
  { assert (HD5 : assoc "CNAME" D5 = None)
      by (rewrite Hframe5 by discriminate; apply HD4; now right).
    destruct (FS.lookup ["CNAME"] r) as [[c|es]|] eqn:Ec;
      [ |now destruct Hcname| ].
    - eexists _, _. split; [|split].
      + rewrite bind_run.
        rewrite (copyFileSync_to_dist r _ "CNAME" c D5);
          [ reflexivity
          | change (path_join ROOT ["CNAME"]) with ["CNAME"];
            now rewrite lookup_inDistOf by discriminate
          | now rewrite HD5].
      + intros name Hname. now apply FSFacts.assoc_set_other.
      + intros _. now rewrite FSFacts.assoc_set_same.
    - eexists _, _. split; [reflexivity|]. split; [reflexivity|].
      intros H. now destruct H. }
  destruct Hcname' as (D6 & out6 & Hrun6 & Hframe6 & Hmade6).
  assert (Hrun : outcome_of (build s f r) = Ok tt /\
                 tree_of (build s f r) = inDistOf r D6).
  { split.
    all: rewrite build_unfold.
    all: run_step (started_line r); run_step (cleanDir_run r); run_step Ho.
    all: run_step (origin_line originHTML (cleaned r)); run_step (entry_exists r).
    all: rewrite Hentry; cbv iota.
    all: run_step Hcopy; unfold build_pages; run_step Hloop.
    all: unfold build_tail; cbv zeta.
    all: change (path_join ROOT ["templates"; "blog.html"])
           with ["templates"; "blog.html"].
    all: run_step (existsSync_run ["templates"; "blog.html"] (inDistOf r D3)).
    all: rewrite lookup_inDistOf by discriminate.
    all: run_step Hpage4.
    all: run_step (existsSync_run (path_join ROOT ["assets"]) (inDistOf r D4)).
    all: change (path_join ROOT ["assets"]) with ["assets"] at 1.
    all: rewrite lookup_inDistOf by discriminate.
    all: run_step Hrun5.
    all: run_step (existsSync_run (path_join ROOT ["CNAME"]) (inDistOf r D5)).
    all: change (path_join ROOT ["CNAME"]) with ["CNAME"] at 1.
    all: rewrite lookup_inDistOf by discriminate.
    all: run_step Hrun6.
    all: reflexivity. }
  destruct Hrun as [Hout Htree]. split; [exact Hout|].
  intros name src Hin Hsrc. rewrite Htree, lookup_dist_inDistOf.
  cbn in Hin.
  destruct Hin as [H|[H|[H|[H|[H|[H|[]]]]]]]; inversion H; subst name src.
  - rewrite Hframe6, Hframe5, Hframe4, Hframe3, Hframe2 by discriminate.
    discriminate.
  - rewrite Hframe6, Hframe5, Hframe4, Hframe3 by discriminate. auto.
  - rewrite Hframe6, Hframe5, Hframe4 by discriminate. auto.
  - rewrite Hframe6, Hframe5 by discriminate. auto.
  - rewrite Hframe6 by discriminate. auto.
  - auto.
Qed.

End Produces.

(** ** Builds of sound projects *)

Section Sound.
Context {host : Host}.

(** X4: a project with its four templates, whose origin document and
    data are read without an exception and whose posts are sorted as
    every engine sorts them (each has a date key, and the comparison of
    the host is consistent): the build returns, [dist] holds the entry
    page as it is, the two origin pages with the origin fragment
    injected, the blog page with the data injected, then the copy of
    [assets] and of [CNAME] where there are any, in this order and
    nothing else; everything else is as it was, and the console has a
    line for each, the last with the elapsed time. *)
Theorem build_complete (s f : Z) (r : tree) (originHTML : option string)
        (entry ripple clean blog html : string) :
  (forall u v, (localeCompare u v < 0)%Z -> (localeCompare v u >= 0)%Z) ->
  (forall u v w, (localeCompare u v >= 0)%Z -> (localeCompare v w >= 0)%Z ->
                 (localeCompare u w >= 0)%Z) ->
  datedPosts r ->
  outcome_of (buildOriginHTML r) = Ok originHTML ->
  FS.lookup ["templates"; "entry.html"] r = Some (File entry) ->
  FS.lookup ["templates"; "ripple.html"] r = Some (File ripple) ->
  FS.lookup ["templates"; "clean.html"] r = Some (File clean) ->
  FS.lookup ["templates"; "blog.html"] r = Some (File blog) ->
  outcome_of (injectData blog r) = Ok html ->
  directoryOrNothing (FS.lookup ["assets"] r) ->
  notDir (FS.lookup ["CNAME"] r) ->
  build s f r =
  (Ok tt,
   inDistOf r
     ([("index.html", File entry);
       ("ripple.html", File (injectOrigin ripple originHTML));
       ("clean.html", File (injectOrigin clean originHTML));
       ("blog.html", File html)]
      ++ copied "assets" (FS.lookup ["assets"] r)
      ++ copied "CNAME" (FS.lookup ["CNAME"] r)),
   [Log "white_silence_black_ink — build started";
    if truthy originHTML then Log "  ✓ origin.json loaded"
    else Warn "  ⚠  origin.json not found — origin pages will have empty content";
    Log "  ✓ index.html (entry)";
    Log "  ✓ ripple.html (origin injected)";
    Log "  ✓ clean.html (origin injected)"]
   ++ console_of (injectData blog r)
   ++ [Log "  ✓ blog.html (SPA)"]
   ++ reported "  ✓ assets/" (FS.lookup ["assets"] r)
   ++ reported "  ✓ CNAME" (FS.lookup ["CNAME"] r)
   ++ [Log (Str.newline +:+ "━━━ Build complete in "
            +:+ toFixed2 (f - s) +:+ "s ━━━" +:+ Str.newline)]).
Proof.
  intros _ _ _ Horigin Hentry Hripple Hclean Hblog Hdata Hassets Hcname.
  assert (Ho : buildOriginHTML (cleaned r) = (Ok originHTML, cleaned r, [])).
  { destruct (buildOriginHTML_reads (cleaned r)) as (o & Ho & _).
    rewrite <- buildOriginHTML_cleaned, Ho in Horigin. cbn in Horigin.
    now subst o. }
  set (D1 := [("index.html", File entry)]).
  set (D2 := D1 ++ [("ripple.html", File (injectOrigin ripple originHTML))]).
  set (D3 := D2 ++ [("clean.html", File (injectOrigin clean originHTML))]).
  set (D4 := D3 ++ [("blog.html", File html)]).
  set (D5 := D4 ++ copied "assets" (FS.lookup ["assets"] r)).
  set (D6 := D5 ++ copied "CNAME" (FS.lookup ["CNAME"] r)).
  assert (Hcopy :
            (copyFileSync (path_join ROOT ["templates"; "entry.html"])
               (path_join DIST_DIR ["index.html"]) ;;
             console_log "  ✓ index.html (entry)") (cleaned r)
            = (Ok tt, inDistOf r D1, [Log "  ✓ index.html (entry)"])).
  { rewrite bind_run, cleaned_inDistOf.
    rewrite (copyFileSync_to_dist r _ "index.html" entry []);
      [reflexivity | | exact Logic.I].
    change (path_join ROOT ["templates"; "entry.html"])
      with ["templates"; "entry.html"].
    now rewrite lookup_inDistOf by discriminate. }
  assert (Hloop :
            for_of ["ripple.html"; "clean.html"] tt
              (fun _ page => origin_page originHTML page) (inDistOf r D1)
            = (Ok tt, inDistOf r D3,
               [Log "  ✓ ripple.html (origin injected)";
                Log "  ✓ clean.html (origin injected)"])).
  { cbn [for_of]. rewrite bind_run.
    rewrite (origin_page_run r originHTML "ripple.html" ripple D1 Hripple Logic.I).
    change (FS.set "ripple.html" (File (injectOrigin ripple originHTML)) D1) with D2.
    rewrite bind_run.
    rewrite (origin_page_run r originHTML "clean.html" clean D2 Hclean Logic.I).
    reflexivity. }
  assert (Hpage :
            (html <- readFileSync ["templates"; "blog.html"] ;;
             html <- injectData html ;;
             writeFileSync (path_join DIST_DIR ["blog.html"]) html ;;
             console_log "  ✓ blog.html (SPA)") (inDistOf r D3)
            = (Ok tt, inDistOf r D4,
               console_of (injectData blog r) ++ [Log "  ✓ blog.html (SPA)"])).
  { rewrite bind_run. unfold readFileSync at 1.
    rewrite lookup_inDistOf, Hblog by discriminate.
    rewrite bind_run, injectData_dist, Hdata.
    rewrite bind_run. unfold writeFileSync at 1.
    change (path_join DIST_DIR ["blog.html"]) with ["dist"; "blog.html"].
    rewrite (write_dist_file r _ "blog.html" html D3 Logic.I).
    unfold console_log. reflexivity. }
  assert (Hassets' :
            (if match FS.lookup ["assets"] r with Some _ => true | None => false end
             then copyDirSync (path_join ROOT ["assets"])
                    (path_join DIST_DIR ["assets"]) ;;
                  console_log "  ✓ assets/"
             else ret tt) (inDistOf r D4)
            = (Ok tt, inDistOf r D5,
               reported "  ✓ assets/" (FS.lookup ["assets"] r))).
  { unfold D5. destruct (FS.lookup ["assets"] r) as [[d|es]|] eqn:Ea;
      [now destruct Hassets| |].
    - rewrite bind_run.
      rewrite (copyDirSync_to_dist r D4 es "assets" ltac:(discriminate) Ea Hassets eq_refl).
      reflexivity.
    - cbn [copied]. now rewrite app_nil_r. }
  assert (HD5 : assoc "CNAME" D5 = None).
  { unfold D5. destruct (FS.lookup ["assets"] r) as [n|]; reflexivity. }
  assert (Hcname' :
            (if match FS.lookup ["CNAME"] r with Some _ => true | None => false end
             then copyFileSync (path_join ROOT ["CNAME"])
                    (path_join DIST_DIR ["CNAME"]) ;;
                  console_log "  ✓ CNAME"
             else ret tt) (inDistOf r D5)
            = (Ok tt, inDistOf r D6,
               reported "  ✓ CNAME" (FS.lookup ["CNAME"] r))).
  { unfold D6. destruct (FS.lookup ["CNAME"] r) as [[c|es]|] eqn:Ec;
      [ |now destruct Hcname| ].
    - rewrite bind_run.
      rewrite (copyFileSync_to_dist r _ "CNAME" c D5);
        [ | change (path_join ROOT ["CNAME"]) with ["CNAME"];
            now rewrite lookup_inDistOf by discriminate
          | now rewrite HD5].
      rewrite (FSFacts.set_absent _ _ _ HD5). reflexivity.
    - cbn [copied]. now rewrite app_nil_r. }
  apply run_eq.
  all: rewrite build_unfold.
  all: run_step (started_line r); run_step (cleanDir_run r); run_step Ho.
  all: run_step (origin_line originHTML (cleaned r)); run_step (entry_exists r).
  all: rewrite Hentry; cbv iota.
  all: run_step Hcopy; unfold build_pages; run_step Hloop.
  all: unfold build_tail; cbv zeta.
  all: change (path_join ROOT ["templates"; "blog.html"])
         with ["templates"; "blog.html"].
  all: run_step (existsSync_run ["templates"; "blog.html"] (inDistOf r D3)).
  all: rewrite lookup_inDistOf, Hblog by discriminate; cbv iota.
  all: run_step Hpage.
  all: run_step (existsSync_run (path_join ROOT ["assets"]) (inDistOf r D4)).
  all: change (path_join ROOT ["assets"]) with ["assets"] at 1.
  all: rewrite lookup_inDistOf by discriminate.
  all: run_step Hassets'.
  all: run_step (existsSync_run (path_join ROOT ["CNAME"]) (inDistOf r D5)).
  all: change (path_join ROOT ["CNAME"]) with ["CNAME"] at 1.
  all: rewrite lookup_inDistOf by discriminate.
  all: run_step Hcname'.
  - reflexivity.
  - unfold D6, D5, D4, D3, D2, D1. cbn [tree_of console_log fst snd].
    now rewrite <- !app_assoc.
  - unfold console_log. cbn [console_of snd app]. now rewrite <- !app_assoc.
Qed.


(** X15: the sources that a build can do without.  With an origin
    document that is read without an exception, the entry template,
    posts that have each a date key and a contact address that is a text,
    the build returns, exit code 0, with every output whose source is
    there, whether or not there are the templates of the origin pages and
    of the blog page, [assets] and [CNAME]: none of them is there as a
    node of the other kind. *)
Theorem build_returns (s f : Z) (r : tree) (originHTML : option string)
        (entry email : string) :
  outcome_of (buildOriginHTML r) = Ok originHTML ->
  FS.lookup ["templates"; "entry.html"] r = Some (File entry) ->
  notDir (FS.lookup ["templates"; "ripple.html"] r) ->
  notDir (FS.lookup ["templates"; "clean.html"] r) ->
  notDir (FS.lookup ["templates"; "blog.html"] r) ->
  datedPosts r ->
  textField "contact_email"
    (valueOr (parsedAt ["content"; "site.json"] r) (JObject [])) = Some email ->
  directoryOrNothing (FS.lookup ["assets"] r) ->
  notDir (FS.lookup ["CNAME"] r) ->
  outcome_of (build s f r) = Ok tt /\
  exitCode (outcome_of (build s f r)) = 0%Z /\
  (forall name src,
      In (name, src) outputs -> FS.lookup src r <> None ->
      FS.lookup ["dist"; name] (tree_of (build s f r)) <> None).
Proof.
  intros Horigin Hentry Hripple Hclean Hblog Hdated Hemail Hassets Hcname.
  destruct (build_produces s f r originHTML entry email) as [Hout Hmade];
    try assumption.
  split; [exact Hout|]. split; [now rewrite Hout | exact Hmade].
Qed.

(** X16: a directory in the place of [templates/entry.html] passes the
    check of [existsSync]: the build does not print that the template is
    not found and does not call [process.exit]; it ends in the [EISDIR]
    exception of [copyFileSync], exit code 1, after the line of the origin
    document, with an empty [dist]. *)
Theorem build_entry_directory (s f : Z) (r es : tree) (originHTML : option string) :
  outcome_of (buildOriginHTML r) = Ok originHTML ->
  FS.lookup ["templates"; "entry.html"] r = Some (Dir es) ->
  (exists m, outcome_of (build s f r) = Throw (SystemError "EISDIR" m)) /\
  exitCode (outcome_of (build s f r)) = 1%Z /\
  FS.lookup ["dist"] (tree_of (build s f r)) = Some (Dir []) /\
  console_of (build s f r)
  = [Log "white_silence_black_ink — build started";
     if truthy originHTML then Log "  ✓ origin.json loaded"
     else Warn "  ⚠  origin.json not found — origin pages will have empty content"].
Proof.
  intros Horigin Hentry.
  assert (Ho : buildOriginHTML (cleaned r) = (Ok originHTML, cleaned r, [])).
  { destruct (buildOriginHTML_reads (cleaned r)) as (o & Ho & _).
    rewrite <- buildOriginHTML_cleaned, Ho in Horigin. cbn in Horigin.
    now subst o. }
  set (e := FS.EISDIR (FS.copyfile (path_join ROOT ["templates"; "entry.html"])
                         (path_join DIST_DIR ["index.html"]))).
  assert (Hcopy :
            (copyFileSync (path_join ROOT ["templates"; "entry.html"])
               (path_join DIST_DIR ["index.html"]) ;;
             console_log "  ✓ index.html (entry)") (cleaned r)
            = (Throw e, cleaned r, [])).
  { rewrite bind_run. unfold copyFileSync.
    change (FS.lookup (path_join ROOT ["templates"; "entry.html"]) (cleaned r))
      with (FS.lookup ["templates"; "entry.html"] (cleaned r)).
    now rewrite lookup_cleaned, Hentry by discriminate. }
  assert (Hrun : build s f r
                 = (Throw e, cleaned r,
                    [Log "white_silence_black_ink — build started";
                     if truthy originHTML then Log "  ✓ origin.json loaded"
                     else Warn "  ⚠  origin.json not found — origin pages will have empty content"])).
  { rewrite build_unfold.
    rewrite bind_run, started_line.
    rewrite bind_run, cleanDir_run.
    rewrite bind_run, Ho.
    rewrite bind_run, origin_line.
    rewrite bind_run, entry_exists, Hentry.
    rewrite bind_run, Hcopy. reflexivity. }
  rewrite Hrun. cbn [outcome_of tree_of console_of fst snd].
  split; [eexists; reflexivity|]. split; [reflexivity|]. split; [|reflexivity].
  unfold cleaned. rewrite lookup_cons.
  now rewrite (assoc_dist_last _ (FSFacts.assoc_unlink_same "dist" r)).
Qed.

(** X14: the posts that [readPosts] returns where the sort makes no
    call that throws.  Where every post that parses has a date key,
    [readPosts] returns, whatever the comparison of the host: the posts
    of the files that parse, each once, in some order, as many as there
    are such files.  Where fewer than two posts parse there is nothing to
    compare, and [readPosts] returns what parses, [null] included. *)
Theorem readPosts_returns_every_post (r es : tree) :
  FS.lookup ["content"; "posts"] r = Some (Dir es) ->
  (Forall (fun post => dateKey post <> None) (parsedPosts es) ->
   exists posts,
     readPosts r = (Ok posts, r, postWarnings es) /\
     Permutation (parsedPosts es) posts /\
     List.length posts = List.length (parsedPosts es)) /\
  (List.length (parsedPosts es) <= 1 ->
   readPosts r = (Ok (parsedPosts es), r, postWarnings es)).
Proof.
  intros Hdir. rewrite readPosts_run, Hdir. split.
  - intros Hdated. destruct (Array_sort_dated _ Hdated) as (posts & -> & Hperm).
    exists posts. split; [reflexivity|]. split; [exact Hperm|].
    symmetry. now apply Permutation_length.
  - intros Hlen. destruct (parsedPosts es) as [|post [|post' l]];
      [reflexivity | reflexivity | cbn in Hlen; lia].
Qed.

End Sound.

(** ** Posts that do not parse and origin pages, in a build *)

Section InBuild.
Context {host : Host}.


(** C4, as the code has it: a post file that does not parse is left out
    of the collection [readPosts] sorts, which is that of the other files,
    and has its warning on the console, with the name of the file and the
    message of the parser.  [readPosts] and the build end as they end on
    the project without that file, and the build leaves the same [dist].
    The build completes, with every output whose source is there, when
    the rest of the project is sound: the origin document is read without
    an exception, the entry template is a file, the other templates are
    files or missing, every post that parses has a date key, the contact
    address is a text, [assets] is a directory or missing and [CNAME] a
    file or missing. *)
Theorem readPosts_omits_malformed
        (s t : Z) (r es : tree) (f text m : string) :
  FS.lookup ["content"; "posts"] r = Some (Dir es) ->
  Str.endsWith f ".json" = true ->
  assoc f es = Some (File text) ->
  JSON_parse text = inr m ->
  let good := FS.remove ["content"; "posts"; f] r in
  readPosts r
  = (Array_sort byDateDescending (parsedPosts (FS.unlink f es)),
     r, postWarnings es) /\
  In (Warn ("  ⚠  " +:+ f +:+ ": " +:+ m)) (postWarnings es) /\
  FS.lookup ["content"; "posts"] good = Some (Dir (FS.unlink f es)) /\
  outcome_of (readPosts good) = outcome_of (readPosts r) /\
  outcome_of (build s t good) = outcome_of (build s t r) /\
  FS.lookup ["dist"] (tree_of (build s t good))
  = FS.lookup ["dist"] (tree_of (build s t r)) /\
  (forall (originHTML : option string) (entry email : string),
      outcome_of (buildOriginHTML r) = Ok originHTML ->
      FS.lookup ["templates"; "entry.html"] r = Some (File entry) ->
      notDir (FS.lookup ["templates"; "ripple.html"] r) ->
      notDir (FS.lookup ["templates"; "clean.html"] r) ->
      notDir (FS.lookup ["templates"; "blog.html"] r) ->
      Forall (fun post => dateKey post <> None) (parsedPosts (FS.unlink f es)) ->
      textField "contact_email"
        (valueOr (parsedAt ["content"; "site.json"] r) (JObject [])) = Some email ->
      directoryOrNothing (FS.lookup ["assets"] r) ->
      notDir (FS.lookup ["CNAME"] r) ->
      outcome_of (build s t r) = Ok tt /\
      (forall name src,
          In (name, src) outputs -> FS.lookup src r <> None ->
          FS.lookup ["dist"; name] (tree_of (build s t r)) <> None) /\
      exists posts,
        readPosts r = (Ok posts, r, postWarnings es) /\
        Permutation (parsedPosts (FS.unlink f es)) posts).
Proof.
  intros Hdir Hjson Hfile Hparse good.
  assert (Hload : loadPost es f = inr m)
    by (unfold loadPost; now rewrite Hfile).
  destruct (samePosts_without r es f m Hdir Hload) as [Hgood Hsame].
  assert (Hposts := parsedPosts_unlink f m es Hload).
  split; [|split; [|split; [|split; [|split; [|split]]]]].
  - rewrite readPosts_run, Hdir. now rewrite Hposts.
  - apply warning_of_malformed; auto. eapply assoc_In; eassumption.
  - exact Hgood.
  - apply (samePosts_readPosts good r Hsame).
  - apply (build_samePosts s t good r Hsame).
  - apply (build_samePosts s t good r Hsame).
  - intros originHTML entry email Horigin Hentry Hripple Hclean Hblog Hdated
           Hemail Hassets Hcname.
    assert (Hr : datedPosts r)
      by (unfold datedPosts; rewrite Hdir, <- Hposts; exact Hdated).
    destruct (build_produces s t r originHTML entry email) as [Hout Hmade];
      try assumption.
    split; [exact Hout|]. split; [exact Hmade|].
    destruct (Array_sort_dated _ Hdated) as (posts & Hsort & Hperm).
    exists posts. split; [|exact Hperm].
    now rewrite readPosts_run, Hdir, <- Hposts, Hsort.
Qed.


End InBuild.

(** ** The properties on the sample projects *)


Lemma build_keeps_sources_witness :
  FS.lookup ["CNAME"] (tree_of (Samples.ref_build 0 0 Samples.withAssets))
  = Some (File "example.org").
Proof.
  unfold Samples.ref_build.
  rewrite (proj1 (build_keeps_sources (host := Reference.host) 0 0 Samples.withAssets)
             "CNAME" [] ltac:(discriminate)).
  reflexivity.
Defined.

Lemma build_outputs_only_witness :
  exists src, In ("ripple.html", src) outputs /\
              FS.lookup src Samples.noOrigin <> None.
Proof.
  apply (build_outputs_only (host := Reference.host) 0 0 Samples.noOrigin
           "ripple.html" (File "<main><!-- __ORIGIN_HTML__ --></main>")).
  vm_compute. reflexivity.
Defined.

(** The build of [entryAndNullPost] ends in the TypeError of the sort,
    with its entry page. *)
Lemma build_copies_entry_witness :
  FS.lookup ["dist"; "index.html"]
    (tree_of (Samples.ref_build 0 0 Samples.entryAndNullPost))
  = Some (File "<html></html>") /\
  outcome_of (Samples.ref_build 0 0 Samples.entryAndNullPost)
  = Throw (nullishRead "null" "date").
Proof.
  split; [|vm_compute; reflexivity].
  apply (build_copies_entry (host := Reference.host) 0 0 Samples.entryAndNullPost
           None "<html></html>"); reflexivity.
Defined.

Lemma readPosts_entries_witness :
  console_of
    (Samples.ref_readPosts
       [("content",
         Dir [("posts",
               Dir [("a.json", File (Str.dq "{'date': '2024-01-01'}"));
                    ("drafts.json", Dir [])])])])
  = console_of (Samples.ref_readPosts Samples.postsAndNotes).
Proof.
  destruct (proj2 (readPosts_entries (host := Reference.host) Samples.postsAndNotes)
              [("content",
                Dir [("posts",
                      Dir [("a.json", File (Str.dq "{'date': '2024-01-01'}"));
                           ("drafts.json", Dir [])])])]
              [("a.json", File (Str.dq "{'date': '2024-01-01'}"));
               ("notes.txt", File "to do");
               ("drafts.json", Dir [])]
              "notes.txt" eq_refl eq_refl) as [H _].
  exact (proj2 (H eq_refl)).
Defined.

Lemma readPosts_keeps_listed_order_witness :
  Samples.ref_readPosts Samples.sameDay
  = (Ok [JObject [("date", JString "2024-01-01"); ("title", JString "b")];
         JObject [("date", JString "2024-01-01"); ("title", JString "a")];
         JObject [("title", JString "c")]],
     Samples.sameDay, []).
Proof.
  apply (readPosts_keeps_listed_order (host := Reference.host) Samples.sameDay
           [("b.json", File (Str.dq "{'date': '2024-01-01', 'title': 'b'}"));
            ("a.json", File (Str.dq "{'date': '2024-01-01', 'title': 'a'}"));
            ("c.json", File (Str.dq "{'title': 'c'}"))]).
  - reflexivity.
  - vm_compute. repeat constructor; discriminate.
  - vm_compute. repeat constructor; discriminate.
Defined.

Lemma templates_without_placeholders_witness :
  injectOrigin "<main>no origin here</main>" (Some "<p>ink</p>")
  = "<main>no origin here</main>".
Proof.
  apply (proj1 (templates_without_placeholders (host := Reference.host)
                  "<main>no origin here</main>")).
  reflexivity.
Defined.

Lemma buildOriginHTML_renders_witness :
  Samples.ref_buildOriginHTML Samples.fullSite
  = (Ok (Some (originColumns "<p>ink</p>" "<p>tinta</p>")), Samples.fullSite, []).
Proof.
  apply (proj2 (buildOriginHTML_renders (host := Reference.host) Samples.fullSite)
           [("body", JObject [("en", JString "<p>ink</p>");
                              ("es", JString "<p>tinta</p>")])]
           [("en", JString "<p>ink</p>"); ("es", JString "<p>tinta</p>")]);
    reflexivity.
Defined.

Lemma copyDirSync_of_file_witness :
  outcome_of (copyDirSync ["CNAME"] ["dist"; "CNAME"] Samples.withAssets)
  = Throw (FS.ENOTDIR "scandir" ["CNAME"]).
Proof.
  apply (copyDirSync_of_file ["CNAME"] ["dist"] "CNAME" Samples.withAssets
           [("old.html", File "old")] "example.org");
    try reflexivity.
  exists [], "CNAME", [], "dist", ["CNAME"].
  split; [reflexivity|]. split; [reflexivity | discriminate].
Defined.

Lemma build_ignores_old_dist_witness :
  Samples.ref_build 0 0 Samples.noEntry
  = Samples.ref_build 0 0
      [("templates", Dir [("blog.html", File "/*__POSTS_JSON__*/")])].
Proof.
  apply (build_ignores_old_dist (host := Reference.host)). reflexivity.
Defined.

(** Witness of X4: the project with every source. *)
Lemma build_complete_witness :
  outcome_of (Samples.ref_build 0 0 Samples.fullSite) = Ok tt /\
  FS.lookup ["dist"; "blog.html"] (tree_of (Samples.ref_build 0 0 Samples.fullSite))
  = Some (File "mailto:a@b.com").
Proof.
  assert (H := build_complete (host := Reference.host) 0 0 Samples.fullSite
                 (Some (originColumns "<p>ink</p>" "<p>tinta</p>"))
                 "<h1>white silence</h1>"
                 "<main><!-- __ORIGIN_HTML__ --></main>"
                 "<div><!-- __ORIGIN_HTML__ --></div>"
                 "mailto:/*__CONTACT_EMAIL__*/" "mailto:a@b.com"
                 ReferenceFacts.compareCodeUnits_total
                 ReferenceFacts.compareCodeUnits_trans Logic.I
                 eq_refl eq_refl eq_refl eq_refl eq_refl eq_refl eq_refl Logic.I).
  unfold Samples.ref_build. rewrite H. split; reflexivity.
Defined.

(** Witness of X14: the two posts of [twoPosts]. *)
Lemma readPosts_returns_every_post_witness :
  exists posts,
    Samples.ref_readPosts Samples.twoPosts = (Ok posts, Samples.twoPosts, []) /\
    List.length posts = 2.
Proof.
  destruct (proj1 (readPosts_returns_every_post (host := Reference.host)
                     Samples.twoPosts
                     [("a.json", File (Str.dq "{'date': '2024-01-01'}"));
                      ("b.json", File (Str.dq "{'date': '2024-06-01'}"))]
                     eq_refl))
    as (posts & Hrun & _ & Hlen).
  - vm_compute. repeat constructor; discriminate.
  - exists posts. split; [exact Hrun | exact Hlen].
Defined.

(** Witness of X15: a project without origin document, origin pages,
    assets and CNAME. *)
Lemma build_returns_witness :
  outcome_of (Samples.ref_build 0 0 Samples.malformedPost) = Ok tt /\
  exitCode (outcome_of (Samples.ref_build 0 0 Samples.malformedPost)) = 0%Z.
Proof.
  destruct (build_returns (host := Reference.host) 0 0 Samples.malformedPost
              None "<html></html>" "")
    as (H1 & H2 & _); try exact Logic.I; try reflexivity.
  - vm_compute. repeat constructor; discriminate.
  - split; [exact H1 | exact H2].
Defined.

(** Witness of X16: a directory for entry template. *)
Lemma build_entry_directory_witness :
  exitCode
    (outcome_of
       (Samples.ref_build 0 0 [("templates", Dir [("entry.html", Dir [])])]))
  = 1%Z.
Proof.
  apply (build_entry_directory (host := Reference.host) 0 0
           [("templates", Dir [("entry.html", Dir [])])] [] None);
    reflexivity.
Defined.

(** Witness of C4: [broken.json] between two posts; the build completes,
    with its blog page. *)
Lemma readPosts_omits_malformed_witness :
  outcome_of (Samples.ref_readPosts Samples.malformedPost)
  = Ok [JObject [("date", JString "2024-06-01")];
        JObject [("date", JString "2024-01-01")]] /\
  outcome_of (Samples.ref_build 0 0 Samples.malformedPost) = Ok tt /\
  FS.lookup ["dist"; "blog.html"]
    (tree_of (Samples.ref_build 0 0 Samples.malformedPost)) <> None.
Proof.
  destruct (readPosts_omits_malformed (host := Reference.host) 0 0
              Samples.malformedPost
              [("a.json", File (Str.dq "{'date': '2024-01-01'}"));
               ("broken.json", File "{oops");
               ("b.json", File (Str.dq "{'date': '2024-06-01'}"))]
              "broken.json" "{oops" "Unexpected token in JSON"
              eq_refl eq_refl eq_refl eq_refl)
    as (H1 & _ & _ & _ & _ & _ & H7).
  destruct (H7 None "<html></html>" "") as (Hout & Hmade & _);
    try exact Logic.I; try reflexivity.
  - vm_compute. repeat constructor; discriminate.
  - split; [|split].
    + unfold Samples.ref_readPosts. rewrite H1. reflexivity.
    + exact Hout.
    + apply (Hmade "blog.html" ["templates"; "blog.html"]).
      * cbn. auto.
      * discriminate.
Defined.

(** C4 as stated fails: a post file that does not parse beside one that
    holds [null] and a post; the build does not complete and there is no
    blog page. *)
Lemma readPosts_malformed_beside_null :
  (exists m, @JSON_parse Reference.host "{oops" = inr m) /\
  FS.lookup ["templates"; "blog.html"] Samples.brokenAndNull
  = Some (File "var posts = /*__POSTS_JSON__*/;") /\
  outcome_of (Samples.ref_build 0 0 Samples.brokenAndNull)
  = Throw (nullishRead "null" "date") /\
  exitCode (outcome_of (Samples.ref_build 0 0 Samples.brokenAndNull)) = 1%Z /\
  FS.lookup ["dist"; "blog.html"]
    (tree_of (Samples.ref_build 0 0 Samples.brokenAndNull)) = None /\
  outcome_of (Samples.ref_build 0 0 Samples.brokenAndNull) <> Ok tt.
Proof.
  split; [eexists; vm_compute; reflexivity|].
  split; [reflexivity|]. split; [vm_compute; reflexivity|].
  split; [vm_compute; reflexivity|]. split; [vm_compute; reflexivity|].
  vm_compute. discriminate.
Qed.


